(** * Conversational banking agent: session state, routing, loan and card
      operations

    A shallow embedding of the dialogue core of the banking agent
    ([core/state_manager.py], [core/agent.py]) and of the data-access
    functions it calls ([services/database_service.py],
    [services/mock_banking_api.py], [tools/banking_api.py],
    [core/tool_executor.py]), followed by the properties of the
    specification that were checked against it and by further properties
    read off the code.

    Conventions of the embedding.
    - A Python [dict] with string keys is a [gmap string _]; a session state
      document is a [gmap string json] whose values are JSON values, since
      every document goes through [json.dumps]/[json.loads] on its way to
      and from the [session_state] table.
    - A Python [float] is the rational ([Q]) it denotes, and an arithmetic
      operation on floats is the exact operation followed by the rounding
      of binary64 to the nearest float, ties to even ([fl]); infinities
      and NaN are not modelled.
    - A Python [str] is a [string] of 8-bit characters; [lower()] maps
      [A]-[Z] to [a]-[z] and leaves every other character alone.
    - A raised exception is the [Raise] constructor of the [py] monad.
    - The wording of replies (the f-strings of the handlers) is not
      modelled: a handler returns the stores it leaves behind and a tag
      naming the branch that produced the reply. *)

From Stdlib Require Import QArith Qround ZArith Ascii String List Bool Lia.
From Stdlib Require Import Qabs DecimalString.
From stdpp Require Import gmap strings list fin_maps.

#[local] Set Warnings "-register-all".
#[local] Open Scope string_scope.

(** ** The exception monad of the embedding *)

Inductive py (A : Type) : Type :=
  | Ret (a : A)
  | Raise (exn : string).
Arguments Ret {A} a.
Arguments Raise {A} exn.

Definition py_bind {A B : Type} (c : py A) (k : A -> py B) : py B :=
  match c with
  | Ret a => k a
  | Raise e => Raise e
  end.

Notation "'do' x <- c ; k" := (py_bind c (fun x => k))
  (at level 10, x name, c at level 100, k at level 200,
   format "'[v' 'do'  x  <-  c ; '/' k ']'").
Notation "'do' ' p <- c ; k" := (py_bind c (fun x => let 'p := x in k))
  (at level 10, p strict pattern, c at level 100, k at level 200,
   format "'[v' 'do'  ' p  <-  c ; '/' k ']'").

(** ** JSON values *)

Inductive json : Type :=
  | JNull
  | JBool (b : bool)
  | JNum (q : Q)
  | JStr (s : string)
  | JArr (l : list json)
  | JObj (m : gmap string json).

(** Python truthiness of a value that came out of a JSON document. *)
Definition truthy (v : json) : bool :=
  match v with
  | JNull => false
  | JBool b => b
  | JNum q => negb (Qnum q =? 0)%Z
  | JStr s => negb (String.eqb s "")
  | JArr l => negb (Nat.eqb (length l) 0)
  | JObj m => negb (Nat.eqb (size m) 0)
  end.

(** [v == 'text'] for a string literal. *)
Definition is_str (v : json) (s : string) : bool :=
  match v with
  | JStr s' => String.eqb s' s
  | _ => false
  end.

(** [d.get(k)]: the value under [k], [None] (JSON null) when the key is
    missing, [AttributeError] when [d] is not a dict. *)
Definition dict_get (d : json) (k : string) : py json :=
  match d with
  | JObj m => Ret (default JNull (m !! k))
  | _ => Raise "AttributeError"
  end.

(** [d.get(k, {})]. *)
Definition dict_get_obj (d : json) (k : string) : py json :=
  match d with
  | JObj m => Ret (default (JObj ∅) (m !! k))
  | _ => Raise "AttributeError"
  end.

(** [state.get(k)] and [state.get(k, {})] on a state document. *)
Definition doc_get (st : gmap string json) (k : string) : json :=
  default JNull (st !! k).

Definition doc_get_obj (st : gmap string json) (k : string) : json :=
  default (JObj ∅) (st !! k).

(** ** core/state_manager.py *)

Module StateManager.

(** The [session_state] table: [session_id] is the primary key and
    [state_data] holds the serialised document. *)
Abbreviation table := (gmap string (gmap string json)).

Definition get_state (t : table) (session_id : string)
  : option (gmap string json) :=
  t !! session_id.

(** [existing_state = self.get_state(session_id) or {}];
    [existing_state.update(new_state_data)]; [INSERT OR REPLACE];
    [return existing_state]. *)
Definition update_state (t : table) (session_id : string)
    (new_state_data : gmap string json)
  : table * gmap string json :=
  let existing_state := default ∅ (get_state t session_id) in
  let existing_state := new_state_data ∪ existing_state in
  (<[session_id := existing_state]> t, existing_state).

Definition clear_state (t : table) (session_id : string) : table :=
  delete session_id t.

Definition set_state (t : table) (session_id : string)
    (state_data : gmap string json) : table :=
  <[session_id := state_data]> t.

(** A sequence of updates applied to one session, oldest first. *)
Definition update_all (t : table) (session_id : string)
    (us : list (gmap string json)) : table :=
  foldl (fun t u => fst (update_state t session_id u)) t us.

End StateManager.

(** The shallow union of the specification: the value of a key is the one
    given by the last update that sets it. *)
Definition last_binding (k : string) (us : list (gmap string json))
  : option json :=
  foldl (fun acc u => match u !! k with Some v => Some v | None => acc end)
        None us.

(** ** Strings: [lower], [in], [strip], and the two amount patterns *)

Definition lower_ascii (c : ascii) : ascii :=
  let n := nat_of_ascii c in
  if (65 <=? n)%nat && (n <=? 90)%nat then ascii_of_nat (n + 32) else c.

Fixpoint lower (s : string) : string :=
  match s with
  | EmptyString => EmptyString
  | String c r => String (lower_ascii c) (lower r)
  end.

(** [sub in s]. *)
Fixpoint str_in (sub s : string) : bool :=
  String.prefix sub s ||
  match s with
  | EmptyString => false
  | String _ r => str_in sub r
  end.

(** [any(phrase in s for phrase in phrases)]. *)
Definition any_in (phrases : list string) (s : string) : bool :=
  existsb (fun phrase => str_in phrase s) phrases.

Definition is_space (c : ascii) : bool :=
  let n := nat_of_ascii c in
  ((9 <=? n)%nat && (n <=? 13)%nat) || ((28 <=? n)%nat && (n <=? 32)%nat).

Fixpoint lstrip (s : string) : string :=
  match s with
  | EmptyString => EmptyString
  | String c r => if is_space c then lstrip r else s
  end.

Definition str_rev (s : string) : string :=
  string_of_list_ascii (rev (list_ascii_of_string s)).

Definition strip (s : string) : string :=
  str_rev (lstrip (str_rev (lstrip s))).

Definition is_digit (c : ascii) : bool :=
  let n := nat_of_ascii c in (48 <=? n)%nat && (n <=? 57)%nat.

(** The character class [[0-9,]]. *)
Definition is_numch (c : ascii) : bool :=
  is_digit c || Ascii.eqb c ","%char.

(** The characters a bare amount is written with. *)
Definition numeric_char (c : ascii) : bool :=
  is_numch c || Ascii.eqb c "$"%char || Ascii.eqb c "."%char.

(** [all(P(c) for c in s)]. *)
Definition all_chars (P : ascii -> bool) (s : string) : bool :=
  forallb P (list_ascii_of_string s).

(** The longest prefix in [[0-9,]] and what follows it. *)
Fixpoint span_numch (s : string) : string * string :=
  match s with
  | EmptyString => (EmptyString, EmptyString)
  | String c r =>
      if is_numch c
      then let '(run, rest) := span_numch r in (String c run, rest)
      else (EmptyString, s)
  end.

(** [re.match(r'^\$?[0-9,]+(?:\.[0-9]{2})?$', s)] as a truth value, for a
    stripped [s] (no trailing newline for the final [$] to skip). *)
Definition is_numerical_response (s : string) : bool :=
  let s1 := match s with
            | String c r => if Ascii.eqb c "$"%char then r else s
            | EmptyString => s
            end in
  let '(run, rest) := span_numch s1 in
  negb (String.eqb run "") &&
  match rest with
  | EmptyString => true
  | String c (String d1 (String d2 EmptyString)) =>
      Ascii.eqb c "."%char && is_digit d1 && is_digit d2
  | _ => false
  end.

(** Group 1 of a match of [[0-9,]+(?:\.[0-9]{2})?] anchored at the head of
    [s], which starts with a character of the class. *)
Definition amount_group_here (s : string) : string :=
  let '(run, rest) := span_numch s in
  match rest with
  | String c (String d1 (String d2 _)) =>
      if Ascii.eqb c "."%char && is_digit d1 && is_digit d2
      then run ++ String "."%char (String d1 (String d2 EmptyString))
      else run
  | _ => run
  end.

(** Group 1 of [re.search(r'\$?([0-9,]+(?:\.[0-9]{2})?)', s)]: the leftmost
    match starts at the first character of the class (or at the [$] just
    before it), so the group starts there. *)
Fixpoint amount_search (s : string) : option string :=
  match s with
  | EmptyString => None
  | String c r => if is_numch c then Some (amount_group_here s)
                  else amount_search r
  end.

(** [s.replace(c, '')] for a one-character [c]. *)
Fixpoint remove_char (c : ascii) (s : string) : string :=
  match s with
  | EmptyString => EmptyString
  | String d r => if Ascii.eqb d c then remove_char c r
                  else String d (remove_char c r)
  end.

(** ** Numbers: the arithmetic of [float]

    A [float] of Python is a binary64 number of IEEE 754. The finite ones
    are the rationals [m * 2^e] with [|m| < 2^53] and [-1074 <= e], below
    [2^1024] in magnitude; a [float] is here the rational it denotes, and
    an operation of Python is the exact operation followed by the rounding
    [fl] to the nearest such number. Infinities and NaN have no
    counterpart: a result of magnitude [2^1024] or more, which Python
    turns into [inf], is outside the embedding. *)

(** The integer nearest to [x], ties going to the even one. *)
Definition round_half_even (x : Q) : Z :=
  let f := Qfloor x in
  let r := (x - inject_Z f)%Q in
  match (r ?= 1 # 2)%Q with
  | Lt => f
  | Gt => (f + 1)%Z
  | Eq => if Z.even f then f else (f + 1)%Z
  end.

(** The binade of a number other than zero: the [k] with
    [2^k <= |x| < 2^(k+1)]. *)
Definition ilog2 (x : Q) : Z :=
  let k := (Z.log2 (Z.abs (Qnum x)) - Z.log2 (Zpos (Qden x)))%Z in
  if Qlt_le_dec (Qabs x) (2 ^ k) then (k - 1)%Z else k.

(** Rounding to nearest, ties to even: 53 bits of mantissa, and the
    spacing [2^-1074] of the subnormal numbers below [2^-1022]. *)
Definition fl (x : Q) : Q :=
  let x := Qred x in
  if Qeq_bool x 0 then 0
  else
    let e := Z.max (ilog2 x - 52) (-1074) in
    Qred (inject_Z (round_half_even (x * 2 ^ (- e))) * 2 ^ e).

(** A finite [float]. *)
Definition is_double (x : Q) : bool :=
  Qeq_bool (fl x) x && (if Qlt_le_dec (Qabs x) (2 ^ 1024) then true else false).

(** A float of modest magnitude, zero or between [2^-500] and [2^500]:
    on such numbers no operation below comes near [2^1024]. *)
Definition modest (x : Q) : bool :=
  is_double x &&
  (Qeq_bool x 0 || (Qle_bool (2 ^ (-500)) (Qabs x) && Qle_bool (Qabs x) (2 ^ 500))).

(** [x + y], [x - y], [x * y] and [x / y] on floats; the callers of
    [fdiv] have excluded a zero divisor, the [ZeroDivisionError] of
    Python. *)
Definition fadd (x y : Q) : Q := fl (x + y).
Definition fsub (x y : Q) : Q := fl (x - y).
Definition fmul (x y : Q) : Q := fl (x * y).
Definition fdiv (x y : Q) : Q := fl (x / y).

(** [x ** n] for a float [x] and an [int] [n], the [pow] of the C library.
    That function is not specified to the last bit; it is taken to be
    correctly rounded, which it is at the four arguments that reach it
    here (lemma [growth_factors] lists its values there). *)
Definition fpow (x : Q) (n : Z) : Q := fl (x ^ n).

(** [round(x, ndigits)] for a float [x]: the decimal with [ndigits]
    places nearest to the exact value of [x], ties going to the even
    digit, then the float nearest to that decimal. *)
Definition round_digits (ndigits : Z) (x : Q) : Q :=
  fl (inject_Z (round_half_even (x * 10 ^ ndigits)) / 10 ^ ndigits).

(** [round(x, 1)] and [round(x, 2)]. *)
Definition round1 (x : Q) : Q := round_digits 1 x.
Definition round2 (x : Q) : Q := round_digits 2 x.

(** The number written by a string of decimal digits. *)
Fixpoint digits_value (acc : Z) (s : string) : option Z :=
  match s with
  | EmptyString => Some acc
  | String c r =>
      if is_digit c
      then digits_value (10 * acc + Z.of_nat (nat_of_ascii c - 48)) r
      else None
  end.

Fixpoint split_dot (s : string) : string * option string :=
  match s with
  | EmptyString => (EmptyString, None)
  | String c r =>
      if Ascii.eqb c "."%char then (EmptyString, Some r)
      else let '(i, f) := split_dot r in (String c i, f)
  end.

(** [float(s)] for the strings that reach it here: digits with an optional
    fractional part, read as the float nearest to the decimal.  Anything
    else, the empty string included, is the [ValueError] of Python.  A
    decimal of [2^1024] or more, which [float] reads as [inf], is outside
    the embedding. *)
Definition float_of_string (s : string) : py Q :=
  match split_dot s with
  | (ip, None) =>
      match ip, digits_value 0 ip with
      | String _ _, Some n => Ret (fl (n # 1))
      | _, _ => Raise "ValueError"
      end
  | (ip, Some fp) =>
      match digits_value 0 ip, digits_value 0 fp with
      | Some n, Some f =>
          if (String.length ip + String.length fp =? 0)%nat
          then Raise "ValueError"
          else Ret (fl ((n * 10 ^ Z.of_nat (String.length fp) + f)
                        # Pos.pow 10 (Pos.of_nat (String.length fp))))
      | _, _ => Raise "ValueError"
      end
  end.


(** ** services/database_service.py *)

Module DatabaseService.

(** A row of [users]. *)
Record user : Type := {
  name : string;
  account_number : string;
  account_type : string;
  balance : Q;
  available_balance : Q;
  pending_transactions : Q
}.

(** A row of [cards], without its primary key [card_id].  The [REAL] and
    [DATETIME] columns, which the seed data leaves [NULL] in some rows, and
    [blocked_reason] are options; the other [TEXT] columns hold a string
    in every row the code writes. *)
Record card : Type := {
  card_user_id : string;
  card_type : string;
  card_number : string;
  last_four : string;
  card_status : string;
  limit_amount : option Q;
  available_credit : option Q;
  brand : string;
  expiry : string;
  annual_fee : option Q;
  daily_limit : option Q;
  blocked_date : option string;
  blocked_reason : option string;
  card_updated_at : string
}.

(** A row of [loan_applications]. *)
Record loan : Type := {
  application_id : string;
  loan_user_id : string;
  amount : Q;
  purpose : option string;
  annual_income : option Q;
  loan_status : string;
  interest_rate : option Q;
  term_months : option Z;
  monthly_payment : option Q;
  estimated_monthly_payment : option Q;
  debt_to_income_ratio : option Q;
  applied_date : option string;
  approved_date : option string;
  created_date : option string;
  next_step : option string
}.

(** The banking tables.  [loan_applications] lists the rows with the last
    one inserted first.  The column [created_at], a [CURRENT_TIMESTAMP]
    of one second's resolution, is not modelled. *)
Record db : Type := {
  users : gmap string user;
  cards : gmap string card;
  loan_applications : list loan
}.

Definition get_user (d : db) (user_id : string) : option user :=
  users d !! user_id.

Definition get_card (d : db) (card_id : string) : option card :=
  cards d !! card_id.

Definition with_cards (d : db) (cs : gmap string card) : db :=
  {| users := users d; cards := cs;
     loan_applications := loan_applications d |}.

(** [UPDATE cards SET status = 'blocked', blocked_date = CURRENT_TIMESTAMP,
    blocked_reason = 'Customer request', updated_at = CURRENT_TIMESTAMP
    WHERE card_id = ?]; the result is [cursor.rowcount > 0]. *)
Definition block_card (now : string) (d : db) (card_id : string)
  : db * bool :=
  match cards d !! card_id with
  | Some c =>
      let c' := {| card_user_id := card_user_id c;
                   card_type := card_type c;
                   card_number := card_number c;
                   last_four := last_four c;
                   card_status := "blocked";
                   limit_amount := limit_amount c;
                   available_credit := available_credit c;
                   brand := brand c;
                   expiry := expiry c;
                   annual_fee := annual_fee c;
                   daily_limit := daily_limit c;
                   blocked_date := Some now;
                   blocked_reason := Some "Customer request";
                   card_updated_at := now |} in
      (with_cards d (<[card_id := c']> (cards d)), true)
  | None => (d, false)
  end.

(** [UPDATE cards SET limit_amount = ?, available_credit = ?,
    updated_at = CURRENT_TIMESTAMP WHERE card_id = ?]. *)
Definition update_card_limit (now : string) (d : db) (card_id : string)
    (new_limit new_available_credit : Q) : db * bool :=
  match cards d !! card_id with
  | Some c =>
      let c' := {| card_user_id := card_user_id c;
                   card_type := card_type c;
                   card_number := card_number c;
                   last_four := last_four c;
                   card_status := card_status c;
                   limit_amount := Some new_limit;
                   available_credit := Some new_available_credit;
                   brand := brand c;
                   expiry := expiry c;
                   annual_fee := annual_fee c;
                   daily_limit := daily_limit c;
                   blocked_date := blocked_date c;
                   blocked_reason := blocked_reason c;
                   card_updated_at := now |} in
      (with_cards d (<[card_id := c']> (cards d)), true)
  | None => (d, false)
  end.

(** [SELECT * FROM loan_applications WHERE user_id = ?
    ORDER BY created_at DESC]: the rows of the user.  Their order here,
    last inserted first, is that of the query when no two of them were
    inserted within the same second; the properties below speak of the
    rows up to their order. *)
Definition get_user_loans (d : db) (user_id : string) : list loan :=
  List.filter (fun l => String.eqb (loan_user_id l) user_id)
              (loan_applications d).

(** [INSERT INTO loan_applications ...]: [application_id] is the primary
    key, so a second row with the same id is an [IntegrityError]. *)
Definition add_loan_application (d : db) (row : loan) : py db :=
  if existsb (fun l => String.eqb (application_id l) (application_id row))
             (loan_applications d)
  then Raise "IntegrityError"
  else Ret {| users := users d; cards := cards d;
              loan_applications := row :: loan_applications d |}.

(** [SELECT * FROM cards WHERE user_id = ? ORDER BY created_at], each row
    with its [card_id].  The rows come in the order of the card ids;
    [created_at] is not modelled. *)
Definition get_user_cards (d : db) (user_id : string)
  : list (string * card) :=
  List.filter (fun row => String.eqb (card_user_id (snd row)) user_id)
              (map_to_list (cards d)).

End DatabaseService.

(** ** services/mock_banking_api.py *)

Module MockBankingApi.
Import DatabaseService.

(** A result dictionary.  Messages built by f-strings are left out;
    the fixed ones are kept. *)
Abbreviation result := (gmap string json).

Definition error (message : string) : result :=
  {[ "status" := JStr "error"; "message" := JStr message ]}.

(** The result of the [except] clause; its message quotes the exception
    and is left out. *)
Definition database_error : result := {[ "status" := JStr "error" ]}.

Definition status_of (r : result) : json := doc_get r "status".

(** [block_card_data(user_id, card_id)].  [now] is the value of
    [CURRENT_TIMESTAMP] and [hhmm] of [strftime('%H%M')]. *)
Definition block_card_data (now hhmm : string) (d : db)
    (user_id card_id : string) : db * result :=
  match get_card d card_id with
  | None => (d, error "Card not found")
  | Some card =>
      if negb (String.eqb (card_user_id card) user_id)
      then (d, error "Unauthorized access to card")
      else if String.eqb (card_status card) "blocked"
      then (d, {[ "status" := JStr "warning";
                  "card_details" := JObj
                    {[ "type" := JStr (card_type card);
                       "brand" := JStr (brand card);
                       "last_four" := JStr (last_four card);
                       "status" := JStr (card_status card) ]} ]})
      else
        let '(d', success) := block_card now d card_id in
        if success then
          match get_card d' card_id with
          | Some updated_card =>
              (d', {[ "status" := JStr "success";
                      "confirmation_code" :=
                        JStr ("BLK" ++ last_four card ++ hhmm);
                      "next_steps" := JArr
                        [ JStr "A replacement card will be sent to your registered address within 3-5 business days";
                          JStr "Your online banking and mobile app access remains active";
                          JStr "Contact customer service at 1-800-BANK-HELP for any concerns" ];
                      "card_details" := JObj
                        {[ "type" := JStr (card_type card);
                           "brand" := JStr (brand card);
                           "last_four" := JStr (last_four card);
                           "blocked_date" :=
                             match blocked_date updated_card with
                             | Some t => JStr t
                             | None => JNull
                             end ]} ]})
          | None => (d', database_error)
          end
        else (d', error "Failed to block card")
  end.

(** [modify_credit_limit_data(user_id, card_id, new_limit)].  The
    [TypeError] of a [NULL] old limit and the [ZeroDivisionError] of a
    zero one are caught by the function's own [except]. *)
Definition modify_credit_limit_data (now : string) (d : db)
    (user_id card_id : string) (new_limit : Q) : db * result :=
  match get_card d card_id with
  | None => (d, error "Card not found")
  | Some card =>
      if negb (String.eqb (card_user_id card) user_id)
      then (d, error "Card not found")
      else if negb (String.eqb (card_type card) "credit")
      then (d, error "This operation is only available for credit cards")
      else
        let old_limit := limit_amount card in
        if Qlt_le_dec new_limit 1000
        then (d, error "Minimum credit limit is $1,000")
        else if Qlt_le_dec 100000 new_limit
        then (d, error "Maximum credit limit is $100,000")
        else
          match old_limit with
          | None => (d, database_error)
          | Some old_limit =>
              if Qeq_bool old_limit 0 then (d, database_error)
              else
                let available :=
                  match available_credit card with
                  | Some a => if Qeq_bool a 0 then 0%Q else a
                  | None => 0%Q
                  end in
                let utilization_ratio :=
                  fdiv (fsub old_limit available) old_limit in
                let new_available_credit :=
                  fsub new_limit (fmul new_limit utilization_ratio) in
                let '(d', success) :=
                  update_card_limit now d card_id new_limit
                                    new_available_credit in
                if success then
                  let change_type :=
                    if Qlt_le_dec old_limit new_limit
                    then "increased" else "decreased" in
                  (d', {[ "status" := JStr "success";
                          "process_complete" := JBool true;
                          "limit_change" := JObj
                            {[ "old_limit" := JNum old_limit;
                               "new_limit" := JNum new_limit;
                               "change_amount" :=
                                 JNum (Qabs (fsub new_limit old_limit));
                               "change_type" := JStr change_type ]} ]})
                else (d', error "Failed to update credit limit")
          end
  end.

(** Truthiness of an optional float and of an optional string. *)
Definition some_num (x : option Q) : bool :=
  match x with
  | Some q => negb (Qnum q =? 0)%Z
  | None => false
  end.

Definition some_text (x : option string) : bool :=
  match x with
  | Some t => negb (String.eqb t "")
  | None => false
  end.

Definition opt_num (x : option Q) : json :=
  match x with Some q => JNum q | None => JNull end.

Definition opt_text (x : option string) : json :=
  match x with Some t => JStr t | None => JNull end.

(** The banding of the interest rate; the literals are the floats
    nearest to the decimals. *)
Definition band (debt_to_income_ratio : Q) : Q :=
  if Qlt_le_dec debt_to_income_ratio (fl 0.1) then fl 5.2
  else if Qlt_le_dec debt_to_income_ratio (fl 0.2) then fl 6.5
  else if Qlt_le_dec debt_to_income_ratio (fl 0.3) then fl 8.2
  else fl 10.5.

Definition num_payments : Z := 60.

(** [interest_rate / 100 / 12]. *)
Definition monthly_rate_of (interest_rate : Q) : Q :=
  fdiv (fdiv interest_rate 100) 12.

(** The numerator and the denominator of the expression under
    [round(..., 2)] in the monthly payment, and the expression. *)
Definition payment_numerator (amount monthly_rate : Q) : Q :=
  fmul (fmul amount monthly_rate) (fpow (fadd 1 monthly_rate) num_payments).

Definition payment_denominator (monthly_rate : Q) : Q :=
  fsub (fpow (fadd 1 monthly_rate) num_payments) 1.

Definition payment_formula (amount interest_rate : Q) : Q :=
  let monthly_rate := monthly_rate_of interest_rate in
  fdiv (payment_numerator amount monthly_rate)
       (payment_denominator monthly_rate).

(** [f"LOAN{n:03d}"]. *)
Definition loan_id (n : nat) : string :=
  let digits := NilEmpty.string_of_uint (Nat.to_uint n) in
  "LOAN" ++ (if (String.length digits <? 3)%nat
             then string_of_list_ascii
                    (repeat "0"%char (3 - String.length digits))
             else "") ++ digits.

(** The first question of the dialogue, with or without the marker of a
    new application. *)
Definition ask_amount (is_new : bool) : result :=
  let r : result :=
    {[ "status" := JStr "info";
       "requires_continuation" := JBool true;
       "process_type" := JStr "loan_application";
       "current_step" := JStr "amount";
       "collected_data" := JObj ∅ ]} in
  if is_new then <["is_new_application" := JBool true]> r else r.

(** [apply_for_loan_data(user_id, amount, purpose, income, force_new)].
    [today] is [datetime.now().strftime("%Y-%m-%d")].  The denominator of
    the payment is not zero at any rate of the band (lemma
    [payment_denominator_nonzero]), so the division does not raise. *)
Definition apply_for_loan_data (today : string) (d : db) (user_id : string)
    (amount : option Q) (purpose : option string) (income : option Q)
    (force_new : bool) : db * result :=
  match get_user d user_id with
  | None => (d, error "User not found")
  | Some user =>
      let existing_apps := get_user_loans d user_id in
      let approved_loans :=
        List.filter (fun app => String.eqb (loan_status app) "approved")
                    existing_apps in
      if force_new ||
         (negb (some_num amount || some_text purpose || some_num income)
          && negb (Nat.eqb (length approved_loans) 0))
      then
        match approved_loans with
        | approved_loan :: _ =>
            (d, <["existing_loan" := JObj
                    {[ "application_id" :=
                         JStr (application_id approved_loan);
                       "amount" := JNum (DatabaseService.amount approved_loan);
                       "purpose" :=
                         opt_text (DatabaseService.purpose approved_loan) ]}]>
                  (ask_amount true))
        | [] => (d, ask_amount true)
        end
      else
        let amount_v := default 0%Q amount in
        let purpose_v := default "" purpose in
        let income_v := default 0%Q income in
        if negb (some_num amount) then (d, ask_amount false)
        else if negb (some_text purpose) then
          (d, {[ "status" := JStr "info";
                 "requires_continuation" := JBool true;
                 "process_type" := JStr "loan_application";
                 "current_step" := JStr "purpose";
                 "collected_data" := JObj {[ "amount" := JNum amount_v ]} ]})
        else if negb (some_num income) then
          (d, {[ "status" := JStr "info";
                 "requires_continuation" := JBool true;
                 "process_type" := JStr "loan_application";
                 "current_step" := JStr "income";
                 "collected_data" := JObj
                   {[ "amount" := JNum amount_v;
                      "purpose" := JStr purpose_v ]} ]})
        else
          let new_id := loan_id (length existing_apps + 1) in
          let debt_to_income :=
            fdiv (fmul amount_v 12)
                 (if Qlt_le_dec 0 income_v then income_v else 50000) in
          let rate := band debt_to_income in
          let payment := round2 (payment_formula amount_v rate) in
          let new_app : gmap string json :=
            {[ "application_id" := JStr new_id;
               "amount" := JNum amount_v;
               "purpose" := JStr purpose_v;
               "annual_income" := JNum income_v;
               "status" := JStr "in_review";
               "interest_rate" := JNum rate;
               "term_months" := JNum (inject_Z num_payments);
               "estimated_monthly_payment" := JNum payment;
               "debt_to_income_ratio" :=
                 JNum (round1 (fmul debt_to_income 100));
               "created_date" := JStr today;
               "next_step" := JStr "credit_check" ]} in
          let row :=
            {| application_id := new_id;
               loan_user_id := user_id;
               DatabaseService.amount := amount_v;
               DatabaseService.purpose := Some purpose_v;
               annual_income := Some income_v;
               loan_status := "in_review";
               interest_rate := Some rate;
               term_months := Some num_payments;
               monthly_payment := None;
               estimated_monthly_payment := Some payment;
               debt_to_income_ratio :=
                 Some (round1 (fmul debt_to_income 100));
               applied_date := None;
               approved_date := None;
               created_date := Some today;
               next_step := Some "credit_check" |} in
          match add_loan_application d row with
          | Ret d' =>
              (d', {[ "status" := JStr "success";
                      "application" := JObj new_app;
                      "process_complete" := JBool true ]})
          | Raise _ => (d, database_error)
          end
  end.

(** [get_account_balance_data(user_id)], as far as its [status] goes:
    a success for a known user. *)
Definition get_account_balance_status (d : db) (user_id : string)
  : string :=
  match get_user d user_id with
  | Some _ => "success"
  | None => "error"
  end.

(** [get_current_limit_info(user_id, card_id)].  A [NULL] limit is the
    [TypeError] and a zero limit the [ZeroDivisionError] of the utilization
    line; both end in the [except] clause. *)
Definition get_current_limit_info (d : db) (user_id card_id : string)
  : result :=
  match get_card d card_id with
  | None => error "Card not found"
  | Some card =>
      if negb (String.eqb (card_user_id card) user_id)
      then error "Card not found"
      else if String.eqb (card_type card) "credit" then
        match limit_amount card with
        | None => database_error
        | Some limit =>
            if Qeq_bool limit 0 then database_error
            else
              {[ "status" := JStr "info";
                 "requires_continuation" := JBool true;
                 "process_type" := JStr "limit_modification";
                 "current_step" := JStr "new_limit";
                 "collected_data" := JObj
                   {[ "card_id" := JStr card_id;
                      "current_limit" := JNum limit ]};
                 "card_info" := JObj
                   {[ "card_id" := JStr card_id;
                      "brand" := JStr (brand card);
                      "last_four" := JStr (last_four card);
                      "limit" := JNum limit ]} ]}
        end
      else error "Credit card not found"
  end.

(** The dictionary [get_user_cards_data] builds for one card. *)
Definition formatted_card (card_id : string) (card : card)
  : gmap string json :=
  let base : gmap string json :=
    {[ "card_id" := JStr card_id;
       "type" := JStr (card_type card);
       "card_number" := JStr (card_number card);
       "last_four" := JStr (last_four card);
       "status" := JStr (card_status card);
       "brand" := JStr (brand card);
       "expiry" := JStr (expiry card);
       "annual_fee" := JNum (match annual_fee card with
                             | Some fee => if Qeq_bool fee 0 then 0 else fee
                             | None => 0
                             end) ]} in
  let with_limits :=
    if String.eqb (card_type card) "credit"
    then <["limit" := opt_num (limit_amount card)]>
           (<["available_credit" := opt_num (available_credit card)]> base)
    else <["daily_limit" := opt_num (daily_limit card)]> base in
  if some_text (blocked_date card)
  then <["blocked_date" := opt_text (blocked_date card)]>
         (<["blocked_reason" := opt_text (blocked_reason card)]> with_limits)
  else with_limits.

(** [get_user_cards_data(user_id)]. *)
Definition get_user_cards_data (d : db) (user_id : string) : result :=
  let cards := get_user_cards d user_id in
  match cards with
  | [] => error "No cards found for user"
  | _ =>
      let formatted_cards :=
        List.map (fun row => formatted_card (fst row) (snd row)) cards in
      {[ "status" := JStr "success";
         "cards" := JArr (List.map JObj formatted_cards);
         "total_cards" :=
           JNum (inject_Z (Z.of_nat (length formatted_cards)));
         "active_cards" :=
           JNum (inject_Z (Z.of_nat
             (length (List.filter
                        (fun c => is_str (doc_get c "status") "active")
                        formatted_cards)))) ]}
  end.

End MockBankingApi.

(** ** tools/banking_api.py *)

Module BankingApi.
Import DatabaseService MockBankingApi.

(** [get_user_cards(user_id)]: the cards as a selection.  The [text] of an
    option is an f-string and is left out. *)
Definition get_user_cards (d : db) (user_id : string) : result :=
  let cards_data := get_user_cards_data d user_id in
  if is_str (status_of cards_data) "success" then
    match doc_get cards_data "cards" with
    | JArr cards =>
        {[ "requires_selection" := JBool true;
           "message" := JStr "Here are your cards. Please select which card you'd like to manage:";
           "options" := JArr
             (List.map (fun card =>
                          match card with
                          | JObj c => JObj {[ "id" := doc_get c "card_id" ]}
                          | _ => JNull
                          end) cards) ]}
    | _ => cards_data
    end
  else cards_data.

End BankingApi.

(** ** core/tool_executor.py *)

Module ToolExecutor.
Import DatabaseService.

(** What [execute] returns: the result of the tool, or one of its two
    error strings ("Error: Tool '...' not found." and "Error executing
    tool '...': ..."). *)
Inductive outcome : Type :=
  | ToolResult (v : json)
  | ToolNotFound
  | ToolFailed.

(** A registered function: its parameters, and those without a default. *)
Record signature : Type := {
  parameters : list string;
  required : list string
}.

(** [self.tool_functions], each name with the signature of the function
    of [tools/banking_api.py] or [tools/knowledge_base.py] it maps to. *)
Definition tool_functions : list (string * signature) :=
  [ ("get_user_cards",
     {| parameters := ["user_id"]; required := ["user_id"] |});
    ("block_card",
     {| parameters := ["user_id"; "card_id"];
        required := ["user_id"; "card_id"] |});
    ("get_account_balance",
     {| parameters := ["user_id"]; required := ["user_id"] |});
    ("get_mini_statement",
     {| parameters := ["user_id"]; required := ["user_id"] |});
    ("apply_for_loan",
     {| parameters := ["user_id"; "amount"; "purpose"; "income";
                       "force_new"];
        required := ["user_id"] |});
    ("get_loan_status",
     {| parameters := ["user_id"]; required := ["user_id"] |});
    ("retrieve_knowledge",
     {| parameters := ["query"; "top_k"]; required := ["query"] |}) ].

Definition find_tool (tool_name : string) : option signature :=
  match List.find (fun entry => String.eqb (fst entry) tool_name)
                  tool_functions with
  | Some entry => Some (snd entry)
  | None => None
  end.

(** A call with the keyword arguments [kwargs] binds: every keyword is a
    parameter and every parameter without a default is given; otherwise the
    call is a [TypeError]. *)
Definition binds (sig : signature) (kwargs : gmap string json) : bool :=
  forallb (fun kv => existsb (String.eqb (fst kv)) (parameters sig))
          (map_to_list kwargs)
  && forallb (fun name => match kwargs !! name with
                          | Some _ => true
                          | None => false
                          end) (required sig).

(** [tool_name.startswith(('get_', 'block_', 'apply_'))]. *)
Definition takes_user_id (tool_name : string) : bool :=
  String.prefix "get_" tool_name || String.prefix "block_" tool_name
  || String.prefix "apply_" tool_name.

Section Execute.

(** The bodies of the registered functions. *)
Variable call : string -> gmap string json -> db -> py (db * json).

(** [execute(user_id, tool_name, **kwargs)]. *)
Definition execute (d : db) (user_id tool_name : string)
    (kwargs : gmap string json) : db * outcome :=
  match find_tool tool_name with
  | None => (d, ToolNotFound)
  | Some sig =>
      let kwargs :=
        if takes_user_id tool_name
        then <["user_id" := JStr user_id]> kwargs else kwargs in
      if binds sig kwargs then
        match call tool_name kwargs d with
        | Ret (d', v) => (d', ToolResult v)
        | Raise _ => (d, ToolFailed)
        end
      else (d, ToolFailed)
  end.

(** The call of [execute] in [_execute_tool_with_context] (agent.py, lines
    1446 to 1449): [session_id] joins the arguments, and an argument named
    like a positional parameter of [execute] is a [TypeError] of the call
    itself. *)
Definition execute_with_context (d : db)
    (user_id session_id tool_name : string) (tool_args : gmap string json)
  : py (db * outcome) :=
  let tool_args := <["session_id" := JStr session_id]> tool_args in
  if existsb (fun name => match tool_args !! name with
                          | Some _ => true
                          | None => false
                          end) ["self"; "user_id"; "tool_name"]
  then Raise "TypeError"
  else Ret (execute d user_id tool_name tool_args).

End Execute.

End ToolExecutor.

(** ** core/agent.py *)

Module Agent.
Import DatabaseService MockBankingApi.

(** The two stores a turn works on. *)
Record world : Type := {
  sessions : gmap string (gmap string json);
  bank : db
}.

(** What the clock reads during a turn: [datetime.now().isoformat()],
    [strftime("%Y-%m-%d")] and [strftime('%H%M')]. *)
Record clock : Type := {
  now : string;
  today : string;
  hhmm : string
}.

(** The handlers [process_turn] hands a turn to; [LlmProcessing] is the
    model-driven path that follows the cascade. *)
Inductive handler : Type :=
  | AccountDetailsQuery
  | BalanceQuery
  | TransactionQuery
  | CardManagementQuery
  | NewCardApplication
  | DirectCardBlocking
  | CardListQuery
  | LoanListingQuery
  | LoanProcess
  | PendingActions
  | MultiStepProcesses
  | LlmProcessing.

Definition account_details_phrases : list string :=
  ["account details"; "account information"; "complete account";
   "full account"; "account overview"; "my account details";
   "show account details"].
Definition balance_phrases : list string :=
  ["balance"; "account balance"; "my balance"; "show balance";
   "what's my balance"; "whats my balance"].
Definition transaction_phrases : list string :=
  ["transactions"; "recent transactions"; "mini statement"; "statement";
   "transaction history"].
Definition card_management_phrases : list string :=
  ["card management"; "manage cards"; "card services"].
Definition new_card_phrases : list string :=
  ["apply for new card"; "new card application"; "apply new card";
   "get new card"].
Definition block_card_phrases : list string :=
  ["block card"; "block my card"].
Definition block_card_exclusions : list string :=
  ["card management"; "manage cards"].
Definition card_list_phrases : list string :=
  ["my cards"; "show cards"; "list cards"].
Definition loan_listing_phrases : list string :=
  ["list loans"; "list all loans"; "show loans"; "show all loans";
   "my loans"; "list the loans"; "show the loans"; "loans i have applied";
   "loan applications"; "applied for loans"; "show my loan applications";
   "list my loan applications"; "what loans do i have"; "all my loans";
   "existing loans"].
Definition loan_listing_exclusions : list string :=
  ["apply"; "new loan"; "apply for"].
Definition loan_query_phrases : list string :=
  ["loan"; "apply for loan"; "new loan"; "loan application";
   "borrow money"; "need money"; "apply loan"].

(** The cascade of [process_turn], lines 30 to 80: the handler the turn
    is handed to, given the stored state of the session. *)
Definition process_turn (current_state : gmap string json)
    (message : string) : py handler :=
  let message_lower := lower message in
  let loan_process := doc_get_obj current_state "multi_step_process" in
  let pending_action := doc_get_obj current_state "pending_action" in
  if any_in account_details_phrases message_lower
  then Ret AccountDetailsQuery
  else if any_in balance_phrases message_lower
  then Ret BalanceQuery
  else if any_in transaction_phrases message_lower
  then Ret TransactionQuery
  else if any_in card_management_phrases message_lower
  then Ret CardManagementQuery
  else if any_in new_card_phrases message_lower
  then Ret NewCardApplication
  else if any_in block_card_phrases message_lower
          && negb (any_in block_card_exclusions message_lower)
  then Ret DirectCardBlocking
  else if any_in card_list_phrases message_lower
  then Ret CardListQuery
  else if any_in loan_listing_phrases message_lower
          && negb (any_in loan_listing_exclusions message_lower)
  then Ret LoanListingQuery
  else
    do type <- dict_get loan_process "type";
    let is_loan_process_active := is_str type "loan_application" in
    let is_loan_query := any_in loan_query_phrases message_lower in
    let is_numerical := is_numerical_response (strip message) in
    if is_loan_process_active || is_loan_query
       || (is_loan_process_active && is_numerical)
    then Ret LoanProcess
    else if truthy pending_action
    then Ret PendingActions
    else if truthy (doc_get current_state "multi_step_process")
    then Ret MultiStepProcesses
    else Ret LlmProcessing.

(** The same cascade as the specification words it: an ordered table of
    triggers, the first one that fires taking the turn. *)
Definition direct_rules : list ((string -> bool) * handler) :=
  [ (any_in account_details_phrases, AccountDetailsQuery);
    (any_in balance_phrases, BalanceQuery);
    (any_in transaction_phrases, TransactionQuery);
    (any_in card_management_phrases, CardManagementQuery);
    (any_in new_card_phrases, NewCardApplication);
    (fun m => any_in block_card_phrases m
              && negb (any_in block_card_exclusions m), DirectCardBlocking);
    (any_in card_list_phrases, CardListQuery);
    (fun m => any_in loan_listing_phrases m
              && negb (any_in loan_listing_exclusions m), LoanListingQuery) ].

Fixpoint first_match (rules : list ((string -> bool) * handler))
    (m : string) : option handler :=
  match rules with
  | [] => None
  | (trigger, h) :: rest =>
      if trigger m then Some h else first_match rest m
  end.

(** The selection handlers behind a pending action. *)
Inductive selection_handler : Type :=
  | CardManagementSelection
  | NewCardApplicationSelection
  | CardApplicationSelection
  | LimitModificationSelection
  | CardBlockingSelection.

(** [_handle_pending_actions]: the selection handler a pending action is
    passed to. *)
Definition _handle_pending_actions (pending_action : json)
  : py selection_handler :=
  do action_type <- dict_get pending_action "process_type";
  if is_str action_type "card_management"
  then Ret CardManagementSelection
  else if is_str action_type "new_card_application"
  then Ret NewCardApplicationSelection
  else if is_str action_type "card_application"
  then Ret CardApplicationSelection
  else if is_str action_type "limit_modification"
  then Ret LimitModificationSelection
  else if is_str action_type "card_blocking"
  then Ret CardBlockingSelection
  else Ret CardBlockingSelection.

Definition recognized_process_types : list string :=
  ["card_management"; "new_card_application"; "card_application";
   "limit_modification"; "card_blocking"].

(** [len([v for v in d.values() if v is not None])]. *)
Definition count_filled (collected_data : gmap string json) : nat :=
  length (List.filter (fun kv => match snd kv with
                                 | JNull => false
                                 | _ => true
                                 end)
                      (map_to_list collected_data)).

(** [_calculate_process_completion]. *)
Definition _calculate_process_completion (process : json) : py Q :=
  do type <- dict_get process "type";
  if is_str type "loan_application" then
    do collected_data <- dict_get_obj process "collected_data";
    match collected_data with
    | JObj cd =>
        let total_steps := 3%Q in
        let completed_steps := inject_Z (Z.of_nat (count_filled cd)) in
        Ret (fmul (fdiv completed_steps total_steps) 100)
    | _ => Raise "AttributeError"
    end
  else Ret 0%Q.

(** [_save_current_process_on_context_switch].  Nothing is persisted
    unless the whole body runs: the only write is the closing
    [update_state]. *)
Definition _save_current_process_on_context_switch (clk : clock)
    (t : gmap string (gmap string json)) (session_id new_context : string)
  : py (gmap string (gmap string json)) :=
  let current_state := default ∅ (StateManager.get_state t session_id) in
  let active_process := doc_get current_state "multi_step_process" in
  if truthy active_process then
    let current_state :=
      match current_state !! "suspended_processes" with
      | None => <["suspended_processes" := JArr []]> current_state
      | Some _ => current_state
      end in
    do copy <- match active_process with
           | JObj m => Ret (JObj m)
           | _ => Raise "AttributeError"
           end;
    do original_context <- dict_get active_process "type";
    do completion <- _calculate_process_completion active_process;
    let suspended_process := JObj
      {[ "context" := JStr new_context;
         "timestamp" := JStr (now clk);
         "multi_step_process" := copy;
         "original_context" := original_context;
         "completion_percentage" := JNum completion ]} in
    match doc_get current_state "suspended_processes" with
    | JArr l =>
        let current_state :=
          <["suspended_processes" := JArr (l ++ [suspended_process])]>
            current_state in
        let current_state :=
          <["context_switched" := JBool true]> current_state in
        let current_state :=
          <["last_context_switch" := JStr new_context]> current_state in
        Ret (fst (StateManager.update_state t session_id current_state))
    | _ => Raise "AttributeError"
    end
  else Ret t.

(** The branch of a handler that produced the reply. *)
Inductive reply : Type :=
  | BalanceShown
  | BalanceUnavailable
  | ResumePrompt
  | Resumed (current_step : json)
  | InvalidChoice
  | FreshStart
  | LoanAnswer (status : json)
  | LoanFailure.

(** ** The loan dialogue *)

Definition resume_phrases : list string :=
  ["apply new loan"; "new loan"; "apply loan"; "continue loan";
   "resume loan"].
Definition start_new_phrases : list string :=
  ["start new"; "new"; "fresh"; "different"].
Definition new_loan_phrases : list string :=
  ["new loan"; "apply for new loan"; "another loan"; "different loan";
   "start over"; "fresh loan"; "apply loan"].

(** [purpose_keywords], in the order of the dict literal. *)
Definition purpose_keywords : list (string * string) :=
  [ ("home", "Home Improvement"); ("house", "Home Improvement");
    ("renovation", "Home Renovation"); ("car", "Auto Purchase");
    ("vehicle", "Auto Purchase"); ("auto", "Auto Purchase");
    ("debt", "Debt Consolidation");
    ("consolidation", "Debt Consolidation");
    ("medical", "Medical Expenses"); ("health", "Medical Expenses");
    ("education", "Education"); ("school", "Education");
    ("college", "Education"); ("business", "Business");
    ("wedding", "Wedding"); ("marriage", "Wedding");
    ("vacation", "Vacation"); ("travel", "Vacation");
    ("personal", "Personal"); ("emergency", "Emergency Fund") ].

Definition income_words : list string :=
  ["income"; "earn"; "salary"; "make"].

(** The first amount after a lazy [.*?]: the next character of the class
    [[0-9,]] on the same line. *)
Fixpoint first_amount_on_line (s : string) : option string :=
  match s with
  | EmptyString => None
  | String c r =>
      if is_numch c then Some (amount_group_here s)
      else if Ascii.eqb c "010"%char then None
      else first_amount_on_line r
  end.

Fixpoint drop_chars (n : nat) (s : string) : string :=
  match n, s with
  | S n', String _ r => drop_chars n' r
  | _, _ => s
  end.

(** A match of the income pattern that starts at the head of [s]. *)
Definition income_here (s : string) : option string :=
  match List.find (fun word => String.prefix word s) income_words with
  | Some word => first_amount_on_line (drop_chars (String.length word) s)
  | None => None
  end.

(** Group 1 of [re.search(r'(?:income|earn|salary|make).*?\$?([0-9,]+(?:\.[0-9]{2})?)', s)]. *)
Fixpoint income_search (s : string) : option string :=
  match income_here s with
  | Some g => Some g
  | None =>
      match s with
      | EmptyString => None
      | String _ r => income_search r
      end
  end.

(** [float(group.replace(',', ''))] under [try: ... except: pass]. *)
Definition try_float (group : option string) : option Q :=
  match group with
  | Some g =>
      match float_of_string (remove_char ","%char g) with
      | Ret q => Some q
      | Raise _ => None
      end
  | None => None
  end.

(** [float(message.strip().replace('$', '').replace(',', ''))]. *)
Definition bare_float (message : string) : py Q :=
  float_of_string
    (remove_char ","%char (remove_char "$"%char (strip message))).

(** [extracted or collected_data.get(k)], for a float and for a string:
    the dict is only looked at when nothing truthy was extracted. *)
Definition num_or (extracted : option Q) (collected_data : json)
    (k : string) : py json :=
  if some_num extracted then Ret (opt_num extracted)
  else dict_get collected_data k.

Definition text_or (extracted : option string) (collected_data : json)
    (k : string) : py json :=
  if some_text extracted then Ret (opt_text extracted)
  else dict_get collected_data k.

(** The three values extracted from the message, lines 736 to 791. *)
Definition extract (message : string) (loan_process : json)
  : py (option Q * option string * option Q) :=
  let message_lower := lower message in
  let extracted_amount := try_float (amount_search message) in
  let extracted_purpose :=
    match List.find (fun kp => str_in (fst kp) message_lower)
                    purpose_keywords with
    | Some kp => Some (snd kp)
    | None => None
    end in
  let extracted_income := try_float (income_search message_lower) in
  let is_numerical := is_numerical_response (strip message) in
  do type <- dict_get loan_process "type";
  if is_str type "loan_application" && is_numerical
     && negb (some_num extracted_income)
  then
    do current_step <- dict_get loan_process "current_step";
    if is_str current_step "amount" then
      do x <- bare_float message; Ret (Some x, extracted_purpose, extracted_income)
    else if is_str current_step "income" then
      do x <- bare_float message; Ret (extracted_amount, extracted_purpose, Some x)
    else Ret (extracted_amount, extracted_purpose, extracted_income)
  else Ret (extracted_amount, extracted_purpose, extracted_income).

(** The slots handed to [apply_for_loan], lines 794 to 799. *)
Definition current_slots (message : string) (loan_process : json)
  : py (json * json * json) :=
  do '(extracted_amount, extracted_purpose, extracted_income) <-
    extract message loan_process;
  do collected_data <- dict_get_obj loan_process "collected_data";
  do current_amount <- num_or extracted_amount collected_data "amount";
  do current_purpose <- text_or extracted_purpose collected_data "purpose";
  do current_income <- num_or extracted_income collected_data "income";
  Ret (current_amount, current_purpose, current_income).

(** The typed arguments of [apply_for_loan].  A slot holding a value of
    another JSON type is outside the interface ([Optional[float]],
    [Optional[str]]) and stops the model with a [TypeError]. *)
Definition as_float (v : json) : py (option Q) :=
  match v with
  | JNull => Ret None
  | JNum q => Ret (Some q)
  | _ => Raise "TypeError"
  end.

Definition as_text (v : json) : py (option string) :=
  match v with
  | JNull => Ret None
  | JStr t => Ret (Some t)
  | _ => Raise "TypeError"
  end.

(** [process.get('multi_step_process', {}).get('type') == 'loan_application']. *)
Definition is_loan_snapshot (process : json) : py bool :=
  do msp <- dict_get_obj process "multi_step_process";
  do type <- dict_get msp "type";
  Ret (is_str type "loan_application").

(** The first loan snapshot of a list. *)
Fixpoint find_loan (ps : list json) : py (option json) :=
  match ps with
  | [] => Ret None
  | process :: rest =>
      do b <- is_loan_snapshot process;
      if b then Ret (Some process) else find_loan rest
  end.

(** [[p for p in ps if p...get('type') != 'loan_application']]. *)
Fixpoint without_loans (ps : list json) : py (list json) :=
  match ps with
  | [] => Ret []
  | process :: rest =>
      do b <- is_loan_snapshot process;
      do rest' <- without_loans rest;
      Ret (if b then rest' else process :: rest')
  end.

(** The items a [for] loop sees in a JSON value. *)
Definition items (v : json) : py (list json) :=
  match v with
  | JArr l => Ret l
  | JStr t => Ret (List.map (fun c => JStr (String c EmptyString))
                            (list_ascii_of_string t))
  | JObj m => Ret (List.map (fun kv => JStr (fst kv)) (map_to_list m))
  | _ => Raise "TypeError"
  end.

Definition status_ok (r : result) : bool :=
  is_str (status_of r) "info" || is_str (status_of r) "success".

(** The [multi_step_process] record written after a result that asks for
    a continuation. *)
Definition process_record (loan_result : result) (is_new : bool) : json :=
  let r : gmap string json :=
    {[ "type" := doc_get loan_result "process_type";
       "current_step" := doc_get loan_result "current_step";
       "collected_data" := doc_get_obj loan_result "collected_data";
       "next_step" := doc_get loan_result "next_step" ]} in
  JObj (if is_new then <["is_new_application" := JBool true]> r else r).

(** [apply_for_loan(user_id, force_new=True)] and the bookkeeping that
    follows it, lines 672 to 691 and 712 to 731.  [None] when the result
    is neither [info] nor [success] and the handler carries on. *)
Definition start_fresh (clk : clock) (w : world)
    (user_id session_id : string) (current_state : gmap string json)
  : world * option reply :=
  let '(bank', loan_result) :=
    apply_for_loan_data (today clk) (bank w) user_id None None None true in
  if status_ok loan_result then
    if truthy (doc_get loan_result "requires_continuation") then
      let current_state :=
        <["multi_step_process" := process_record loan_result true]>
          current_state in
      ({| sessions :=
            fst (StateManager.update_state (sessions w) session_id
                                           current_state);
          bank := bank' |}, Some FreshStart)
    else ({| sessions := sessions w; bank := bank' |}, Some FreshStart)
  else ({| sessions := sessions w; bank := bank' |}, None).

(** Lines 736 to 853: extraction, the call of [apply_for_loan], and the
    state written for its result. *)
Definition continue_loan (clk : clock) (w : world)
    (user_id session_id message : string) (loan_process : json)
  : py (world * reply) :=
  do '(amount, purpose, income) <- current_slots message loan_process;
  do current_amount <- as_float amount;
  do current_purpose <- as_text purpose;
  do current_income <- as_float income;
  let '(bank', loan_result) :=
    apply_for_loan_data (today clk) (bank w) user_id
                        current_amount current_purpose current_income
                        false in
  if status_ok loan_result then
    let current_state :=
      default ∅ (StateManager.get_state (sessions w) session_id) in
    if truthy (doc_get loan_result "requires_continuation") then
      let current_state :=
        <["multi_step_process" := process_record loan_result false]>
          current_state in
      Ret ({| sessions :=
                fst (StateManager.update_state (sessions w) session_id
                                               current_state);
              bank := bank' |}, LoanAnswer (status_of loan_result))
    else if truthy (doc_get loan_result "process_complete") then
      let current_state := delete "multi_step_process" current_state in
      do application <- dict_get_obj (JObj loan_result) "application";
      do application_id <- dict_get application "application_id";
      let current_state :=
        <["last_completed_action" := JObj
            {[ "type" := JStr "loan_application";
               "application_id" := application_id;
               "timestamp" := JStr (now clk) ]}]> current_state in
      Ret ({| sessions :=
                fst (StateManager.update_state (sessions w) session_id
                                               current_state);
              bank := bank' |}, LoanAnswer (status_of loan_result))
    else Ret ({| sessions := sessions w; bank := bank' |},
              LoanAnswer (status_of loan_result))
  else
    do current_step <- dict_get loan_process "current_step";
    Ret ({| sessions := sessions w; bank := bank' |}, LoanFailure).

(** [f"{v:,.2f}"] and [v > 0], as far as they can fail. *)
Definition format_money (v : option json) : py unit :=
  match v with
  | Some (JNum _) | Some (JBool _) => Ret tt
  | Some _ => Raise "ValueError"
  | None => Raise "KeyError"
  end.

Definition positive (v : json) : py bool :=
  match v with
  | JNum q => Ret (if Qlt_le_dec 0 q then true else false)
  | JBool b => Ret b
  | _ => Raise "TypeError"
  end.

(** [d[k]]. *)
Definition dict_item (d : json) (k : string) : py json :=
  match d with
  | JObj m => match m !! k with
              | Some v => Ret v
              | None => Raise "KeyError"
              end
  | _ => Raise "TypeError"
  end.

(** The outcome of a stage of the handler: a reply, or the local
    [current_state] and the stores the next stage goes on with. *)
Inductive stage : Type :=
  | Return (w : world) (r : reply)
  | Next (w : world) (current_state : gmap string json).

(** Lines 592 to 620: the offer to resume a suspended application. *)
Definition offer_resume (w : world) (session_id : string)
    (is_resume_request : bool) (loan_process : json)
    (suspended_loan : option json) (current_state : gmap string json)
  : py stage :=
  match suspended_loan with
  | Some suspended_loan =>
      if is_resume_request then
        do type <- dict_get loan_process "type";
        if negb (truthy type) then
          do suspended_loan_data <-
            dict_item suspended_loan "multi_step_process";
          do completion <-
            match suspended_loan with
            | JObj m => Ret (default (JNum 0) (m !! "completion_percentage"))
            | _ => Raise "AttributeError"
            end;
          do started <- positive completion;
          if started then
            do collected_data <-
              dict_get_obj suspended_loan_data "collected_data";
            do amount <- dict_get collected_data "amount";
            do _ <- (if truthy amount then format_money (Some amount)
                     else Ret tt);
            do _ <- dict_get collected_data "purpose";
            let current_state :=
              <["loan_resume_choice" := JObj
                  {[ "suspended_process" := suspended_loan_data;
                     "message_shown" := JBool true ]}]> current_state in
            Ret (Return
                   {| sessions :=
                        fst (StateManager.update_state (sessions w)
                               session_id current_state);
                      bank := bank w |} ResumePrompt)
          else Ret (Next w current_state)
        else Ret (Next w current_state)
      else Ret (Next w current_state)
  | None => Ret (Next w current_state)
  end.

(** [current_state] without its suspended loan applications, lines 635
    to 639 and 663 to 667. *)
Definition drop_suspended_loans (current_state : gmap string json)
  : py (gmap string json) :=
  do suspended_processes <-
    items (default (JArr []) (current_state !! "suspended_processes"));
  do kept <- without_loans suspended_processes;
  Ret (<["suspended_processes" := JArr kept]> current_state).

(** Lines 623 to 696: the answer to the offer. *)
Definition resume_choice (clk : clock) (w : world)
    (user_id session_id message_lower : string)
    (current_state : gmap string json) : py stage :=
  do message_shown <-
    dict_get (doc_get_obj current_state "loan_resume_choice")
             "message_shown";
  if truthy message_shown then
    if str_in "continue" message_lower then
      do suspended_process <-
        dict_item (doc_get current_state "loan_resume_choice")
                  "suspended_process";
      let current_state :=
        <["multi_step_process" := suspended_process]> current_state in
      let current_state := delete "loan_resume_choice" current_state in
      do current_state <- drop_suspended_loans current_state;
      let t := fst (StateManager.update_state (sessions w) session_id
                                              current_state) in
      do collected_data <- dict_get_obj suspended_process "collected_data";
      do current_step <- dict_get suspended_process "current_step";
      do _ <- (if is_str current_step "purpose"
                  || is_str current_step "income"
               then match collected_data with
                    | JObj cd => format_money (cd !! "amount")
                    | _ => Raise "TypeError"
                    end
               else Ret tt);
      do _ <- (if is_str current_step "income"
               then dict_item collected_data "purpose"
               else Ret JNull);
      Ret (Return {| sessions := t; bank := bank w |}
                  (Resumed current_step))
    else if any_in start_new_phrases message_lower then
      let current_state := delete "loan_resume_choice" current_state in
      do current_state <- drop_suspended_loans current_state;
      let w := {| sessions :=
                    fst (StateManager.update_state (sessions w) session_id
                                                   current_state);
                  bank := bank w |} in
      match start_fresh clk w user_id session_id current_state with
      | (w, Some r) => Ret (Return w r)
      | (w, None) => Ret (Next w current_state)
      end
    else Ret (Return w InvalidChoice)
  else Ret (Next w current_state).

(** Lines 699 to 731: an explicit request for a new application while
    one is in progress. *)
Definition new_request (clk : clock) (w : world)
    (user_id session_id message_lower : string) (loan_process : json)
    (current_state : gmap string json) : py stage :=
  if any_in new_loan_phrases message_lower then
    do type <- dict_get loan_process "type";
    if is_str type "loan_application"
       && negb (truthy (doc_get current_state "loan_resume_choice"))
    then
      let current_state := delete "multi_step_process" current_state in
      let w := {| sessions :=
                    fst (StateManager.update_state (sessions w) session_id
                                                   current_state);
                  bank := bank w |} in
      match start_fresh clk w user_id session_id current_state with
      | (w, Some r) => Ret (Return w r)
      | (w, None) => Ret (Next w current_state)
      end
    else Ret (Next w current_state)
  else Ret (Next w current_state).

(** [_handle_loan_process].  A [Raise] hides the writes made before the
    exception; the properties below only speak of turns that return. *)
Definition _handle_loan_process (clk : clock) (w : world)
    (user_id session_id message : string) (loan_process : json)
  : py (world * reply) :=
  let message_lower := lower message in
  let current_state :=
    default ∅ (StateManager.get_state (sessions w) session_id) in
  let is_resume_request := any_in resume_phrases message_lower in
  do suspended_processes <-
    items (default (JArr []) (current_state !! "suspended_processes"));
  do suspended_loan <- find_loan (rev suspended_processes);
  do s1 <- offer_resume w session_id is_resume_request loan_process
                        suspended_loan current_state;
  match s1 with
  | Return w r => Ret (w, r)
  | Next w current_state =>
      do s2 <- resume_choice clk w user_id session_id message_lower
                             current_state;
      match s2 with
      | Return w r => Ret (w, r)
      | Next w current_state =>
          do s3 <- new_request clk w user_id session_id message_lower
                               loan_process current_state;
          match s3 with
          | Return w r => Ret (w, r)
          | Next w _ =>
              continue_loan clk w user_id session_id message loan_process
          end
      end
  end.

(** The note [_get_context_switch_message] ends a reply with. *)
Inductive note : Type :=
  | NoNote
  | LoanProgress (completion : json)
  | LoanInProgress
  | PendingNote.

(** [l[-1]]. *)
Definition last_item (v : json) : py json :=
  match v with
  | JArr l => match List.rev l with
              | x :: _ => Ret x
              | [] => Raise "IndexError"
              end
  | JStr t => match List.rev (list_ascii_of_string t) with
              | c :: _ => Ret (JStr (String c EmptyString))
              | [] => Raise "IndexError"
              end
  | JObj _ => Raise "KeyError"
  | _ => Raise "TypeError"
  end.

(** [_get_context_switch_message], on the stored document. *)
Definition _get_context_switch_message (current_state : gmap string json)
  : py note :=
  let suspended_processes :=
    default (JArr []) (current_state !! "suspended_processes") in
  if truthy suspended_processes then
    do ps <- items suspended_processes;
    do suspended_loan <- find_loan (rev ps);
    do progress <-
      match suspended_loan with
      | Some (JObj m) =>
          let completion := default (JNum 0) (m !! "completion_percentage") in
          do started <- positive completion;
          Ret (if started then Some (LoanProgress completion) else None)
      | Some _ => Raise "AttributeError"
      | None => Ret None
      end;
    match progress with
    | Some n => Ret n
    | None =>
        do latest_process <- last_item suspended_processes;
        do multi_step <- dict_get latest_process "multi_step_process";
        if truthy multi_step then
          do process_type <- dict_get multi_step "type";
          if is_str process_type "loan_application"
          then Ret LoanInProgress else Ret PendingNote
        else Ret NoNote
    end
  else Ret NoNote.

(** [_handle_balance_query]: the suspension of the process in flight,
    then the balance, whose reply ends with the note of
    [_get_context_switch_message]. *)
Definition _handle_balance_query (clk : clock) (w : world)
    (user_id session_id message : string) : py (world * reply) :=
  do t <- _save_current_process_on_context_switch clk (sessions w)
        session_id "balance";
  let w := {| sessions := t; bank := bank w |} in
  if String.eqb (get_account_balance_status (bank w) user_id) "success"
  then
    do _ <- _get_context_switch_message
              (default ∅ (StateManager.get_state (sessions w) session_id));
    Ret (w, BalanceShown)
  else Ret (w, BalanceUnavailable).

(** A whole turn, for the two handlers embedded here: the cascade, then
    the handler.  [Ret None] stands for a turn that goes to another
    handler. *)
Definition turn (clk : clock) (w : world)
    (user_id session_id message : string)
  : py (option (world * reply)) :=
  let current_state :=
    default ∅ (StateManager.get_state (sessions w) session_id) in
  do h <- process_turn current_state message;
  match h with
  | BalanceQuery =>
      do r <- _handle_balance_query clk w user_id session_id message;
      Ret (Some r)
  | LoanProcess =>
      do r <- _handle_loan_process clk w user_id session_id message
                (doc_get_obj current_state "multi_step_process");
      Ret (Some r)
  | _ => Ret None
  end.

(** ** The selection handlers and the limit modification *)

(** The longest prefix of decimal digits. *)
Fixpoint digits_prefix (s : string) : string :=
  match s with
  | EmptyString => EmptyString
  | String c r => if is_digit c then String c (digits_prefix r)
                  else EmptyString
  end.

(** Group 1 of [re.search(r'card_(\d+)', s)]: the digits that follow the
    first "card_" that has a digit after it. *)
Fixpoint card_search (s : string) : option string :=
  match s with
  | EmptyString => None
  | String _ r =>
      if String.prefix "card_" s
         && negb (String.eqb (digits_prefix (drop_chars 5 s)) "")
      then Some (digits_prefix (drop_chars 5 s))
      else card_search r
  end.

(** [s.zfill(3)] for a string of digits. *)
Definition zfill3 (s : string) : string :=
  (if (String.length s <? 3)%nat
   then string_of_list_ascii (repeat "0"%char (3 - String.length s))
   else "") ++ s.

(** The replies of the selection handlers and of the limit modification. *)
Inductive selection_reply : Type :=
  | BlockAnswer (status : json) (n : note)
  | SelectValidCard
  | LimitQuestion
  | LimitChanged (n : note)
  | LimitRejected
  | CardInformationMissing
  | EnterValidAmount
  | SpecifyAmount
  | UnableToProcess
  | SelectionPrompt.

(** [_handle_card_blocking_selection].  [timestamp] is the
    [CURRENT_TIMESTAMP] of the database. *)
Definition _handle_card_blocking_selection (timestamp : string)
    (clk : clock) (w : world) (user_id session_id message : string)
    (pending_action : json) : py (world * selection_reply) :=
  match card_search (lower message) with
  | Some digits =>
      let card_id := "card_" ++ zfill3 digits in
      let '(bank', block_result) :=
        block_card_data timestamp (hhmm clk) (bank w) user_id card_id in
      do n <- _get_context_switch_message
                (default ∅ (StateManager.get_state (sessions w) session_id));
      let current_state :=
        default ∅ (StateManager.get_state (sessions w) session_id) in
      let current_state := delete "pending_action" current_state in
      Ret ({| sessions :=
                fst (StateManager.update_state (sessions w) session_id
                                               current_state);
              bank := bank' |},
           BlockAnswer (status_of block_result) n)
  | None => Ret (w, SelectValidCard)
  end.

(** [_handle_limit_modification_selection]. *)
Definition _handle_limit_modification_selection (w : world)
    (user_id session_id message : string) (pending_action : json)
  : py (world * selection_reply) :=
  do current_step <- dict_get pending_action "step";
  if is_str current_step "card_selection" then
    match card_search (lower message) with
    | Some digits =>
        let card_id := "card_" ++ zfill3 digits in
        let limit_info := get_current_limit_info (bank w) user_id card_id in
        if truthy (doc_get limit_info "requires_continuation") then
          let current_state :=
            default ∅ (StateManager.get_state (sessions w) session_id) in
          let current_state :=
            <["multi_step_process" := JObj
                {[ "type" := doc_get limit_info "process_type";
                   "current_step" := doc_get limit_info "current_step";
                   "collected_data" :=
                     doc_get_obj limit_info "collected_data";
                   "card_id" := JStr card_id ]}]> current_state in
          let current_state := delete "pending_action" current_state in
          Ret ({| sessions :=
                    fst (StateManager.update_state (sessions w) session_id
                                                   current_state);
                  bank := bank w |}, LimitQuestion)
        else Ret (w, SelectValidCard)
    | None => Ret (w, SelectValidCard)
    end
  else Ret (w, SelectValidCard).

(** [_handle_limit_modification_process].  A [card_id] that is not a string
    is outside the interface of [modify_credit_limit] and stops the model
    with a [TypeError]. *)
Definition _handle_limit_modification_process (timestamp : string)
    (w : world) (user_id session_id message : string) (multi_step : json)
  : py (world * selection_reply) :=
  do current_step <- dict_get multi_step "current_step";
  if is_str current_step "new_limit" then
    match amount_search message with
    | Some group =>
        match float_of_string (remove_char ","%char group) with
        | Ret new_limit =>
            do collected_data <- dict_get_obj multi_step "collected_data";
            do card_id <- dict_get collected_data "card_id";
            if negb (truthy card_id) then Ret (w, CardInformationMissing)
            else
              match card_id with
              | JStr card_id =>
                  let '(bank', modify_result) :=
                    modify_credit_limit_data timestamp (bank w) user_id
                                             card_id new_limit in
                  if is_str (status_of modify_result) "success" then
                    do n <- _get_context_switch_message
                              (default ∅ (StateManager.get_state
                                            (sessions w) session_id));
                    let current_state :=
                      default ∅ (StateManager.get_state (sessions w)
                                                        session_id) in
                    let current_state :=
                      delete "multi_step_process" current_state in
                    Ret ({| sessions :=
                              fst (StateManager.update_state (sessions w)
                                     session_id current_state);
                            bank := bank' |}, LimitChanged n)
                  else Ret ({| sessions := sessions w; bank := bank' |},
                            LimitRejected)
              | _ => Raise "TypeError"
              end
        | Raise _ => Ret (w, EnterValidAmount)
        end
    | None => Ret (w, SpecifyAmount)
    end
  else Ret (w, UnableToProcess).

(** The answer of [_handle_multi_step_processes]. *)
Inductive multi_step_reply : Type :=
  | LimitReply (r : selection_reply)
  | LoanReply (r : reply)
  | ProcessNotRecognized.

(** [_handle_multi_step_processes]: the class defines it twice, and the
    second definition (line 1480) is the one in force. *)
Definition _handle_multi_step_processes (timestamp : string) (clk : clock)
    (w : world) (user_id session_id message : string)
    (current_state : gmap string json) : py (world * multi_step_reply) :=
  let multi_step := doc_get_obj current_state "multi_step_process" in
  do process_type <- dict_get multi_step "type";
  if is_str process_type "limit_modification" then
    do '(w', r) <- _handle_limit_modification_process timestamp w user_id
                     session_id message multi_step;
    Ret (w', LimitReply r)
  else if is_str process_type "loan_application" then
    do '(w', r) <- _handle_loan_process clk w user_id session_id message
                     multi_step;
    Ret (w', LoanReply r)
  else Ret (w, ProcessNotRecognized).

(** [_handle_selection_process]: [tool_name] and [arguments] are the name
    and the arguments of the tool call. *)
Definition _handle_selection_process
    (t : gmap string (gmap string json)) (session_id : string)
    (tool_result : gmap string json) (tool_name : string)
    (arguments : gmap string json)
  : py (gmap string (gmap string json) * selection_reply) :=
  do _ <- dict_item (JObj tool_result) "message";
  do options <- dict_item (JObj tool_result) "options";
  Ret (fst (StateManager.update_state t session_id
              {[ "pending_action" := JObj
                   {[ "tool" := JStr tool_name;
                      "args" := JObj arguments;
                      "options" := options;
                      "process_type" := JStr "selection" ]} ]}),
       SelectionPrompt).

(** The pending action [_handle_card_management_selection] stores when
    "block card" is chosen from the menu (line 932). *)
Definition block_card_pending_action (options : json) : gmap string json :=
  {[ "tool" := JStr "block_card"; "args" := JObj ∅; "options" := options ]}.

(** The body of the [try] of [_cleanup_completed_processes]. *)
Definition cleanup_body (t : gmap string (gmap string json))
    (session_id : string) : py (gmap string (gmap string json)) :=
  let current_state := default ∅ (StateManager.get_state t session_id) in
  let multi_step := doc_get_obj current_state "multi_step_process" in
  do process_complete <- dict_get multi_step "process_complete";
  do current_state <-
    (if truthy process_complete
     then Ret (delete "multi_step_process" current_state)
     else
       do status <- dict_get multi_step "status";
       Ret (if is_str status "complete"
            then delete "multi_step_process" current_state
            else current_state));
  let pending_action := doc_get_obj current_state "pending_action" in
  do completed <- dict_get pending_action "completed";
  let current_state :=
    if truthy completed then delete "pending_action" current_state
    else current_state in
  let current_state :=
    if truthy (doc_get current_state "context_switched")
    then <["context_switched" := JBool false]> current_state
    else current_state in
  Ret (fst (StateManager.update_state t session_id current_state)).

(** [_cleanup_completed_processes]: an exception is printed and dropped. *)
Definition _cleanup_completed_processes
    (t : gmap string (gmap string json)) (session_id : string)
  : gmap string (gmap string json) :=
  match cleanup_body t session_id with
  | Ret t' => t'
  | Raise _ => t
  end.

End Agent.

(** ** The amortization formula of the specification

    The payment that repays [principal] in [n] equal instalments at the
    periodic rate [monthly_rate]. *)
Definition amortization (principal monthly_rate : Q) (n : Z) : Q :=
  (principal * monthly_rate * (1 + monthly_rate) ^ n
   / ((1 + monthly_rate) ^ n - 1))%Q.

(** The same formula with every operation rounded to the nearest float. *)
Definition amortization_binary64 (principal monthly_rate : Q) (n : Z) : Q :=
  fdiv (fmul (fmul principal monthly_rate) (fpow (fadd 1 monthly_rate) n))
       (fsub (fpow (fadd 1 monthly_rate) n) 1).

(** ** Sample data, after [_insert_sample_data] *)

(** The sample card [card_005] of the seed data, blocked and owned by
    [user123]. *)
Definition card_005 : DatabaseService.card :=
  {| DatabaseService.card_user_id := "user123";
     DatabaseService.card_type := "credit";
     DatabaseService.card_number := "****-****-****-7890";
     DatabaseService.last_four := "7890";
     DatabaseService.card_status := "blocked";
     DatabaseService.limit_amount := Some 10000%Q;
     DatabaseService.available_credit := Some 8500%Q;
     DatabaseService.brand := "Visa Classic";
     DatabaseService.expiry := "11/2026";
     DatabaseService.annual_fee := Some 0%Q;
     DatabaseService.daily_limit := None;
     DatabaseService.blocked_date := Some "2025-07-28 09:00:00";
     DatabaseService.blocked_reason := Some "Lost card - replaced";
     DatabaseService.card_updated_at := "2025-07-28 09:00:00" |}.

(** The sample card [card_001], an active credit card of [user123]. *)
Definition card_001 : DatabaseService.card :=
  {| DatabaseService.card_user_id := "user123";
     DatabaseService.card_type := "credit";
     DatabaseService.card_number := "****-****-****-1234";
     DatabaseService.last_four := "1234";
     DatabaseService.card_status := "active";
     DatabaseService.limit_amount := Some 15000%Q;
     DatabaseService.available_credit := Some 12500%Q;
     DatabaseService.brand := "Visa Platinum";
     DatabaseService.expiry := "12/2028";
     DatabaseService.annual_fee := Some 95%Q;
     DatabaseService.daily_limit := None;
     DatabaseService.blocked_date := None;
     DatabaseService.blocked_reason := None;
     DatabaseService.card_updated_at := "2025-07-28 09:00:00" |}.

Definition john_doe : DatabaseService.user :=
  {| DatabaseService.name := "John Doe";
     DatabaseService.account_number := "ACC-2025-001";
     DatabaseService.account_type := "Premium Checking";
     DatabaseService.balance := 28750.5%Q;
     DatabaseService.available_balance := 28750.5%Q;
     DatabaseService.pending_transactions := 125.75%Q |}.

(** The approved loan [LOAN001] of the seed data. *)
Definition loan_001 : DatabaseService.loan :=
  {| DatabaseService.application_id := "LOAN001";
     DatabaseService.loan_user_id := "user123";
     DatabaseService.amount := 25000%Q;
     DatabaseService.purpose := Some "Home Renovation";
     DatabaseService.annual_income := None;
     DatabaseService.loan_status := "approved";
     DatabaseService.interest_rate := Some (fl 5.2);
     DatabaseService.term_months := Some 60%Z;
     DatabaseService.monthly_payment := Some (fl 471.78);
     DatabaseService.estimated_monthly_payment := None;
     DatabaseService.debt_to_income_ratio := None;
     DatabaseService.applied_date := Some "2025-06-15";
     DatabaseService.approved_date := Some "2025-06-22";
     DatabaseService.created_date := None;
     DatabaseService.next_step := None |}.

Definition sample_db : DatabaseService.db :=
  {| DatabaseService.users := {[ "user123" := john_doe ]};
     DatabaseService.cards :=
       {[ "card_001" := card_001; "card_005" := card_005 ]};
     DatabaseService.loan_applications := [ loan_001 ] |}.

(** The loan application as [_handle_loan_process] stores it when it has
    asked for the amount, and when it has the amount and asks for the
    purpose. *)
Definition loan_at_amount : gmap string json :=
  {[ "type" := JStr "loan_application";
     "current_step" := JStr "amount";
     "collected_data" := JObj ∅;
     "next_step" := JNull ]}.

Definition loan_with_amount (a : Q) : gmap string json :=
  {[ "type" := JStr "loan_application";
     "current_step" := JStr "purpose";
     "collected_data" := JObj {[ "amount" := JNum a ]};
     "next_step" := JNull ]}.

Definition loan_at_purpose : gmap string json := loan_with_amount 15000.

(** The loan application at its last question, with 20000 for a car
    collected. *)
Definition loan_at_income : gmap string json :=
  {[ "type" := JStr "loan_application";
     "current_step" := JStr "income";
     "collected_data" := JObj {[ "amount" := JNum 20000;
                                 "purpose" := JStr "Auto Purchase" ]};
     "next_step" := JNull ]}.

(** The session documents of a dialogue that starts a loan application,
    gives the amount [a] and then asks for the balance. *)
Definition state_started : gmap string json :=
  {[ "multi_step_process" := JObj loan_at_amount ]}.

Definition state_amount (a : Q) : gmap string json :=
  {[ "multi_step_process" := JObj (loan_with_amount a) ]}.

Definition balance_snapshot (timestamp : string) (a : Q)
  : gmap string json :=
  {[ "context" := JStr "balance";
     "timestamp" := JStr timestamp;
     "multi_step_process" := JObj (loan_with_amount a);
     "original_context" := JStr "loan_application";
     "completion_percentage" := JNum (fmul (fdiv 1 3) 100) ]}.

Definition state_suspended (timestamp : string) (a : Q)
  : gmap string json :=
  {[ "multi_step_process" := JObj (loan_with_amount a);
     "suspended_processes" := JArr [JObj (balance_snapshot timestamp a)];
     "context_switched" := JBool true;
     "last_context_switch" := JStr "balance" ]}.

(** A phrase that starts with another character does not occur. *)
Definition starts_outside (phrase : string) : bool :=
  match phrase with
  | String c _ => negb (numeric_char c)
  | EmptyString => false
  end.

Definition sample_clock : Agent.clock :=
  {| Agent.now := "2025-07-28T10:00:00";
     Agent.today := "2025-07-28";
     Agent.hhmm := "1000" |}.

(** ** Sample data of the further properties *)

(** A second customer beside the one of the seed data, with no loan. *)
Definition jane_roe : DatabaseService.user :=
  {| DatabaseService.name := "Jane Roe";
     DatabaseService.account_number := "ACC-2025-002";
     DatabaseService.account_type := "Checking";
     DatabaseService.balance := 1200%Q;
     DatabaseService.available_balance := 1200%Q;
     DatabaseService.pending_transactions := 0%Q |}.

Definition two_customers_db : DatabaseService.db :=
  {| DatabaseService.users :=
       {[ "user123" := john_doe; "user456" := jane_roe ]};
     DatabaseService.cards :=
       {[ "card_001" := card_001; "card_005" := card_005 ]};
     DatabaseService.loan_applications := [ loan_001 ] |}.

(** The result of [get_user_cards] for the two sample cards, without the
    text of the options. *)
Definition selection_result : gmap string json :=
  {[ "requires_selection" := JBool true;
     "message" := JStr "Here are your cards. Please select which card you'd like to manage:";
     "options" := JArr [ JObj {[ "id" := JStr "card_001" ]};
                         JObj {[ "id" := JStr "card_005" ]} ] ]}.

(** The pending action of the card-management menu when "modify limit" is
    chosen, and the process stored after the card is chosen. *)
Definition limit_pending_action : json :=
  JObj {[ "tool" := JStr "limit_modification";
          "step" := JStr "card_selection";
          "options" := JArr [ JObj {[ "id" := JStr "card_001" ]} ];
          "process_type" := JStr "limit_modification" ]}.

Definition limit_process : json :=
  JObj {[ "type" := JStr "limit_modification";
          "current_step" := JStr "new_limit";
          "collected_data" := JObj
            {[ "card_id" := JStr "card_001";
               "current_limit" := JNum 15000 ]};
          "card_id" := JStr "card_001" ]}.

(** * Properties *)

(** ** Session state: updates are shallow merges *)

Section MergeInvariant.
Import StateManager.

Variable session_id : string.

(** After an update the stored document is the one returned. *)
Lemma update_state_stored (t : gmap string (gmap string json))
    (u : gmap string json) :
  get_state (fst (update_state t session_id u)) session_id
  = Some (snd (update_state t session_id u)).
Proof. unfold update_state, get_state. simpl. apply lookup_insert_eq. Qed.

(** A key of the returned document comes from the update if the update
    has it, and from the stored document otherwise. *)
Lemma update_state_lookup (t : gmap string (gmap string json))
    (u : gmap string json) (k : string) :
  snd (update_state t session_id u) !! k
  = match u !! k with
    | Some v => Some v
    | None => default ∅ (get_state t session_id) !! k
    end.
Proof.
  unfold update_state. simpl. rewrite lookup_union.
  destruct (u !! k) as [v|]; simpl.
  - destruct (default ∅ (get_state t session_id) !! k); reflexivity.
  - destruct (default ∅ (get_state t session_id) !! k); reflexivity.
Qed.

(** The sessions with another id keep their documents. *)
Lemma update_state_other (t : gmap string (gmap string json))
    (u : gmap string json) (other : string) :
  other ≠ session_id ->
  get_state (fst (update_state t session_id u)) other = get_state t other.
Proof.
  intros Hne. unfold update_state, get_state. simpl.
  apply lookup_insert_ne. congruence.
Qed.

(** A run of updates computes, key by key, the fold of the
    specification started from what was stored. *)
Lemma update_all_lookup (us : list (gmap string json)) :
  forall (t : gmap string (gmap string json)) (k : string),
    default ∅ (get_state (update_all t session_id us) session_id) !! k
    = foldl (fun acc u => match u !! k with
                          | Some v => Some v
                          | None => acc
                          end)
            (default ∅ (get_state t session_id) !! k) us.
Proof.
  induction us as [|u us IH]; intros t k; simpl.
  - reflexivity.
  - change (update_all t session_id (u :: us))
      with (update_all (fst (update_state t session_id u)) session_id us).
    rewrite IH. f_equal.
    pose proof (update_state_stored t u) as Hstored.
    pose proof (update_state_lookup t u k) as Hlookup.
    rewrite <- Hlookup.
    change (get_state (<[session_id := u ∪ default ∅ (get_state t session_id)]> t)
                      session_id)
      with (get_state (fst (update_state t session_id u)) session_id).
    rewrite Hstored. reflexivity.
Qed.

End MergeInvariant.

(** C1. For a session with no stored state and any sequence of updates,
    the stored document has, under each key, the value of the last update
    that sets the key (the top-level shallow union, later updates
    overriding earlier ones); a further update that supplies only
    [pending_action] stores that field and leaves every other field, in
    particular [multi_step_process], as it was. *)
Theorem update_state_is_shallow_merge :
  forall (t : gmap string (gmap string json)) (session_id : string)
         (us : list (gmap string json)),
    StateManager.get_state t session_id = None ->
    let t' := StateManager.update_all t session_id us in
    let before := default ∅ (StateManager.get_state t' session_id) in
    (forall k, before !! k = last_binding k us) /\
    (forall pending_action,
        let r := StateManager.update_state t' session_id
                   {[ "pending_action" := pending_action ]} in
        StateManager.get_state (fst r) session_id = Some (snd r) /\
        snd r !! "pending_action" = Some pending_action /\
        snd r !! "multi_step_process" = before !! "multi_step_process" /\
        (forall k, k ≠ "pending_action" -> snd r !! k = before !! k)).
Proof.
  intros t session_id us Hfresh t' before. split.
  - intros k. unfold before, t'. rewrite update_all_lookup.
    rewrite Hfresh. simpl. rewrite lookup_empty. reflexivity.
  - intros pending_action r.
    assert (Hother : forall k, k ≠ "pending_action" ->
                               snd r !! k = before !! k).
    { intros k Hk. unfold r. rewrite update_state_lookup.
      rewrite lookup_singleton_ne by congruence. reflexivity. }
    split; [apply update_state_stored|].
    split.
    + unfold r. rewrite update_state_lookup.
      rewrite lookup_singleton_eq. reflexivity.
    + split; [apply Hother; discriminate | exact Hother].
Qed.

(** An instance: a loan process is stored, then a pending action. *)
Lemma update_state_is_shallow_merge_witness :
  let us : list (gmap string json) :=
    [ {[ "multi_step_process" := JStr "loan" ]} ] in
  let t' := StateManager.update_all ∅ "s1" us in
  let before := default ∅ (StateManager.get_state t' "s1") in
  (forall k, before !! k = last_binding k us) /\
  (forall pending_action,
      let r := StateManager.update_state t' "s1"
                 {[ "pending_action" := pending_action ]} in
      StateManager.get_state (fst r) "s1" = Some (snd r) /\
      snd r !! "pending_action" = Some pending_action /\
      snd r !! "multi_step_process" = before !! "multi_step_process" /\
      (forall k, k ≠ "pending_action" -> snd r !! k = before !! k)).
Proof.
  apply (update_state_is_shallow_merge ∅ "s1"
           [ {[ "multi_step_process" := JStr "loan" ]} ]).
  reflexivity.
Defined.

(** ** Card blocking *)

Section BlockCard.
Import DatabaseService MockBankingApi.

Variables (now hhmm : string) (d : db) (user_id card_id : string).

(** The three ways out of [block_card_data] before any write. *)
Lemma block_card_data_not_found :
  get_card d card_id = None ->
  block_card_data now hhmm d user_id card_id
  = (d, error "Card not found").
Proof. intros H. unfold block_card_data. rewrite H. reflexivity. Qed.

Lemma block_card_data_unauthorized (c : card) :
  get_card d card_id = Some c ->
  card_user_id c ≠ user_id ->
  block_card_data now hhmm d user_id card_id
  = (d, error "Unauthorized access to card").
Proof.
  intros H Hne. unfold block_card_data. rewrite H.
  destruct (String.eqb_spec (card_user_id c) user_id) as [Heq|_];
    [contradiction | reflexivity].
Qed.

Lemma block_card_data_already_blocked (c : card) :
  get_card d card_id = Some c ->
  card_user_id c = user_id ->
  card_status c = "blocked" ->
  fst (block_card_data now hhmm d user_id card_id) = d /\
  status_of (snd (block_card_data now hhmm d user_id card_id))
  = JStr "warning".
Proof.
  intros H Hu Hs. unfold block_card_data. rewrite H, Hu, Hs.
  rewrite String.eqb_refl. simpl. split; reflexivity.
Qed.

End BlockCard.

(** C7. Blocking a card whose status is [blocked]: whoever asks, the
    database is left as it was (so the card's record, its [blocked_date]
    included, is the same) and the status of the result is not [success];
    for the card's owner the status is [warning]. *)
Theorem block_card_data_blocked_card :
  forall (now hhmm : string) (d : DatabaseService.db)
         (user_id card_id : string) (c : DatabaseService.card),
    DatabaseService.get_card d card_id = Some c ->
    DatabaseService.card_status c = "blocked" ->
    let r := MockBankingApi.block_card_data now hhmm d user_id card_id in
    fst r = d /\
    DatabaseService.get_card (fst r) card_id = Some c /\
    MockBankingApi.status_of (snd r) ≠ JStr "success" /\
    (DatabaseService.card_user_id c = user_id ->
     MockBankingApi.status_of (snd r) = JStr "warning").
Proof.
  intros now hhmm d user_id card_id c Hc Hs r.
  destruct (String.string_dec (DatabaseService.card_user_id c) user_id)
    as [Hu|Hu].
  - destruct (block_card_data_already_blocked now hhmm d user_id card_id c
                Hc Hu Hs) as [Hd Hw].
    fold r in Hd, Hw. rewrite Hd, Hw.
    repeat split; [exact Hc | discriminate].
  - unfold r.
    rewrite (block_card_data_unauthorized now hhmm d user_id card_id c Hc Hu).
    simpl. repeat split; [exact Hc | discriminate | contradiction].
Qed.

Lemma block_card_data_blocked_card_witness :
  let r := MockBankingApi.block_card_data "2025-07-28 10:00:00" "1000"
             sample_db "user123" "card_005" in
  fst r = sample_db /\
  DatabaseService.get_card (fst r) "card_005" = Some card_005 /\
  MockBankingApi.status_of (snd r) ≠ JStr "success" /\
  (DatabaseService.card_user_id card_005 = "user123" ->
   MockBankingApi.status_of (snd r) = JStr "warning").
Proof.
  apply (block_card_data_blocked_card "2025-07-28 10:00:00" "1000"
           sample_db "user123" "card_005" card_005); reflexivity.
Defined.

(** C10. The ownership guard: when no card is stored under the card id,
    or the stored card belongs to another user, the result has status
    [error] with the message "Card not found", respectively "Unauthorized
    access to card", and the database is left as it was: nothing is
    written and the card is not blocked. *)
Theorem block_card_data_ownership_guard :
  forall (now hhmm : string) (d : DatabaseService.db)
         (user_id card_id : string),
    match DatabaseService.get_card d card_id with
    | None => True
    | Some c => DatabaseService.card_user_id c ≠ user_id
    end ->
    let r := MockBankingApi.block_card_data now hhmm d user_id card_id in
    fst r = d /\
    MockBankingApi.status_of (snd r) = JStr "error" /\
    doc_get (snd r) "message"
    = JStr (match DatabaseService.get_card d card_id with
            | None => "Card not found"
            | Some _ => "Unauthorized access to card"
            end) /\
    DatabaseService.get_card (fst r) card_id
    = DatabaseService.get_card d card_id.
Proof.
  intros now hhmm d user_id card_id Hguard r. unfold r.
  destruct (DatabaseService.get_card d card_id) as [c|] eqn:Hc.
  - rewrite (block_card_data_unauthorized now hhmm d user_id card_id c
               Hc Hguard).
    repeat split. exact Hc.
  - rewrite (block_card_data_not_found now hhmm d user_id card_id Hc).
    repeat split. exact Hc.
Qed.

Lemma block_card_data_ownership_guard_witness :
  let r := MockBankingApi.block_card_data "2025-07-28 10:00:00" "1000"
             sample_db "mallory" "card_001" in
  fst r = sample_db /\
  MockBankingApi.status_of (snd r) = JStr "error" /\
  doc_get (snd r) "message" = JStr "Unauthorized access to card" /\
  DatabaseService.get_card (fst r) "card_001" = Some card_001.
Proof.
  apply (block_card_data_ownership_guard "2025-07-28 10:00:00" "1000"
           sample_db "mallory" "card_001").
  vm_compute. discriminate.
Defined.

(** ** Credit limit modification *)

(** A positive limit is not taken for zero. *)
Lemma Qeq_bool_pos (x : Q) : (0 < x)%Q -> Qeq_bool x 0 = false.
Proof.
  intros Hpos. destruct (Qeq_bool x 0) eqn:E; [|reflexivity].
  apply Qeq_bool_eq in E. rewrite E in Hpos.
  exfalso. exact (Qlt_irrefl 0 Hpos).
Qed.

(** A number that is not zero is truthy. *)
Lemma nonzero_truthy (a : Q) : ~ (a == 0)%Q -> negb (Qnum a =? 0)%Z = true.
Proof.
  intros Ha. apply negb_true_iff. apply Z.eqb_neq. intros E. apply Ha.
  unfold Qeq. simpl. rewrite E. reflexivity.
Qed.

(** [available_credit or 0] is the available credit. *)
Lemma available_or_zero (a : Q) :
  ((if Qeq_bool a 0 then 0 else a) == a)%Q.
Proof.
  destruct (Qeq_bool a 0) eqn:E; [|reflexivity].
  apply Qeq_bool_eq in E. symmetry. exact E.
Qed.

(** Rounding does not look at the fraction a number is written as. *)
Lemma fl_compat (x y : Q) : (x == y)%Q -> fl x = fl y.
Proof. intros H. unfold fl. rewrite (Qred_complete x y H). reflexivity. Qed.

(** C6 (amended). For a credit card of the requesting user with old limit
    [L > 0] and available credit [A], floats of modest magnitude: a new
    limit [N] with [1000 <= N <= 100000] succeeds, stores [N] as the limit
    and, as the available credit, [N - N * ((L - A) / L)] with each of the
    four operations rounded to the nearest float; a new limit below 1000
    or above 100000 returns the status [error] and leaves the database,
    hence the card, unchanged. *)
Theorem modify_credit_limit_data_bounds :
  forall (now : string) (d : DatabaseService.db) (user_id card_id : string)
         (c : DatabaseService.card) (L A N : Q),
    DatabaseService.get_card d card_id = Some c ->
    DatabaseService.card_user_id c = user_id ->
    DatabaseService.card_type c = "credit" ->
    DatabaseService.limit_amount c = Some L ->
    DatabaseService.available_credit c = Some A ->
    (0 < L)%Q ->
    modest L = true -> modest A = true -> is_double N = true ->
    let r := MockBankingApi.modify_credit_limit_data now d user_id card_id N in
    if Qle_bool 1000 N && Qle_bool N 100000
    then MockBankingApi.status_of (snd r) = JStr "success" /\
         exists c',
           DatabaseService.get_card (fst r) card_id = Some c' /\
           DatabaseService.limit_amount c' = Some N /\
           DatabaseService.available_credit c'
           = Some (fsub N (fmul N (fdiv (fsub L A) L)))
    else MockBankingApi.status_of (snd r) = JStr "error" /\
         fst r = d /\
         DatabaseService.get_card (fst r) card_id = Some c.
Proof.
  intros now d user_id card_id c L A N Hc Hu Ht HL HA Hpos _ _ _ r.
  unfold r, MockBankingApi.modify_credit_limit_data.
  rewrite Hc, Hu, Ht, HL, HA, !String.eqb_refl. cbn [negb].
  destruct (Qlt_le_dec N 1000) as [Hlow|Hlow].
  - assert (E : Qle_bool 1000 N = false).
    { destruct (Qle_bool 1000 N) eqn:E; [|reflexivity].
      apply Qle_bool_iff in E. exfalso.
      exact (Qlt_irrefl N (Qlt_le_trans _ _ _ Hlow E)). }
    rewrite E. simpl. repeat split; assumption.
  - assert (E : Qle_bool 1000 N = true) by (apply Qle_bool_iff; exact Hlow).
    rewrite E. cbn [andb].
    destruct (Qlt_le_dec 100000 N) as [Hhigh|Hhigh].
    + assert (E' : Qle_bool N 100000 = false).
      { destruct (Qle_bool N 100000) eqn:E'; [|reflexivity].
        apply Qle_bool_iff in E'. exfalso.
        exact (Qlt_irrefl N (Qle_lt_trans _ _ _ E' Hhigh)). }
      rewrite E'. simpl. repeat split; assumption.
    + assert (E' : Qle_bool N 100000 = true)
        by (apply Qle_bool_iff; exact Hhigh).
      rewrite E', (Qeq_bool_pos L Hpos).
      assert (Hav : fsub L (if Qeq_bool A 0 then 0 else A) = fsub L A).
      { apply fl_compat. rewrite (available_or_zero A). reflexivity. }
      rewrite Hav.
      unfold DatabaseService.update_card_limit.
      unfold DatabaseService.get_card in Hc. rewrite Hc.
      split; [reflexivity|].
      eexists. cbn [fst].
      unfold DatabaseService.get_card, DatabaseService.with_cards.
      cbn [DatabaseService.cards].
      rewrite lookup_insert_eq.
      split; [reflexivity|]. split; reflexivity.
Qed.

(** The sample card at the new limit 20000: the float stored as available
    credit is the one written 16666.666666666668. *)
Lemma modify_credit_limit_data_bounds_witness :
  let r := MockBankingApi.modify_credit_limit_data "2025-07-28 10:00:00"
             sample_db "user123" "card_001" 20000 in
  (MockBankingApi.status_of (snd r) = JStr "success" /\
   exists c',
     DatabaseService.get_card (fst r) "card_001" = Some c' /\
     DatabaseService.limit_amount c' = Some 20000%Q /\
     DatabaseService.available_credit c'
     = Some (fsub 20000 (fmul 20000 (fdiv (fsub 15000 12500) 15000)))) /\
  fsub 20000 (fmul 20000 (fdiv (fsub 15000 12500) 15000))
  = fl 16666.666666666668.
Proof.
  split; [|vm_compute; reflexivity].
  apply (modify_credit_limit_data_bounds "2025-07-28 10:00:00" sample_db
           "user123" "card_001" card_001 15000 12500 20000);
    reflexivity.
Defined.

(** The claim as the specification words it fails: at the new limit 1231
    the sample card gets the float written 1025.8333333333333, which is
    neither the number [N * (1 - (L - A) / L)] nor that expression
    evaluated in floats (1025.8333333333335). *)
Lemma stored_credit_is_not_the_claimed_product :
  let r := MockBankingApi.modify_credit_limit_data "2025-07-28 10:00:00"
             sample_db "user123" "card_001" 1231 in
  MockBankingApi.status_of (snd r) = JStr "success" /\
  exists c' a',
    DatabaseService.get_card (fst r) "card_001" = Some c' /\
    DatabaseService.available_credit c' = Some a' /\
    a' = fl 1025.8333333333333 /\
    ~ (a' == 1231 * (1 - (15000 - 12500) / 15000))%Q /\
    ~ (a' == fmul 1231 (fsub 1 (fdiv (fsub 15000 12500) 15000)))%Q /\
    fmul 1231 (fsub 1 (fdiv (fsub 15000 12500) 15000))
    = fl 1025.8333333333335.
Proof.
  split; [reflexivity|].
  eexists _, _. split; [vm_compute; reflexivity|].
  split; [vm_compute; reflexivity|].
  split; [vm_compute; reflexivity|].
  split; [vm_compute; discriminate|].
  split; [vm_compute; discriminate|].
  vm_compute. reflexivity.
Qed.

(** ** Loan pricing *)

Section LoanPricing.
Import DatabaseService MockBankingApi.

(** The expression of the source is the amortization formula at the
    monthly rate over sixty payments, evaluated in floats. *)
Lemma payment_formula_amortization (amount rate : Q) :
  payment_formula amount rate
  = amortization_binary64 amount (monthly_rate_of rate) 60.
Proof. reflexivity. Qed.

(** The four values of [(1 + monthly_rate) ** 60], at the four rates. *)
Lemma growth_factors :
  fpow (fadd 1 (monthly_rate_of (fl 5.2))) 60 = fl 1.2962017910797543 /\
  fpow (fadd 1 (monthly_rate_of (fl 6.5))) 60 = fl 1.382817324206292 /\
  fpow (fadd 1 (monthly_rate_of (fl 8.2))) 60 = fl 1.5047180157759998 /\
  fpow (fadd 1 (monthly_rate_of (fl 10.5))) 60 = fl 1.6866029818488428.
Proof. repeat split; vm_compute; reflexivity. Qed.

(** The division of the payment is by a number other than zero. *)
Lemma payment_denominator_nonzero (ratio : Q) :
  ~ (payment_denominator (monthly_rate_of (band ratio)) == 0)%Q.
Proof.
  unfold band.
  destruct (Qlt_le_dec ratio (fl 0.1));
    [|destruct (Qlt_le_dec ratio (fl 0.2));
      [|destruct (Qlt_le_dec ratio (fl 0.3))]];
    vm_compute; discriminate.
Qed.

(** The four bands. *)
Lemma band_cases (ratio : Q) :
  ((ratio < fl 0.1)%Q -> band ratio = fl 5.2) /\
  ((fl 0.1 <= ratio)%Q -> (ratio < fl 0.2)%Q -> band ratio = fl 6.5) /\
  ((fl 0.2 <= ratio)%Q -> (ratio < fl 0.3)%Q -> band ratio = fl 8.2) /\
  ((fl 0.3 <= ratio)%Q -> band ratio = fl 10.5).
Proof.
  unfold band.
  assert (Habs : forall x y : Q, (x < y)%Q -> (y <= x)%Q -> False).
  { intros x y Hlt Hle. exact (Qlt_irrefl x (Qlt_le_trans _ _ _ Hlt Hle)). }
  assert (H12 : (fl 0.1 <= fl 0.2)%Q)
    by (apply Qle_bool_imp_le; vm_compute; reflexivity).
  assert (H23 : (fl 0.2 <= fl 0.3)%Q)
    by (apply Qle_bool_imp_le; vm_compute; reflexivity).
  repeat split; intros;
    destruct (Qlt_le_dec ratio (fl 0.1)) as [L1|L1];
    destruct (Qlt_le_dec ratio (fl 0.2)) as [L2|L2];
    destruct (Qlt_le_dec ratio (fl 0.3)) as [L3|L3];
    try reflexivity; exfalso;
    eauto using Qle_trans, Qlt_le_trans, Qle_lt_trans.
Qed.

(** A stored application with the given id. *)
Lemma id_not_stored (d : db) (id : string) :
  ~ In id (List.map application_id (loan_applications d)) ->
  existsb (fun l => String.eqb (application_id l) id) (loan_applications d)
  = false.
Proof.
  intros Hfresh.
  destruct (existsb _ (loan_applications d)) eqn:E; [|reflexivity].
  exfalso. apply Hfresh. apply existsb_exists in E.
  destruct E as (l & Hin & Heq). apply String.eqb_eq in Heq.
  rewrite <- Heq. apply in_map. exact Hin.
Qed.

End LoanPricing.

(** A known user whose next application id is free gets the application
    stored. *)
Lemma apply_for_loan_data_succeeds (today : string)
    (d : DatabaseService.db) (user_id : string) (u : DatabaseService.user)
    (amount : Q) (purpose : string) (income : Q) :
  DatabaseService.get_user d user_id = Some u ->
  ~ (amount == 0)%Q ->
  purpose ≠ "" ->
  (0 < income)%Q ->
  ~ In (MockBankingApi.loan_id
          (length (DatabaseService.get_user_loans d user_id) + 1))
       (List.map DatabaseService.application_id
                 (DatabaseService.loan_applications d)) ->
  MockBankingApi.status_of
    (snd (MockBankingApi.apply_for_loan_data today d user_id
            (Some amount) (Some purpose) (Some income) false))
  = JStr "success".
Proof.
  intros Hu Ha Hp Hi Hfresh.
  assert (Hincome : negb (Qnum income =? 0)%Z = true).
  { apply negb_true_iff. apply Z.eqb_neq. intros E.
    unfold Qlt in Hi. simpl in Hi. lia. }
  assert (Hpurpose : negb (String.eqb purpose "") = true).
  { apply negb_true_iff. apply String.eqb_neq. exact Hp. }
  unfold MockBankingApi.apply_for_loan_data. rewrite Hu.
  cbn [MockBankingApi.some_num MockBankingApi.some_text orb negb andb
       default from_option id].
  rewrite (nonzero_truthy amount Ha), Hpurpose, Hincome.
  cbn [orb negb andb].
  unfold DatabaseService.add_loan_application.
  cbn [DatabaseService.application_id].
  rewrite (id_not_stored d _ Hfresh). reflexivity.
Qed.

(** C3 (amended). With the three slots supplied (a non-zero amount, a
    non-empty purpose, an income above zero; floats of modest magnitude),
    an application that is accepted has as interest rate the band of the
    ratio [amount * 12 / income] computed in floats (below the float 0.1:
    5.2, below 0.2: 6.5, below 0.3: 8.2, otherwise 10.5), a term of 60
    months, and as monthly payment the amortization formula at that rate
    over 60 months, evaluated in floats and rounded to two decimal
    places. *)
Theorem apply_for_loan_data_pricing :
  forall (today : string) (d : DatabaseService.db) (user_id : string)
         (amount : Q) (purpose : string) (income : Q),
    ~ (amount == 0)%Q ->
    purpose ≠ "" ->
    (0 < income)%Q ->
    modest amount = true -> modest income = true ->
    let ratio := fdiv (fmul amount 12) income in
    let rate := MockBankingApi.band ratio in
    let r := MockBankingApi.apply_for_loan_data today d user_id
               (Some amount) (Some purpose) (Some income) false in
    MockBankingApi.status_of (snd r) = JStr "success" ->
    (exists app,
        snd r !! "application" = Some (JObj app) /\
        app !! "interest_rate" = Some (JNum rate) /\
        app !! "term_months" = Some (JNum 60) /\
        app !! "estimated_monthly_payment"
        = Some (JNum (round2 (amortization_binary64 amount
                                (MockBankingApi.monthly_rate_of rate) 60)))) /\
    ((ratio < fl 0.1)%Q -> rate = fl 5.2) /\
    ((fl 0.1 <= ratio)%Q -> (ratio < fl 0.2)%Q -> rate = fl 6.5) /\
    ((fl 0.2 <= ratio)%Q -> (ratio < fl 0.3)%Q -> rate = fl 8.2) /\
    ((fl 0.3 <= ratio)%Q -> rate = fl 10.5).
Proof.
  intros today d user_id amount purpose income Ha Hp Hi _ _ ratio rate r.
  assert (Hincome : negb (Qnum income =? 0)%Z = true).
  { apply negb_true_iff. apply Z.eqb_neq. intros E.
    unfold Qlt in Hi. simpl in Hi. lia. }
  assert (Hpurpose : negb (String.eqb purpose "") = true).
  { apply negb_true_iff. apply String.eqb_neq. exact Hp. }
  unfold r, MockBankingApi.apply_for_loan_data.
  destruct (DatabaseService.get_user d user_id) as [u|];
    [|intros Hs; discriminate Hs].
  cbn [MockBankingApi.some_num MockBankingApi.some_text orb negb andb
       default from_option id].
  rewrite (nonzero_truthy amount Ha), Hpurpose, Hincome.
  cbn [orb negb andb].
  unfold DatabaseService.add_loan_application.
  cbn [DatabaseService.application_id].
  destruct (existsb _ (DatabaseService.loan_applications d));
    [intros Hs; discriminate Hs|].
  intros _. split; [|exact (band_cases ratio)].
  destruct (Qlt_le_dec 0 income) as [_|Hneg];
    [|exfalso; exact (Qlt_irrefl 0 (Qlt_le_trans _ _ _ Hi Hneg))].
  eexists. cbn [snd].
  split; [reflexivity|].
  split; [reflexivity|]. split; reflexivity.
Qed.

(** The scenario of the specification: 20000 for a car on an income of
    60000 gives the ratio 4, the rate 10.5 and the payment 429.88. *)
Lemma apply_for_loan_data_pricing_witness :
  let r := MockBankingApi.apply_for_loan_data "2025-07-28" sample_db
             "user123" (Some 20000%Q) (Some "Auto Purchase") (Some 60000%Q)
             false in
  fdiv (fmul 20000 12) 60000 = 4%Q /\
  MockBankingApi.status_of (snd r) = JStr "success" /\
  (exists app,
      snd r !! "application" = Some (JObj app) /\
      app !! "interest_rate" = Some (JNum (fl 10.5)) /\
      app !! "term_months" = Some (JNum 60) /\
      app !! "estimated_monthly_payment"
      = Some (JNum (round2 (amortization_binary64 20000
                              (MockBankingApi.monthly_rate_of (fl 10.5))
                              60)))) /\
  round2 (amortization_binary64 20000
            (MockBankingApi.monthly_rate_of (fl 10.5)) 60) = fl 429.88.
Proof.
  split; [vm_compute; reflexivity|]. split; [vm_compute; reflexivity|].
  split; [|vm_compute; reflexivity].
  pose proof (apply_for_loan_data_pricing "2025-07-28" sample_db "user123"
                20000 "Auto Purchase" 60000) as H.
  cbv zeta in H.
  destruct H as ((app & Happ & Hrate & Hterm & Hpay) & _ & _ & _ & Hband).
  - intros E. discriminate E.
  - discriminate.
  - reflexivity.
  - vm_compute. reflexivity.
  - vm_compute. reflexivity.
  - vm_compute. reflexivity.
  - exists app.
    rewrite Hband in Hrate, Hpay
      by (apply Qle_bool_imp_le; vm_compute; reflexivity).
    repeat split; assumption.
Defined.

(** The claim read over exact numbers fails twice.  At 20000 on an income
    of 60000 the stored payment is the float 429.88, not the value of the
    amortization formula.  At the amount 1000.01 on an income of 60000.60,
    as [float] reads them, the ratio [amount * 12 / income] of the two
    floats is not below 0.20, which is the band of 8.2, while the ratio
    the code computes is the float below 0.2 and the rate is 6.5. *)
Lemma loan_pricing_is_not_exact :
  (let r := MockBankingApi.apply_for_loan_data "2025-07-28" sample_db
              "user123" (Some 20000%Q) (Some "Auto Purchase") (Some 60000%Q)
              false in
   exists app payment,
     snd r !! "application" = Some (JObj app) /\
     app !! "estimated_monthly_payment" = Some (JNum payment) /\
     payment = fl 429.88 /\
     ~ (payment == amortization 20000 (10.5 / 100 / 12) 60)%Q) /\
  (exists amount income,
     float_of_string "1000.01" = Ret amount /\
     float_of_string "60000.60" = Ret income /\
     (0.2 <= amount * 12 / income)%Q /\
     (fdiv (fmul amount 12) income < fl 0.2)%Q /\
     let r := MockBankingApi.apply_for_loan_data "2025-07-28" sample_db
                "user123" (Some amount) (Some "Auto Purchase") (Some income)
                false in
     exists app,
       snd r !! "application" = Some (JObj app) /\
       app !! "interest_rate" = Some (JNum (fl 6.5))).
Proof.
  split.
  - eexists _, _. split; [vm_compute; reflexivity|].
    split; [vm_compute; reflexivity|].
    split; [vm_compute; reflexivity|].
    vm_compute. discriminate.
  - eexists _, _. split; [vm_compute; reflexivity|].
    split; [vm_compute; reflexivity|].
    split; [vm_compute; discriminate|].
    split; [vm_compute; reflexivity|].
    eexists. split; vm_compute; reflexivity.
Qed.

(** ** The cascade of the router *)

Section Router.
Import Agent.

Lemma any_in_intro (phrases : list string) (phrase s : string) :
  In phrase phrases -> str_in phrase s = true -> any_in phrases s = true.
Proof.
  intros Hin Hs. unfold any_in. apply existsb_exists.
  exists phrase. split; assumption.
Qed.

(** The handler of the first trigger of the table that fires takes the
    turn, whatever the later triggers say. *)
Lemma process_turn_first_match (current_state : gmap string json)
    (message : string) (h : handler) :
  first_match direct_rules (lower message) = Some h ->
  process_turn current_state message = Ret h.
Proof.
  unfold process_turn, direct_rules. cbn [first_match]. cbv beta.
  destruct (any_in account_details_phrases (lower message));
    [intros [= <-]; reflexivity|].
  destruct (any_in balance_phrases (lower message));
    [intros [= <-]; reflexivity|].
  destruct (any_in transaction_phrases (lower message));
    [intros [= <-]; reflexivity|].
  destruct (any_in card_management_phrases (lower message));
    [intros [= <-]; reflexivity|].
  destruct (any_in new_card_phrases (lower message));
    [intros [= <-]; reflexivity|].
  destruct (any_in block_card_phrases (lower message)
            && negb (any_in block_card_exclusions (lower message)));
    [intros [= <-]; reflexivity|].
  destruct (any_in card_list_phrases (lower message));
    [intros [= <-]; reflexivity|].
  destruct (any_in loan_listing_phrases (lower message)
            && negb (any_in loan_listing_exclusions (lower message)));
    [intros [= <-]; reflexivity|].
  discriminate.
Qed.

(** What is left of the cascade when no trigger of the table fires. *)
Lemma process_turn_no_match (current_state : gmap string json)
    (message : string) :
  first_match direct_rules (lower message) = None ->
  process_turn current_state message ≠ Ret CardManagementQuery /\
  process_turn current_state message ≠ Ret DirectCardBlocking.
Proof.
  unfold process_turn, direct_rules. cbn [first_match]. cbv beta.
  destruct (any_in account_details_phrases (lower message));
    [discriminate|].
  destruct (any_in balance_phrases (lower message)); [discriminate|].
  destruct (any_in transaction_phrases (lower message)); [discriminate|].
  destruct (any_in card_management_phrases (lower message));
    [discriminate|].
  destruct (any_in new_card_phrases (lower message)); [discriminate|].
  destruct (any_in block_card_phrases (lower message)
            && negb (any_in block_card_exclusions (lower message)));
    [discriminate|].
  destruct (any_in card_list_phrases (lower message)); [discriminate|].
  destruct (any_in loan_listing_phrases (lower message)
            && negb (any_in loan_listing_exclusions (lower message)));
    [discriminate|].
  intros _.
  destruct (dict_get (doc_get_obj current_state "multi_step_process")
                     "type") as [type|e]; simpl.
  - split;
      repeat match goal with
             | |- context [if ?c then _ else _] => destruct c
             end; discriminate.
  - split; discriminate.
Qed.

End Router.

(** C4 (amended). For every stored state and message: a message containing
    "card management" never goes to the direct card-blocking handler; a
    message containing "block my card" and none of "card management",
    "manage cards", "card services" never goes to the card-management
    menu; and the first trigger of the ordered table that fires decides the
    handler, the later ones not being consulted. *)
Theorem process_turn_card_disambiguation :
  forall (current_state : gmap string json) (message : string),
    (str_in "card management" (lower message) = true ->
     Agent.process_turn current_state message
     ≠ Ret Agent.DirectCardBlocking) /\
    (str_in "block my card" (lower message) = true ->
     any_in ["card management"; "manage cards"; "card services"]
            (lower message) = false ->
     Agent.process_turn current_state message
     ≠ Ret Agent.CardManagementQuery) /\
    (forall h,
        Agent.first_match Agent.direct_rules (lower message) = Some h ->
        Agent.process_turn current_state message = Ret h).
Proof.
  intros current_state message. split; [|split].
  - intros Hcm.
    assert (Hmenu : any_in Agent.card_management_phrases (lower message)
                    = true).
    { apply (any_in_intro _ "card management"); [left; reflexivity|exact Hcm]. }
    destruct (Agent.first_match Agent.direct_rules (lower message))
      as [h|] eqn:Hfirst.
    + rewrite (process_turn_first_match _ _ _ Hfirst).
      revert Hfirst. unfold Agent.direct_rules. cbn [Agent.first_match].
      cbv beta. rewrite Hmenu.
      destruct (any_in Agent.account_details_phrases (lower message));
        [intros [= <-]; discriminate|].
      destruct (any_in Agent.balance_phrases (lower message));
        [intros [= <-]; discriminate|].
      destruct (any_in Agent.transaction_phrases (lower message));
        intros [= <-]; discriminate.
    + apply process_turn_no_match. exact Hfirst.
  - intros _ Hnone.
    change (any_in Agent.card_management_phrases (lower message) = false)
      in Hnone.
    destruct (Agent.first_match Agent.direct_rules (lower message))
      as [h|] eqn:Hfirst.
    + rewrite (process_turn_first_match _ _ _ Hfirst).
      revert Hfirst. unfold Agent.direct_rules. cbn [Agent.first_match].
      cbv beta. rewrite Hnone.
      repeat match goal with
             | |- context [if ?c then _ else _] => destruct c
             end; intros [= <-]; discriminate.
    + apply process_turn_no_match. exact Hfirst.
  - apply process_turn_first_match.
Qed.

Lemma process_turn_card_disambiguation_witness :
  Agent.process_turn ∅ "Card Management" ≠ Ret Agent.DirectCardBlocking /\
  Agent.process_turn ∅ "Please block my card" ≠ Ret Agent.CardManagementQuery /\
  Agent.process_turn ∅ "Please block my card" = Ret Agent.DirectCardBlocking.
Proof.
  split; [|split].
  - apply (proj1 (process_turn_card_disambiguation ∅ "Card Management")).
    reflexivity.
  - apply (proj1 (proj2 (process_turn_card_disambiguation
                           ∅ "Please block my card")));
      reflexivity.
  - apply (proj2 (proj2 (process_turn_card_disambiguation
                           ∅ "Please block my card"))).
    reflexivity.
Defined.

(** A message that contains "block my card" and neither "card management"
    nor "manage cards", and goes to the card-management menu. *)
Lemma block_my_card_routed_to_card_management :
  str_in "block my card" (lower "card services, please block my card") = true /\
  any_in ["card management"; "manage cards"]
         (lower "card services, please block my card") = false /\
  Agent.process_turn ∅ "card services, please block my card"
  = Ret Agent.CardManagementQuery.
Proof. repeat split. Qed.

(** ** Pending actions *)

(** C8. When the cascade hands a turn to the pending-action dispatch and
    the [process_type] of the stored [pending_action] is none of
    [card_management], [new_card_application], [card_application],
    [limit_modification], [card_blocking] (or is missing), the dispatch
    returns the card-blocking selection handler: no exception is raised and
    the dispatch itself writes nothing. *)
Theorem unrecognized_pending_action_fallback :
  forall (current_state : gmap string json) (message : string)
         (pending_action : gmap string json),
    current_state !! "pending_action" = Some (JObj pending_action) ->
    existsb (is_str (default JNull (pending_action !! "process_type")))
            Agent.recognized_process_types = false ->
    Agent.process_turn current_state message = Ret Agent.PendingActions ->
    Agent._handle_pending_actions (doc_get_obj current_state "pending_action")
    = Ret Agent.CardBlockingSelection.
Proof.
  intros current_state message pending_action Hpa Hunknown _.
  unfold doc_get_obj. rewrite Hpa. cbn [default from_option id].
  unfold Agent._handle_pending_actions, dict_get. cbn [py_bind].
  unfold Agent.recognized_process_types in Hunknown.
  cbn [existsb] in Hunknown.
  repeat (apply orb_false_elim in Hunknown;
          destruct Hunknown as [?H Hunknown]).
  repeat match goal with
         | H : is_str _ _ = false |- _ => rewrite H; clear H
         end.
  reflexivity.
Qed.

(** The pending action that the card-management menu stores for "block
    card" carries no [process_type]. *)
Lemma unrecognized_pending_action_fallback_witness :
  let pending_action : gmap string json :=
    {[ "tool" := JStr "block_card"; "args" := JObj ∅;
       "options" := JArr [] ]} in
  Agent._handle_pending_actions
    (doc_get_obj {[ "pending_action" := JObj pending_action ]}
                 "pending_action")
  = Ret Agent.CardBlockingSelection.
Proof.
  intros pending_action.
  apply (unrecognized_pending_action_fallback
           {[ "pending_action" := JObj pending_action ]}
           "the first one please" pending_action); reflexivity.
Defined.

(** ** Suspension on a context switch *)

Section ContextSwitch.
Import Agent.

(** Without an active process nothing is written. *)
Lemma save_without_active_process (clk : clock)
    (t : gmap string (gmap string json)) (session_id new_context : string) :
  truthy (doc_get (default ∅ (StateManager.get_state t session_id))
                  "multi_step_process") = false ->
  _save_current_process_on_context_switch clk t session_id new_context
  = Ret t.
Proof.
  intros H. unfold _save_current_process_on_context_switch.
  rewrite H. reflexivity.
Qed.

(** The completion estimate is defined for every process record whose
    [collected_data], if any, is a dict. *)
Lemma completion_defined (m : gmap string json) :
  (forall v, m !! "collected_data" = Some v -> exists cd, v = JObj cd) ->
  exists pct, _calculate_process_completion (JObj m) = Ret pct.
Proof.
  intros Hcd. unfold _calculate_process_completion, dict_get, dict_get_obj.
  cbn [py_bind].
  destruct (is_str (default JNull (m !! "type")) "loan_application");
    [|eexists; reflexivity].
  destruct (m !! "collected_data") as [v|] eqn:E.
  - destruct (Hcd v eq_refl) as [cd ->]. eexists. reflexivity.
  - eexists. reflexivity.
Qed.

End ContextSwitch.

(** C9. Suspending the active process on a context switch does not
    deactivate it: the stored state afterwards has the same
    [multi_step_process], a [suspended_processes] list extended by a
    snapshot that holds a copy of that process, [context_switched] set to
    true and [last_context_switch] set to the new context; every other
    field is as before. *)
Theorem save_on_context_switch_keeps_process_active :
  forall (clk : Agent.clock) (t : gmap string (gmap string json))
         (session_id new_context : string)
         (st process : gmap string json) (suspended : list json) (pct : Q),
    StateManager.get_state t session_id = Some st ->
    st !! "multi_step_process" = Some (JObj process) ->
    truthy (JObj process) = true ->
    default (JArr []) (st !! "suspended_processes") = JArr suspended ->
    Agent._calculate_process_completion (JObj process) = Ret pct ->
    exists t' st' snapshot,
      Agent._save_current_process_on_context_switch clk t session_id
        new_context = Ret t' /\
      StateManager.get_state t' session_id = Some st' /\
      st' !! "multi_step_process" = Some (JObj process) /\
      st' !! "suspended_processes"
      = Some (JArr (suspended ++ [JObj snapshot])) /\
      snapshot !! "multi_step_process" = Some (JObj process) /\
      snapshot !! "context" = Some (JStr new_context) /\
      snapshot !! "completion_percentage" = Some (JNum pct) /\
      st' !! "context_switched" = Some (JBool true) /\
      st' !! "last_context_switch" = Some (JStr new_context) /\
      (forall k, k ≠ "suspended_processes" -> k ≠ "context_switched" ->
                 k ≠ "last_context_switch" -> st' !! k = st !! k).
Proof.
  intros clk t session_id new_context st process suspended pct
         Hst Hproc Htruthy Hsusp Hpct.
  assert (Hactive : doc_get st "multi_step_process" = JObj process).
  { unfold doc_get. rewrite Hproc. reflexivity. }
  unfold Agent._save_current_process_on_context_switch.
  rewrite Hst. cbv zeta. cbn [default from_option id].
  rewrite Hactive, Htruthy, Hpct. unfold dict_get. cbn [py_bind].
  set (cs := match st !! "suspended_processes" with
             | Some _ => st
             | None => <["suspended_processes" := JArr []]> st
             end).
  assert (Hcs : doc_get cs "suspended_processes" = JArr suspended).
  { unfold doc_get, cs.
    destruct (st !! "suspended_processes") as [v|] eqn:E.
    - rewrite E. exact Hsusp.
    - rewrite lookup_insert_eq. exact Hsusp. }
  assert (Hcs_other : forall k, k ≠ "suspended_processes" ->
                                cs !! k = st !! k).
  { intros k Hk. unfold cs.
    destruct (st !! "suspended_processes"); [reflexivity|].
    apply lookup_insert_ne. congruence. }
  rewrite Hcs.
  eexists _, _, _. split; [reflexivity|].
  split; [apply update_state_stored|].
  repeat split.
  - rewrite update_state_lookup.
    rewrite !lookup_insert_ne by discriminate.
    rewrite Hcs_other by discriminate. rewrite Hproc. reflexivity.
  - rewrite update_state_lookup.
    rewrite !lookup_insert_ne by discriminate.
    rewrite lookup_insert_eq. reflexivity.
  - reflexivity.
  - reflexivity.
  - reflexivity.
  - rewrite update_state_lookup.
    rewrite lookup_insert_ne by discriminate.
    rewrite lookup_insert_eq. reflexivity.
  - rewrite update_state_lookup. rewrite lookup_insert_eq. reflexivity.
  - intros k H1 H2 H3. rewrite update_state_lookup.
    rewrite !lookup_insert_ne by congruence.
    rewrite Hcs_other by exact H1. rewrite Hst. cbn [default from_option id].
    destruct (st !! k); reflexivity.
Qed.

Lemma save_on_context_switch_keeps_process_active_witness :
  exists t' st' snapshot,
    Agent._save_current_process_on_context_switch sample_clock
      {[ "s1" := {[ "multi_step_process" := JObj loan_at_purpose ]} ]}
      "s1" "balance" = Ret t' /\
    StateManager.get_state t' "s1" = Some st' /\
    st' !! "multi_step_process" = Some (JObj loan_at_purpose) /\
    st' !! "suspended_processes" = Some (JArr ([] ++ [JObj snapshot])) /\
    snapshot !! "multi_step_process" = Some (JObj loan_at_purpose) /\
    snapshot !! "context" = Some (JStr "balance") /\
    snapshot !! "completion_percentage"
    = Some (JNum (fmul (fdiv 1 3) 100)) /\
    st' !! "context_switched" = Some (JBool true) /\
    st' !! "last_context_switch" = Some (JStr "balance") /\
    (forall k, k ≠ "suspended_processes" -> k ≠ "context_switched" ->
               k ≠ "last_context_switch" ->
               st' !! k
               = ({[ "multi_step_process" := JObj loan_at_purpose ]}
                    : gmap string json) !! k).
Proof.
  apply (save_on_context_switch_keeps_process_active sample_clock
           {[ "s1" := {[ "multi_step_process" := JObj loan_at_purpose ]} ]}
           "s1" "balance"
           {[ "multi_step_process" := JObj loan_at_purpose ]}
           loan_at_purpose [] (fmul (fdiv 1 3) 100));
    reflexivity.
Defined.

(** ** Bare numeric tokens

    A message that matches the bare-amount pattern is written with the
    characters of [numeric_char] only, so no phrase of the router or of the
    loan dialogue occurs in it. *)

Section NumericTokens.

Lemma all_chars_cons (P : ascii -> bool) (c : ascii) (s : string) :
  all_chars P (String c s) = P c && all_chars P s.
Proof. reflexivity. Qed.

Lemma all_chars_app (P : ascii -> bool) (s1 s2 : string) :
  all_chars P (s1 ++ s2) = all_chars P s1 && all_chars P s2.
Proof.
  induction s1 as [|c s1 IH]; [reflexivity|].
  change (all_chars P (String c s1 ++ s2))
    with (P c && all_chars P (s1 ++ s2)).
  rewrite all_chars_cons, IH. apply andb_assoc.
Qed.

Lemma span_numch_spec (s : string) :
  s = fst (span_numch s) ++ snd (span_numch s) /\
  all_chars is_numch (fst (span_numch s)) = true.
Proof.
  induction s as [|c s [IH1 IH2]]; [split; reflexivity|].
  cbn [span_numch]. destruct (is_numch c) eqn:Ec.
  - destruct (span_numch s) as [run rest]. cbn [fst snd] in *.
    split.
    + change (String c run ++ rest) with (String c (run ++ rest)).
      f_equal. exact IH1.
    + rewrite all_chars_cons, Ec, IH2. reflexivity.
  - split; reflexivity.
Qed.

Lemma is_numch_numeric (c : ascii) : is_numch c = true -> numeric_char c = true.
Proof. intros H. unfold numeric_char. rewrite H. reflexivity. Qed.

Lemma is_digit_numeric (c : ascii) : is_digit c = true -> numeric_char c = true.
Proof.
  intros H. apply is_numch_numeric. unfold is_numch. rewrite H. reflexivity.
Qed.

Lemma all_chars_weaken (P R : ascii -> bool) (s : string) :
  (forall c, P c = true -> R c = true) ->
  all_chars P s = true -> all_chars R s = true.
Proof.
  intros HPR. induction s as [|c s IH]; [reflexivity|].
  rewrite !all_chars_cons. intros H. apply andb_prop in H.
  destruct H as [Hc Hs]. rewrite (HPR c Hc), (IH Hs). reflexivity.
Qed.

(** A bare amount is written with numeric characters only. *)
Lemma numerical_response_chars (s : string) :
  is_numerical_response s = true -> all_chars numeric_char s = true.
Proof.
  unfold is_numerical_response.
  set (s1 := match s with
             | String c r => if Ascii.eqb c "$"%char then r else s
             | EmptyString => s
             end).
  assert (Hs1 : all_chars numeric_char s1 = true ->
                all_chars numeric_char s = true).
  { unfold s1. destruct s as [|c r]; [trivial|].
    destruct (Ascii.eqb_spec c "$"%char) as [->|_]; [|trivial].
    intros H. rewrite all_chars_cons, H. reflexivity. }
  destruct (span_numch_spec s1) as [Happ Hrun].
  destruct (span_numch s1) as [run rest]. cbn [fst snd] in *.
  intros H. apply andb_prop in H. destruct H as [_ Hrest].
  apply Hs1. rewrite Happ, all_chars_app.
  rewrite (all_chars_weaken _ _ _ is_numch_numeric Hrun). cbn [andb].
  destruct rest as [|c [|d1 [|d2 [|? ?]]]]; try discriminate; [reflexivity|].
  apply andb_prop in Hrest. destruct Hrest as [Hrest Hd2].
  apply andb_prop in Hrest. destruct Hrest as [Hc Hd1].
  apply Ascii.eqb_eq in Hc. subst c.
  rewrite !all_chars_cons, (is_digit_numeric _ Hd1), (is_digit_numeric _ Hd2).
  reflexivity.
Qed.

Lemma numeric_char_lower (c : ascii) :
  numeric_char c = true -> lower_ascii c = c.
Proof.
  destruct c as [[] [] [] [] [] [] [] []]; intros H;
    try reflexivity; discriminate H.
Qed.

Lemma numeric_char_not_space (c : ascii) :
  numeric_char c = true -> is_space c = false.
Proof.
  destruct c as [[] [] [] [] [] [] [] []]; intros H;
    try reflexivity; discriminate H.
Qed.

Lemma numeric_lower (s : string) :
  all_chars numeric_char s = true -> lower s = s.
Proof.
  induction s as [|c s IH]; [reflexivity|].
  rewrite all_chars_cons. intros H. apply andb_prop in H.
  destruct H as [Hc Hs]. cbn [lower].
  rewrite (numeric_char_lower c Hc), (IH Hs). reflexivity.
Qed.

Lemma numeric_lstrip (s : string) :
  all_chars numeric_char s = true -> lstrip s = s.
Proof.
  destruct s as [|c s]; [reflexivity|].
  rewrite all_chars_cons. intros H. apply andb_prop in H.
  destruct H as [Hc _]. cbn [lstrip].
  rewrite (numeric_char_not_space c Hc). reflexivity.
Qed.

Lemma all_chars_rev (P : ascii -> bool) (s : string) :
  all_chars P (str_rev s) = all_chars P s.
Proof.
  unfold all_chars, str_rev. rewrite list_ascii_of_string_of_list_ascii.
  apply eq_true_iff_eq. rewrite !forallb_forall.
  split; intros H c Hc; apply H; [apply in_rev in Hc|apply in_rev];
    exact Hc.
Qed.

Lemma str_rev_involutive (s : string) : str_rev (str_rev s) = s.
Proof.
  unfold str_rev. rewrite list_ascii_of_string_of_list_ascii.
  rewrite rev_involutive. apply string_of_list_ascii_of_string.
Qed.

Lemma numeric_strip (s : string) :
  all_chars numeric_char s = true -> strip s = s.
Proof.
  intros H. unfold strip. rewrite (numeric_lstrip s H).
  rewrite numeric_lstrip by (rewrite all_chars_rev; exact H).
  apply str_rev_involutive.
Qed.

Lemma numeric_no_prefix (phrase s : string) :
  starts_outside phrase = true ->
  all_chars numeric_char s = true ->
  String.prefix phrase s = false.
Proof.
  destruct phrase as [|c p]; [discriminate|]. cbn [starts_outside].
  intros Hc. destruct s as [|d s]; [reflexivity|].
  rewrite all_chars_cons. intros H. apply andb_prop in H.
  destruct H as [Hd _]. cbn [String.prefix].
  destruct (ascii_dec c d) as [->|_]; [|reflexivity].
  rewrite Hd in Hc. discriminate Hc.
Qed.

Lemma numeric_no_phrase (phrase s : string) :
  starts_outside phrase = true ->
  all_chars numeric_char s = true ->
  str_in phrase s = false.
Proof.
  intros Hp. induction s as [|d s IH]; intros Hs.
  - cbn [str_in]. rewrite (numeric_no_prefix _ _ Hp Hs). reflexivity.
  - cbn [str_in]. rewrite (numeric_no_prefix _ _ Hp Hs).
    rewrite all_chars_cons in Hs. apply andb_prop in Hs.
    destruct Hs as [_ Hs]. exact (IH Hs).
Qed.

Lemma numeric_no_phrases (phrases : list string) (s : string) :
  forallb starts_outside phrases = true ->
  all_chars numeric_char s = true ->
  any_in phrases s = false.
Proof.
  intros Hps Hs. unfold any_in.
  induction phrases as [|p ps IH]; [reflexivity|].
  cbn [forallb] in Hps. apply andb_prop in Hps. destruct Hps as [Hp Hps].
  cbn [existsb]. rewrite (numeric_no_phrase p s Hp Hs), (IH Hps).
  reflexivity.
Qed.

End NumericTokens.

(** ** The loan dialogue *)

Section LoanDialogue.
Import DatabaseService MockBankingApi Agent.

Lemma find_none_all {A : Type} (f : A -> bool) (l : list A) :
  forallb (fun x => negb (f x)) l = true -> List.find f l = None.
Proof.
  induction l as [|x l IH]; [reflexivity|].
  cbn [forallb List.find]. intros H. apply andb_prop in H.
  destruct H as [Hx Hl]. apply negb_true_iff in Hx. rewrite Hx.
  exact (IH Hl).
Qed.

(** No purpose keyword and no income word occurs in a bare amount. *)
Lemma numeric_no_purpose (s : string) :
  all_chars numeric_char s = true ->
  List.find (fun kp : string * string => str_in (fst kp) s) purpose_keywords
  = None.
Proof.
  intros Hs. apply find_none_all. apply forallb_forall.
  intros kp Hin. apply negb_true_iff. apply numeric_no_phrase; [|exact Hs].
  assert (Hall : forallb (fun kp : string * string => starts_outside (fst kp))
                         purpose_keywords = true) by reflexivity.
  rewrite forallb_forall in Hall. exact (Hall kp Hin).
Qed.

Lemma numeric_no_income (s : string) :
  all_chars numeric_char s = true -> income_search s = None.
Proof.
  assert (Hhere : forall t, all_chars numeric_char t = true ->
                            income_here t = None).
  { intros t Ht. unfold income_here.
    rewrite find_none_all; [reflexivity|].
    apply forallb_forall. intros word Hin. apply negb_true_iff.
    apply numeric_no_prefix; [|exact Ht].
    assert (Hall : forallb starts_outside income_words = true)
      by reflexivity.
    rewrite forallb_forall in Hall. exact (Hall word Hin). }
  induction s as [|c s IH]; intros Hs.
  - reflexivity.
  - cbn [income_search]. rewrite (Hhere _ Hs).
    rewrite all_chars_cons in Hs. apply andb_prop in Hs.
    destruct Hs as [_ Hs]. exact (IH Hs).
Qed.

(** The values extracted from a bare amount while the amount is asked
    for: the amount, and nothing else. *)
Lemma extract_bare_amount (tok : string) (a : Q) :
  is_numerical_response tok = true ->
  bare_float tok = Ret a ->
  extract tok (JObj loan_at_amount) = Ret (Some a, None, None).
Proof.
  intros Hnum Hbare.
  pose proof (numerical_response_chars tok Hnum) as Hchars.
  unfold extract.
  rewrite (numeric_lower tok Hchars), (numeric_strip tok Hchars), Hnum.
  rewrite (numeric_no_purpose tok Hchars), (numeric_no_income tok Hchars).
  rewrite Hbare. reflexivity.
Qed.

Lemma current_slots_bare_amount (tok : string) (a : Q) :
  is_numerical_response tok = true ->
  bare_float tok = Ret a ->
  ~ (a == 0)%Q ->
  current_slots tok (JObj loan_at_amount) = Ret (JNum a, JNull, JNull).
Proof.
  intros Hnum Hbare Ha. unfold current_slots.
  rewrite (extract_bare_amount tok a Hnum Hbare). cbn [py_bind].
  unfold num_or at 1. cbn [some_num]. rewrite (nonzero_truthy a Ha).
  reflexivity.
Qed.

(** The answers of [apply_for_loan_data] to a call without any slot and to
    a call with the amount alone. *)
Lemma apply_without_slots (today : string) (d : db) (user_id : string)
    (u : user) :
  get_user d user_id = Some u ->
  exists r,
    apply_for_loan_data today d user_id None None None false = (d, r) /\
    status_ok r = true /\
    truthy (doc_get r "requires_continuation") = true /\
    process_record r false = JObj loan_at_amount.
Proof.
  intros Hu. unfold apply_for_loan_data. rewrite Hu.
  cbn [some_num some_text orb negb andb].
  destruct (List.filter (fun app => String.eqb (loan_status app) "approved")
                        (get_user_loans d user_id)) as [|approved rest].
  - eexists. split; [reflexivity|]. repeat split.
  - eexists. split; [reflexivity|]. repeat split.
Qed.

Lemma apply_with_amount (today : string) (d : db) (user_id : string)
    (u : user) (a : Q) :
  get_user d user_id = Some u ->
  ~ (a == 0)%Q ->
  exists r,
    apply_for_loan_data today d user_id (Some a) None None false = (d, r) /\
    status_ok r = true /\
    truthy (doc_get r "requires_continuation") = true /\
    process_record r false = JObj (loan_with_amount a).
Proof.
  intros Hu Ha. unfold apply_for_loan_data. rewrite Hu.
  cbn [some_num some_text orb negb andb default from_option id].
  rewrite (nonzero_truthy a Ha). cbn [orb negb andb].
  eexists. split; [reflexivity|]. repeat split.
Qed.

(** When none of the three early stages answers, the handler is its last
    stage. *)
Lemma handle_loan_plain (clk : clock) (w : world)
    (user_id session_id message : string) (loan_process : json)
    (st : gmap string json) (ps : list json) (sl : option json) :
  default ∅ (StateManager.get_state (sessions w) session_id) = st ->
  items (default (JArr []) (st !! "suspended_processes")) = Ret ps ->
  find_loan (rev ps) = Ret sl ->
  offer_resume w session_id (any_in resume_phrases (lower message))
               loan_process sl st = Ret (Next w st) ->
  resume_choice clk w user_id session_id (lower message) st
  = Ret (Next w st) ->
  new_request clk w user_id session_id (lower message) loan_process st
  = Ret (Next w st) ->
  _handle_loan_process clk w user_id session_id message loan_process
  = continue_loan clk w user_id session_id message loan_process.
Proof.
  intros Hst Hitems Hfind Hoffer Hchoice Hnew.
  unfold _handle_loan_process. rewrite Hst, Hitems. cbn [py_bind].
  rewrite Hfind. cbn [py_bind]. rewrite Hoffer. cbn [py_bind].
  rewrite Hchoice. cbn [py_bind]. rewrite Hnew. reflexivity.
Qed.

(** The last stage, when [apply_for_loan] asks for the next slot: the
    process record of the answer is merged into the stored document. *)
Lemma continue_loan_asks (clk : clock) (w : world)
    (user_id session_id message : string) (loan_process : json)
    (st : gmap string json) (aj pj ij : json)
    (oa : option Q) (op : option string) (oi : option Q) (r : result) :
  default ∅ (StateManager.get_state (sessions w) session_id) = st ->
  current_slots message loan_process = Ret (aj, pj, ij) ->
  as_float aj = Ret oa -> as_text pj = Ret op -> as_float ij = Ret oi ->
  apply_for_loan_data (today clk) (bank w) user_id oa op oi false
  = (bank w, r) ->
  status_ok r = true ->
  truthy (doc_get r "requires_continuation") = true ->
  continue_loan clk w user_id session_id message loan_process
  = Ret ({| sessions :=
              <[session_id :=
                  <["multi_step_process" := process_record r false]> st ∪ st]>
                (sessions w);
            bank := bank w |},
         LoanAnswer (status_of r)).
Proof.
  intros Hst Hslots Ha Hp Hi Happly Hok Hcont.
  unfold continue_loan. rewrite Hslots. cbn [py_bind].
  rewrite Ha, Hp, Hi. cbn [py_bind]. rewrite Happly, Hok, Hcont.
  unfold StateManager.update_state. rewrite Hst. reflexivity.
Qed.

End LoanDialogue.

(** ** A suspended loan application and the message "continue loan" *)

Section RoundTrip.
Import DatabaseService MockBankingApi Agent.

Variables (user_id session_id : string) (u : user).

(** The first turn: a message that goes to the loan handler and carries
    no slot starts the application, which asks for the amount. *)
Lemma turn_start_loan (clk : clock) (w : world) (message : string) :
  get_user (bank w) user_id = Some u ->
  StateManager.get_state (sessions w) session_id = None ->
  process_turn ∅ message = Ret LoanProcess ->
  current_slots message (JObj ∅) = Ret (JNull, JNull, JNull) ->
  exists w' r,
    turn clk w user_id session_id message = Ret (Some (w', r)) /\
    bank w' = bank w /\
    StateManager.get_state (sessions w') session_id = Some state_started.
Proof.
  intros Hu Hget Hroute Hslots.
  destruct (apply_without_slots (today clk) (bank w) user_id u Hu)
    as (r & Happly & Hok & Hcont & Hrec).
  unfold turn. rewrite Hget. cbn [default from_option id].
  rewrite Hroute. cbn [py_bind].
  change (doc_get_obj ∅ "multi_step_process") with (JObj ∅).
  rewrite (handle_loan_plain clk w user_id session_id _ _ ∅ [] None);
    [|rewrite Hget; reflexivity|reflexivity..|].
  - rewrite (continue_loan_asks clk w user_id session_id _ _ ∅
               JNull JNull JNull None None None r);
      [|rewrite Hget; reflexivity|exact Hslots|reflexivity..|exact Happly
       |exact Hok|exact Hcont].
    cbn [py_bind]. eexists _, _. split; [reflexivity|].
    split; [reflexivity|]. cbn [sessions].
    unfold StateManager.get_state. rewrite lookup_insert_eq, Hrec.
    reflexivity.
  - unfold new_request.
    destruct (any_in new_loan_phrases (lower message)); reflexivity.
Qed.

(** The second turn: a bare amount fills the amount slot and nothing else. *)
Lemma turn_give_amount (clk : clock) (w : world) (tok : string) (a : Q) :
  get_user (bank w) user_id = Some u ->
  StateManager.get_state (sessions w) session_id = Some state_started ->
  is_numerical_response tok = true ->
  bare_float tok = Ret a ->
  ~ (a == 0)%Q ->
  exists w' r,
    turn clk w user_id session_id tok = Ret (Some (w', r)) /\
    bank w' = bank w /\
    StateManager.get_state (sessions w') session_id = Some (state_amount a).
Proof.
  intros Hu Hget Hnum Hbare Ha.
  pose proof (numerical_response_chars tok Hnum) as Hchars.
  destruct (apply_with_amount (today clk) (bank w) user_id u a Hu Ha)
    as (r & Happly & Hok & Hcont & Hrec).
  assert (Hroute : process_turn state_started tok = Ret LoanProcess).
  { unfold process_turn. rewrite (numeric_lower tok Hchars).
    rewrite !(numeric_no_phrases _ tok) by (reflexivity || exact Hchars).
    reflexivity. }
  unfold turn. rewrite Hget. cbn [default from_option id].
  rewrite Hroute. cbn [py_bind].
  change (doc_get_obj state_started "multi_step_process")
    with (JObj loan_at_amount).
  rewrite (handle_loan_plain clk w user_id session_id _ _ state_started
             [] None);
    [|rewrite Hget; reflexivity|reflexivity..|].
  - rewrite (continue_loan_asks clk w user_id session_id _ _ state_started
               (JNum a) JNull JNull (Some a) None None r);
      [|rewrite Hget; reflexivity
       |exact (current_slots_bare_amount tok a Hnum Hbare Ha)
       |reflexivity..|exact Happly|exact Hok|exact Hcont].
    cbn [py_bind]. eexists _, _. split; [reflexivity|].
    split; [reflexivity|]. cbn [sessions].
    unfold StateManager.get_state. rewrite lookup_insert_eq, Hrec.
    reflexivity.
  - unfold new_request. rewrite (numeric_lower tok Hchars).
    rewrite (numeric_no_phrases _ tok) by (reflexivity || exact Hchars).
    reflexivity.
Qed.

(** The third turn: the balance handler snapshots the application and
    leaves it active. *)
Lemma turn_ask_balance (clk : clock) (w : world) (message : string)
    (a : Q) :
  get_user (bank w) user_id = Some u ->
  StateManager.get_state (sessions w) session_id = Some (state_amount a) ->
  process_turn (state_amount a) message = Ret BalanceQuery ->
  exists w',
    turn clk w user_id session_id message
    = Ret (Some (w', BalanceShown)) /\
    bank w' = bank w /\
    StateManager.get_state (sessions w') session_id
    = Some (state_suspended (now clk) a).
Proof.
  intros Hu Hget Hroute.
  unfold turn. rewrite Hget. cbn [default from_option id].
  rewrite Hroute. cbn [py_bind]. unfold _handle_balance_query.
  assert (Hsave :
            _save_current_process_on_context_switch clk (sessions w)
              session_id "balance"
            = Ret (<[session_id := state_suspended (now clk) a]> (sessions w))).
  { unfold _save_current_process_on_context_switch,
      StateManager.update_state.
    rewrite Hget. reflexivity. }
  rewrite Hsave. cbn [py_bind bank sessions].
  unfold get_account_balance_status. rewrite Hu.
  change (String.eqb "success" "success") with true. cbv iota.
  assert (Hnote : exists n,
             _get_context_switch_message
               (default ∅ (StateManager.get_state
                             (<[session_id := state_suspended (now clk) a]>
                                (sessions w)) session_id)) = Ret n).
  { unfold StateManager.get_state. rewrite lookup_insert_eq.
    eexists. vm_compute. reflexivity. }
  destruct Hnote as [n Hnote]. rewrite Hnote. cbn [py_bind].
  eexists. split; [reflexivity|]. split; [reflexivity|].
  unfold StateManager.get_state. apply lookup_insert_eq.
Qed.

(** The fourth turn: "continue loan" finds the application still active,
    asks [apply_for_loan] again with the collected amount, and stores the
    same record. *)
Lemma turn_continue_loan (clk : clock) (w : world) (timestamp : string)
    (a : Q) :
  get_user (bank w) user_id = Some u ->
  StateManager.get_state (sessions w) session_id
  = Some (state_suspended timestamp a) ->
  ~ (a == 0)%Q ->
  exists w' r,
    turn clk w user_id session_id "continue loan" = Ret (Some (w', r)) /\
    bank w' = bank w /\
    StateManager.get_state (sessions w') session_id
    = Some (state_suspended timestamp a).
Proof.
  intros Hu Hget Ha.
  destruct (apply_with_amount (today clk) (bank w) user_id u a Hu Ha)
    as (r & Happly & Hok & Hcont & Hrec).
  unfold turn. rewrite Hget. cbn [default from_option id].
  change (process_turn (state_suspended timestamp a) "continue loan")
    with (Ret LoanProcess).
  cbn [py_bind].
  change (doc_get_obj (state_suspended timestamp a) "multi_step_process")
    with (JObj (loan_with_amount a)).
  rewrite (handle_loan_plain clk w user_id session_id _ _
             (state_suspended timestamp a)
             [JObj (balance_snapshot timestamp a)]
             (Some (JObj (balance_snapshot timestamp a))));
    [|rewrite Hget; reflexivity|reflexivity..].
  rewrite (continue_loan_asks clk w user_id session_id _ _
             (state_suspended timestamp a)
             (JNum a) JNull JNull (Some a) None None r);
    [|rewrite Hget; reflexivity|reflexivity..|exact Happly|exact Hok
     |exact Hcont].
  cbn [py_bind]. eexists _, _. split; [reflexivity|].
  split; [reflexivity|]. cbn [sessions].
  unfold StateManager.get_state. rewrite lookup_insert_eq, Hrec.
  reflexivity.
Qed.

End RoundTrip.

(** C2. Suspension round-trip.  In a fresh session of a known user: a
    message that goes to the loan handler and names no amount, purpose or
    income starts the application; a bare amount [a] (not zero) fills the
    amount slot and nothing else; a message that goes to the balance
    handler suspends the application; the message "continue loan"
    follows.  The session state then has a [multi_step_process] whose
    [current_step] is [purpose] and whose [collected_data.amount] is the
    amount entered. *)
Theorem suspension_round_trip :
  forall (clk1 clk2 clk3 clk4 : Agent.clock) (w0 : Agent.world)
         (user_id session_id : string) (u : DatabaseService.user)
         (start tok balance : string) (a : Q),
    DatabaseService.get_user (Agent.bank w0) user_id = Some u ->
    StateManager.get_state (Agent.sessions w0) session_id = None ->
    Agent.process_turn ∅ start = Ret Agent.LoanProcess ->
    Agent.current_slots start (JObj ∅) = Ret (JNull, JNull, JNull) ->
    is_numerical_response tok = true ->
    Agent.bare_float tok = Ret a ->
    ~ (a == 0)%Q ->
    Agent.process_turn (state_amount a) balance = Ret Agent.BalanceQuery ->
    exists w1 w2 w3 w4 r1 r2 r4 st process collected,
      Agent.turn clk1 w0 user_id session_id start = Ret (Some (w1, r1)) /\
      Agent.turn clk2 w1 user_id session_id tok = Ret (Some (w2, r2)) /\
      StateManager.get_state (Agent.sessions w2) session_id
      = Some (state_amount a) /\
      Agent.turn clk3 w2 user_id session_id balance
      = Ret (Some (w3, Agent.BalanceShown)) /\
      StateManager.get_state (Agent.sessions w3) session_id
      = Some (state_suspended (Agent.now clk3) a) /\
      Agent.turn clk4 w3 user_id session_id "continue loan"
      = Ret (Some (w4, r4)) /\
      StateManager.get_state (Agent.sessions w4) session_id = Some st /\
      st !! "multi_step_process" = Some (JObj process) /\
      process !! "current_step" = Some (JStr "purpose") /\
      process !! "collected_data" = Some (JObj collected) /\
      collected !! "amount" = Some (JNum a).
Proof.
  intros clk1 clk2 clk3 clk4 w0 user_id session_id u start tok balance a
         Hu Hfresh Hstart Hnone Hnum Hbare Ha Hbalance.
  destruct (turn_start_loan user_id session_id u clk1 w0 start
              Hu Hfresh Hstart Hnone) as (w1 & r1 & Ht1 & Hb1 & Hs1).
  rewrite <- Hb1 in Hu.
  destruct (turn_give_amount user_id session_id u clk2 w1 tok a
              Hu Hs1 Hnum Hbare Ha) as (w2 & r2 & Ht2 & Hb2 & Hs2).
  rewrite <- Hb2 in Hu.
  destruct (turn_ask_balance user_id session_id u clk3 w2 balance a
              Hu Hs2 Hbalance) as (w3 & Ht3 & Hb3 & Hs3).
  rewrite <- Hb3 in Hu.
  destruct (turn_continue_loan user_id session_id u clk4 w3
              (Agent.now clk3) a Hu Hs3 Ha) as (w4 & r4 & Ht4 & Hb4 & Hs4).
  exists w1, w2, w3, w4, r1, r2, r4,
    (state_suspended (Agent.now clk3) a), (loan_with_amount a),
    {[ "amount" := JNum a ]}.
  repeat split; assumption || reflexivity.
Qed.

Lemma suspension_round_trip_witness :
  exists w1 w2 w3 w4 r1 r2 r4 st process collected,
    let w0 := {| Agent.sessions := ∅; Agent.bank := sample_db |} in
    Agent.turn sample_clock w0 "user123" "s1" "I want to apply for a loan"
    = Ret (Some (w1, r1)) /\
    Agent.turn sample_clock w1 "user123" "s1" "15000"
    = Ret (Some (w2, r2)) /\
    StateManager.get_state (Agent.sessions w2) "s1"
    = Some (state_amount 15000) /\
    Agent.turn sample_clock w2 "user123" "s1" "what is my balance"
    = Ret (Some (w3, Agent.BalanceShown)) /\
    StateManager.get_state (Agent.sessions w3) "s1"
    = Some (state_suspended (Agent.now sample_clock) 15000) /\
    Agent.turn sample_clock w3 "user123" "s1" "continue loan"
    = Ret (Some (w4, r4)) /\
    StateManager.get_state (Agent.sessions w4) "s1" = Some st /\
    st !! "multi_step_process" = Some (JObj process) /\
    process !! "current_step" = Some (JStr "purpose") /\
    process !! "collected_data" = Some (JObj collected) /\
    collected !! "amount" = Some (JNum 15000).
Proof.
  apply (suspension_round_trip sample_clock sample_clock sample_clock
           sample_clock
           {| Agent.sessions := ∅; Agent.bank := sample_db |}
           "user123" "s1" john_doe
           "I want to apply for a loan" "15000" "what is my balance" 15000).
  - reflexivity.
  - reflexivity.
  - reflexivity.
  - reflexivity.
  - reflexivity.
  - reflexivity.
  - intros E. discriminate E.
  - reflexivity.
Defined.

(** ** A bare number while the income is asked for *)

(** C5, the code at a failing input.  The application holds the amount
    20000 and asks for the income; the message is "15000".  The slots
    handed to [apply_for_loan] have 15000 as the income and also as the
    amount: the amount pattern of line 737 matches the same token and its
    value takes precedence over the collected one.  The application that
    the turn stores is for 15000. *)
Theorem bare_number_at_income_replaces_amount :
  Agent.current_slots "15000" (JObj loan_at_income)
  = Ret (JNum 15000, JStr "Auto Purchase", JNum 15000) /\
  exists w r,
    Agent.turn sample_clock
      {| Agent.sessions :=
           {[ "s1" := {[ "multi_step_process" := JObj loan_at_income ]} ]};
         Agent.bank := sample_db |}
      "user123" "s1" "15000" = Ret (Some (w, r)) /\
    option_map DatabaseService.amount
      (head (DatabaseService.loan_applications (Agent.bank w)))
    = Some 15000%Q /\
    option_map DatabaseService.annual_income
      (head (DatabaseService.loan_applications (Agent.bank w)))
    = Some (Some 15000%Q).
Proof.
  split; [reflexivity|].
  eexists _, _. split; [vm_compute; reflexivity|].
  split; reflexivity.
Qed.

(** * Further properties of the code *)

(** ** The session store *)

(** X1. [set_state] replaces and [clear_state] forgets: the document read
    back after [set_state] is the one given, nothing is read back after
    [clear_state], an update that follows [clear_state] stores exactly its
    own fields, and the other sessions are left alone by both. *)
Theorem set_and_clear_state_round_trip :
  forall (t : gmap string (gmap string json)) (session_id other : string)
         (state_data u : gmap string json),
    StateManager.get_state (StateManager.set_state t session_id state_data)
                           session_id = Some state_data /\
    StateManager.get_state (StateManager.clear_state t session_id)
                           session_id = None /\
    StateManager.update_state (StateManager.clear_state t session_id)
                              session_id u
    = (StateManager.set_state t session_id u, u) /\
    (other ≠ session_id ->
     StateManager.get_state (StateManager.set_state t session_id state_data)
                            other = StateManager.get_state t other /\
     StateManager.get_state (StateManager.clear_state t session_id) other
     = StateManager.get_state t other).
Proof.
  intros t session_id other state_data u.
  unfold StateManager.get_state, StateManager.set_state,
    StateManager.clear_state, StateManager.update_state.
  split; [apply lookup_insert_eq|].
  split; [apply lookup_delete_eq|].
  split.
  - unfold StateManager.get_state. rewrite lookup_delete_eq.
    cbn [default from_option id]. rewrite (right_id_L ∅ (∪)).
    rewrite insert_delete_eq. reflexivity.
  - intros Hne. split.
    + apply lookup_insert_ne. congruence.
    + apply lookup_delete_ne. congruence.
Qed.

Lemma set_and_clear_state_round_trip_witness :
  StateManager.get_state
    (StateManager.set_state ∅ "s1" {[ "key" := JStr "value" ]}) "s1"
  = Some {[ "key" := JStr "value" ]} /\
  StateManager.get_state (StateManager.clear_state ∅ "s1") "s1" = None /\
  StateManager.update_state (StateManager.clear_state ∅ "s1") "s1"
    {[ "key" := JStr "value" ]}
  = (StateManager.set_state ∅ "s1" {[ "key" := JStr "value" ]},
     {[ "key" := JStr "value" ]}) /\
  ("s2" ≠ "s1" ->
   StateManager.get_state
     (StateManager.set_state ∅ "s1" {[ "key" := JStr "value" ]}) "s2"
   = StateManager.get_state ∅ "s2" /\
   StateManager.get_state (StateManager.clear_state ∅ "s1") "s2"
   = StateManager.get_state ∅ "s2").
Proof.
  exact (set_and_clear_state_round_trip ∅ "s1" "s2"
           {[ "key" := JStr "value" ]} {[ "key" := JStr "value" ]}).
Defined.

(** X2. [update_state] cannot remove a field.  An update whose fields are
    all stored already with the same values changes nothing; so reading
    the document, deleting a key from it and writing it back with
    [update_state], as the handlers do to clear [pending_action] or
    [multi_step_process], leaves the stored document as it was, the key
    included. *)
Theorem update_state_never_removes :
  forall (t : gmap string (gmap string json)) (session_id : string)
         (st new : gmap string json) (k : string),
    StateManager.get_state t session_id = Some st ->
    (new ⊆ st -> StateManager.update_state t session_id new = (t, st)) /\
    StateManager.update_state t session_id (delete k st) = (t, st) /\
    (forall new' key, is_Some (st !! key) ->
       is_Some (snd (StateManager.update_state t session_id new') !! key)).
Proof.
  intros t session_id st new k Hst.
  assert (Hsub : forall m, m ⊆ st ->
                           StateManager.update_state t session_id m = (t, st)).
  { intros m Hm. unfold StateManager.update_state. rewrite Hst.
    cbn [default from_option id].
    rewrite (map_subseteq_union m st Hm).
    unfold StateManager.get_state in Hst.
    rewrite (insert_id t session_id st Hst). reflexivity. }
  split; [apply Hsub|]. split.
  - apply Hsub. apply delete_subseteq.
  - intros new' key [v Hv]. rewrite update_state_lookup, Hst.
    cbn [default from_option id]. rewrite Hv.
    destruct (new' !! key); eauto.
Qed.

Lemma update_state_never_removes_witness :
  let st : gmap string json :=
    {[ "pending_action" := JStr "menu"; "context_switched" := JBool true ]} in
  let t : gmap string (gmap string json) := {[ "s1" := st ]} in
  ((∅ : gmap string json) ⊆ st ->
   StateManager.update_state t "s1" ∅ = (t, st)) /\
  StateManager.update_state t "s1" (delete "pending_action" st) = (t, st) /\
  (forall new' key, is_Some (st !! key) ->
     is_Some (snd (StateManager.update_state t "s1" new') !! key)).
Proof.
  intros st t.
  apply (update_state_never_removes t "s1" st ∅ "pending_action").
  reflexivity.
Defined.

(** X3. Two updates in a row are one update with the union of their
    fields, the later update winning; an update applied twice is the
    update applied once. *)
Theorem update_state_composes :
  forall (t : gmap string (gmap string json)) (session_id : string)
         (u1 u2 : gmap string json),
    StateManager.update_state
      (fst (StateManager.update_state t session_id u1)) session_id u2
    = StateManager.update_state t session_id (u2 ∪ u1) /\
    StateManager.update_state
      (fst (StateManager.update_state t session_id u1)) session_id u1
    = StateManager.update_state t session_id u1.
Proof.
  intros t session_id u1 u2.
  assert (Hgen : forall a b,
             StateManager.update_state
               (fst (StateManager.update_state t session_id a)) session_id b
             = StateManager.update_state t session_id (b ∪ a)).
  { intros a b. unfold StateManager.update_state at 1.
    rewrite update_state_stored. cbn [default from_option id].
    unfold StateManager.update_state. cbn [fst snd].
    rewrite insert_insert_eq. rewrite (assoc_L (∪)). reflexivity. }
  split; [apply Hgen|].
  rewrite Hgen. rewrite (idemp_L (∪) u1)%stdpp. reflexivity.
Qed.

(** ** The tables behind the card and loan operations *)

(** X4. Blocking an own card that is not blocked succeeds: the stored card
    then has the status [blocked], the blocking date of the call and the
    reason "Customer request", and keeps its owner, limit and available
    credit; no other card, no user and no loan application changes.  A
    second request for the same card answers [warning] and writes
    nothing. *)
Theorem block_card_data_blocks_once :
  forall (now hhmm now' hhmm' : string) (d : DatabaseService.db)
         (user_id card_id : string) (c : DatabaseService.card),
    DatabaseService.get_card d card_id = Some c ->
    DatabaseService.card_user_id c = user_id ->
    DatabaseService.card_status c ≠ "blocked" ->
    let r := MockBankingApi.block_card_data now hhmm d user_id card_id in
    let r' := MockBankingApi.block_card_data now' hhmm' (fst r)
                user_id card_id in
    MockBankingApi.status_of (snd r) = JStr "success" /\
    (exists c',
        DatabaseService.get_card (fst r) card_id = Some c' /\
        DatabaseService.card_status c' = "blocked" /\
        DatabaseService.blocked_date c' = Some now /\
        DatabaseService.blocked_reason c' = Some "Customer request" /\
        DatabaseService.card_user_id c' = user_id /\
        DatabaseService.limit_amount c' = DatabaseService.limit_amount c /\
        DatabaseService.available_credit c'
        = DatabaseService.available_credit c) /\
    (forall other, other ≠ card_id ->
        DatabaseService.get_card (fst r) other
        = DatabaseService.get_card d other) /\
    DatabaseService.users (fst r) = DatabaseService.users d /\
    DatabaseService.loan_applications (fst r)
    = DatabaseService.loan_applications d /\
    fst r' = fst r /\
    MockBankingApi.status_of (snd r') = JStr "warning".
Proof.
  intros now hhmm now' hhmm' d user_id card_id c Hc Hu Hs r r'.
  assert (Hrun : exists c' res,
             MockBankingApi.block_card_data now hhmm d user_id card_id
             = (DatabaseService.with_cards d
                  (<[card_id := c']> (DatabaseService.cards d)), res) /\
             MockBankingApi.status_of res = JStr "success" /\
             DatabaseService.card_status c' = "blocked" /\
             DatabaseService.blocked_date c' = Some now /\
             DatabaseService.blocked_reason c' = Some "Customer request" /\
             DatabaseService.card_user_id c' = user_id /\
             DatabaseService.limit_amount c' = DatabaseService.limit_amount c /\
             DatabaseService.available_credit c'
             = DatabaseService.available_credit c).
  { unfold MockBankingApi.block_card_data. rewrite Hc, Hu, String.eqb_refl.
    cbn [negb].
    destruct (String.eqb_spec (DatabaseService.card_status c) "blocked")
      as [E|_]; [contradiction|].
    unfold DatabaseService.block_card.
    unfold DatabaseService.get_card in Hc. rewrite Hc.
    unfold DatabaseService.get_card, DatabaseService.with_cards.
    cbn [DatabaseService.cards]. rewrite lookup_insert_eq.
    eexists _, _. split; [reflexivity|].
    repeat split; try reflexivity. exact Hu. }
  destruct Hrun as (c' & res & Hrun & Hres & Hst & Hbd & Hbr & Hcu & Hl & Ha).
  assert (Hc' : DatabaseService.get_card (fst r) card_id = Some c').
  { unfold r. rewrite Hrun. cbn [fst].
    unfold DatabaseService.get_card, DatabaseService.with_cards.
    cbn [DatabaseService.cards]. apply lookup_insert_eq. }
  split; [unfold r; rewrite Hrun; exact Hres|].
  split; [exists c'; repeat split; assumption|].
  split.
  { intros other Hne. unfold r. rewrite Hrun. cbn [fst].
    unfold DatabaseService.get_card, DatabaseService.with_cards.
    cbn [DatabaseService.cards]. apply lookup_insert_ne. congruence. }
  split; [unfold r; rewrite Hrun; reflexivity|].
  split; [unfold r; rewrite Hrun; reflexivity|].
  exact (block_card_data_already_blocked now' hhmm' (fst r) user_id card_id
           c' Hc' Hcu Hst).
Qed.

Lemma block_card_data_blocks_once_witness :
  let r := MockBankingApi.block_card_data "2025-07-28 10:00:00" "1000"
             sample_db "user123" "card_001" in
  let r' := MockBankingApi.block_card_data "2025-07-28 10:05:00" "1005"
              (fst r) "user123" "card_001" in
  MockBankingApi.status_of (snd r) = JStr "success" /\
  (exists c',
      DatabaseService.get_card (fst r) "card_001" = Some c' /\
      DatabaseService.card_status c' = "blocked" /\
      DatabaseService.blocked_date c' = Some "2025-07-28 10:00:00" /\
      DatabaseService.blocked_reason c' = Some "Customer request" /\
      DatabaseService.card_user_id c' = "user123" /\
      DatabaseService.limit_amount c' = DatabaseService.limit_amount card_001 /\
      DatabaseService.available_credit c'
      = DatabaseService.available_credit card_001) /\
  (forall other, other ≠ "card_001" ->
      DatabaseService.get_card (fst r) other
      = DatabaseService.get_card sample_db other) /\
  DatabaseService.users (fst r) = DatabaseService.users sample_db /\
  DatabaseService.loan_applications (fst r)
  = DatabaseService.loan_applications sample_db /\
  fst r' = fst r /\
  MockBankingApi.status_of (snd r') = JStr "warning".
Proof.
  apply (block_card_data_blocks_once "2025-07-28 10:00:00" "1000"
           "2025-07-28 10:05:00" "1005" sample_db "user123" "card_001"
           card_001); [reflexivity | reflexivity | discriminate].
Defined.

(** A limit that is no number, or zero. *)
Lemma falsy_limit_zero (x : Q) :
  MockBankingApi.some_num (Some x) = false -> Qeq_bool x 0 = true.
Proof.
  unfold MockBankingApi.some_num. intros H.
  apply negb_false_iff in H. apply Z.eqb_eq in H.
  apply Qeq_eq_bool. unfold Qeq. simpl. rewrite H. reflexivity.
Qed.

(** Whatever does not end in [success] has written nothing. *)
Lemma modify_credit_limit_data_failure (now : string)
    (d : DatabaseService.db) (user_id card_id : string) (new_limit : Q) :
  MockBankingApi.status_of
    (snd (MockBankingApi.modify_credit_limit_data now d user_id card_id
            new_limit)) ≠ JStr "success" ->
  fst (MockBankingApi.modify_credit_limit_data now d user_id card_id
         new_limit) = d.
Proof.
  unfold MockBankingApi.modify_credit_limit_data.
  destruct (DatabaseService.get_card d card_id) as [c|] eqn:Hc;
    [|reflexivity].
  destruct (negb (String.eqb (DatabaseService.card_user_id c) user_id));
    [reflexivity|].
  destruct (negb (String.eqb (DatabaseService.card_type c) "credit"));
    [reflexivity|].
  destruct (Qlt_le_dec new_limit 1000); [reflexivity|].
  destruct (Qlt_le_dec 100000 new_limit); [reflexivity|].
  destruct (DatabaseService.limit_amount c) as [L|]; [|reflexivity].
  destruct (Qeq_bool L 0); [reflexivity|].
  unfold DatabaseService.update_card_limit.
  unfold DatabaseService.get_card in Hc. rewrite Hc.
  intros H. exfalso. apply H. reflexivity.
Qed.

(** X5. A limit change is refused with the status [error], and nothing is
    written, when no card is stored under the id, when the card belongs
    to another user, when it is not a credit card, or when its stored
    limit is [NULL] or zero; this holds whatever the requested limit. *)
Theorem modify_credit_limit_data_guards :
  forall (now : string) (d : DatabaseService.db) (user_id card_id : string)
         (new_limit : Q),
    match DatabaseService.get_card d card_id with
    | None => True
    | Some c =>
        DatabaseService.card_user_id c ≠ user_id \/
        DatabaseService.card_type c ≠ "credit" \/
        MockBankingApi.some_num (DatabaseService.limit_amount c) = false
    end ->
    let r := MockBankingApi.modify_credit_limit_data now d user_id card_id
               new_limit in
    fst r = d /\ MockBankingApi.status_of (snd r) = JStr "error".
Proof.
  intros now d user_id card_id new_limit Hguard r.
  assert (Hs : MockBankingApi.status_of (snd r) = JStr "error").
  { unfold r, MockBankingApi.modify_credit_limit_data.
    destruct (DatabaseService.get_card d card_id) as [c|]; [|reflexivity].
    destruct (String.eqb_spec (DatabaseService.card_user_id c) user_id)
      as [Hu|Hu]; [|reflexivity].
    destruct (String.eqb_spec (DatabaseService.card_type c) "credit")
      as [Ht|Ht]; [|reflexivity].
    cbn [negb].
    destruct (Qlt_le_dec new_limit 1000); [reflexivity|].
    destruct (Qlt_le_dec 100000 new_limit); [reflexivity|].
    destruct Hguard as [H|[H|H]]; [contradiction | contradiction |].
    destruct (DatabaseService.limit_amount c) as [L|]; [|reflexivity].
    rewrite (falsy_limit_zero L H). reflexivity. }
  split; [|exact Hs].
  apply modify_credit_limit_data_failure. fold r. rewrite Hs. discriminate.
Qed.

Lemma modify_credit_limit_data_guards_witness :
  let r := MockBankingApi.modify_credit_limit_data "2025-07-28 10:00:00"
             sample_db "mallory" "card_001" 20000 in
  fst r = sample_db /\ MockBankingApi.status_of (snd r) = JStr "error".
Proof.
  apply (modify_credit_limit_data_guards "2025-07-28 10:00:00" sample_db
           "mallory" "card_001" 20000).
  left. vm_compute. discriminate.
Defined.

(** X6. A successful limit change touches the limit, the available credit
    and the time of the last update of the one card, and nothing else: for
    an own credit card whose limit is not zero and a new limit [N] within
    the bounds, the stored card has the limit [N] and every other field
    (owner, type, number, status, brand, expiry, fee, daily limit, blocking
    date and reason) as before; every other card, the users and the loan
    applications are unchanged; the result reports the old limit, the new
    limit, their distance and the direction of the change. *)
Theorem modify_credit_limit_data_frame :
  forall (now : string) (d : DatabaseService.db) (user_id card_id : string)
         (c : DatabaseService.card) (L N : Q),
    DatabaseService.get_card d card_id = Some c ->
    DatabaseService.card_user_id c = user_id ->
    DatabaseService.card_type c = "credit" ->
    DatabaseService.limit_amount c = Some L ->
    ~ (L == 0)%Q ->
    (1000 <= N)%Q -> (N <= 100000)%Q ->
    let r := MockBankingApi.modify_credit_limit_data now d user_id card_id N in
    (exists c',
        DatabaseService.get_card (fst r) card_id = Some c' /\
        DatabaseService.limit_amount c' = Some N /\
        DatabaseService.card_updated_at c' = now /\
        DatabaseService.card_user_id c' = DatabaseService.card_user_id c /\
        DatabaseService.card_type c' = DatabaseService.card_type c /\
        DatabaseService.card_number c' = DatabaseService.card_number c /\
        DatabaseService.last_four c' = DatabaseService.last_four c /\
        DatabaseService.card_status c' = DatabaseService.card_status c /\
        DatabaseService.brand c' = DatabaseService.brand c /\
        DatabaseService.expiry c' = DatabaseService.expiry c /\
        DatabaseService.annual_fee c' = DatabaseService.annual_fee c /\
        DatabaseService.daily_limit c' = DatabaseService.daily_limit c /\
        DatabaseService.blocked_date c' = DatabaseService.blocked_date c /\
        DatabaseService.blocked_reason c'
        = DatabaseService.blocked_reason c) /\
    (forall other, other ≠ card_id ->
        DatabaseService.get_card (fst r) other
        = DatabaseService.get_card d other) /\
    DatabaseService.users (fst r) = DatabaseService.users d /\
    DatabaseService.loan_applications (fst r)
    = DatabaseService.loan_applications d /\
    doc_get (snd r) "limit_change"
    = JObj {[ "old_limit" := JNum L;
              "new_limit" := JNum N;
              "change_amount" := JNum (Qabs (fsub N L));
              "change_type" :=
                JStr (if Qlt_le_dec L N then "increased" else "decreased") ]}.
Proof.
  intros now d user_id card_id c L N Hc Hu Ht HL HL0 Hlo Hhi r.
  assert (HLz : Qeq_bool L 0 = false).
  { destruct (Qeq_bool L 0) eqn:E; [|reflexivity].
    apply Qeq_bool_eq in E. contradiction. }
  unfold r, MockBankingApi.modify_credit_limit_data.
  rewrite Hc, Hu, Ht, HL, !String.eqb_refl. cbn [negb].
  destruct (Qlt_le_dec N 1000) as [Hlow|_];
    [exfalso; exact (Qlt_irrefl N (Qlt_le_trans _ _ _ Hlow Hlo))|].
  destruct (Qlt_le_dec 100000 N) as [Hhigh|_];
    [exfalso; exact (Qlt_irrefl N (Qle_lt_trans _ _ _ Hhi Hhigh))|].
  rewrite HLz.
  unfold DatabaseService.update_card_limit.
  unfold DatabaseService.get_card in Hc. rewrite Hc.
  cbn [fst snd].
  unfold DatabaseService.get_card, DatabaseService.with_cards.
  cbn [DatabaseService.cards DatabaseService.users
       DatabaseService.loan_applications].
  split; [|split; [|split; [reflexivity|split; reflexivity]]].
  - eexists. rewrite lookup_insert_eq. split; [reflexivity|].
    cbn. repeat split; assumption.
  - intros other Hne. apply lookup_insert_ne. congruence.
Qed.

Lemma modify_credit_limit_data_frame_witness :
  let r := MockBankingApi.modify_credit_limit_data "2025-07-28 10:00:00"
             sample_db "user123" "card_001" 20000 in
  (exists c',
      DatabaseService.get_card (fst r) "card_001" = Some c' /\
      DatabaseService.limit_amount c' = Some 20000%Q /\
      DatabaseService.card_updated_at c' = "2025-07-28 10:00:00" /\
      DatabaseService.card_user_id c'
      = DatabaseService.card_user_id card_001 /\
      DatabaseService.card_type c' = DatabaseService.card_type card_001 /\
      DatabaseService.card_number c'
      = DatabaseService.card_number card_001 /\
      DatabaseService.last_four c' = DatabaseService.last_four card_001 /\
      DatabaseService.card_status c'
      = DatabaseService.card_status card_001 /\
      DatabaseService.brand c' = DatabaseService.brand card_001 /\
      DatabaseService.expiry c' = DatabaseService.expiry card_001 /\
      DatabaseService.annual_fee c' = DatabaseService.annual_fee card_001 /\
      DatabaseService.daily_limit c'
      = DatabaseService.daily_limit card_001 /\
      DatabaseService.blocked_date c'
      = DatabaseService.blocked_date card_001 /\
      DatabaseService.blocked_reason c'
      = DatabaseService.blocked_reason card_001) /\
  (forall other, other ≠ "card_001" ->
      DatabaseService.get_card (fst r) other
      = DatabaseService.get_card sample_db other) /\
  DatabaseService.users (fst r) = DatabaseService.users sample_db /\
  DatabaseService.loan_applications (fst r)
  = DatabaseService.loan_applications sample_db /\
  doc_get (snd r) "limit_change"
  = JObj {[ "old_limit" := JNum 15000;
            "new_limit" := JNum 20000;
            "change_amount" := JNum (Qabs (fsub 20000 15000));
            "change_type" :=
              JStr (if Qlt_le_dec 15000 20000
                    then "increased" else "decreased") ]}.
Proof.
  apply (modify_credit_limit_data_frame "2025-07-28 10:00:00"
           sample_db "user123" "card_001" card_001 15000 20000);
    first [reflexivity | discriminate | unfold Qle; simpl; lia].
Defined.

(** X7. The two steps of the limit dialogue agree: whenever
    [get_current_limit_info] asks for the new limit of a card, a change of
    that card to a limit between 1000 and 100000 succeeds and stores the
    limit on the user's credit card. *)
Theorem limit_info_then_modify_succeeds :
  forall (now : string) (d : DatabaseService.db) (user_id card_id : string)
         (new_limit : Q),
    truthy (doc_get (MockBankingApi.get_current_limit_info d user_id card_id)
                    "requires_continuation") = true ->
    (1000 <= new_limit)%Q -> (new_limit <= 100000)%Q ->
    let r := MockBankingApi.modify_credit_limit_data now d user_id card_id
               new_limit in
    MockBankingApi.status_of (snd r) = JStr "success" /\
    exists c,
      DatabaseService.get_card (fst r) card_id = Some c /\
      DatabaseService.limit_amount c = Some new_limit /\
      DatabaseService.card_user_id c = user_id /\
      DatabaseService.card_type c = "credit".
Proof.
  intros now d user_id card_id new_limit Hinfo Hlo Hhi r. revert Hinfo.
  unfold r, MockBankingApi.get_current_limit_info,
    MockBankingApi.modify_credit_limit_data.
  destruct (DatabaseService.get_card d card_id) as [c|] eqn:Hc;
    [|discriminate].
  destruct (String.eqb_spec (DatabaseService.card_user_id c) user_id)
    as [Hu|Hu]; [|discriminate].
  destruct (String.eqb_spec (DatabaseService.card_type c) "credit")
    as [Ht|Ht]; [|discriminate].
  cbn [negb].
  destruct (DatabaseService.limit_amount c) as [L|]; [|discriminate].
  destruct (Qeq_bool L 0); [discriminate|]. intros _.
  destruct (Qlt_le_dec new_limit 1000) as [Hlow|_];
    [exfalso; exact (Qlt_irrefl _ (Qlt_le_trans _ _ _ Hlow Hlo))|].
  destruct (Qlt_le_dec 100000 new_limit) as [Hhigh|_];
    [exfalso; exact (Qlt_irrefl _ (Qle_lt_trans _ _ _ Hhi Hhigh))|].
  unfold DatabaseService.update_card_limit.
  unfold DatabaseService.get_card in Hc. rewrite Hc.
  split; [reflexivity|]. cbn [fst].
  unfold DatabaseService.get_card, DatabaseService.with_cards.
  cbn [DatabaseService.cards]. rewrite lookup_insert_eq.
  eexists. split; [reflexivity|]. repeat split; assumption.
Qed.

Lemma limit_info_then_modify_succeeds_witness :
  let r := MockBankingApi.modify_credit_limit_data "2025-07-28 10:00:00"
             sample_db "user123" "card_001" 20000 in
  MockBankingApi.status_of (snd r) = JStr "success" /\
  exists c,
    DatabaseService.get_card (fst r) "card_001" = Some c /\
    DatabaseService.limit_amount c = Some 20000%Q /\
    DatabaseService.card_user_id c = "user123" /\
    DatabaseService.card_type c = "credit".
Proof.
  apply (limit_info_then_modify_succeeds "2025-07-28 10:00:00" sample_db
           "user123" "card_001" 20000);
    [reflexivity | unfold Qle; simpl; lia | unfold Qle; simpl; lia].
Defined.

(** The loans of a user after a row is put in front. *)
Lemma get_user_loans_cons (d : DatabaseService.db) (row : DatabaseService.loan)
    (user_id : string) :
  DatabaseService.get_user_loans
    {| DatabaseService.users := DatabaseService.users d;
       DatabaseService.cards := DatabaseService.cards d;
       DatabaseService.loan_applications :=
         row :: DatabaseService.loan_applications d |} user_id
  = if String.eqb (DatabaseService.loan_user_id row) user_id
    then row :: DatabaseService.get_user_loans d user_id
    else DatabaseService.get_user_loans d user_id.
Proof. reflexivity. Qed.

(** X8. An application with the three slots given, for a known user whose
    next application id is free, is stored: the loans of the user are, up
    to their order, the earlier ones and one new row, which carries the
    next id of the user, the amount, purpose and income as given, the
    status [in_review] and the date of the call; the loans of the other
    users, the users and the cards are as before.  No bound is put on the
    amount. *)
Theorem accepted_application_is_stored :
  forall (today : string) (d : DatabaseService.db) (user_id : string)
         (u : DatabaseService.user) (amount : Q) (purpose : string)
         (income : Q),
    DatabaseService.get_user d user_id = Some u ->
    ~ (amount == 0)%Q ->
    purpose ≠ "" ->
    (0 < income)%Q ->
    ~ In (MockBankingApi.loan_id
            (length (DatabaseService.get_user_loans d user_id) + 1))
         (List.map DatabaseService.application_id
                   (DatabaseService.loan_applications d)) ->
    let r := MockBankingApi.apply_for_loan_data today d user_id
               (Some amount) (Some purpose) (Some income) false in
    (exists row,
        DatabaseService.get_user_loans (fst r) user_id
        ≡ₚ row :: DatabaseService.get_user_loans d user_id /\
        DatabaseService.application_id row
        = MockBankingApi.loan_id
            (length (DatabaseService.get_user_loans d user_id) + 1) /\
        DatabaseService.amount row = amount /\
        DatabaseService.purpose row = Some purpose /\
        DatabaseService.annual_income row = Some income /\
        DatabaseService.loan_status row = "in_review" /\
        DatabaseService.created_date row = Some today) /\
    (forall other, other ≠ user_id ->
        DatabaseService.get_user_loans (fst r) other
        = DatabaseService.get_user_loans d other) /\
    DatabaseService.users (fst r) = DatabaseService.users d /\
    DatabaseService.cards (fst r) = DatabaseService.cards d.
Proof.
  intros today d user_id u amount purpose income Hu Ha Hp Hi Hfresh r.
  assert (Hincome : negb (Qnum income =? 0)%Z = true).
  { apply negb_true_iff. apply Z.eqb_neq. intros E.
    unfold Qlt in Hi. simpl in Hi. lia. }
  assert (Hpurpose : negb (String.eqb purpose "") = true).
  { apply negb_true_iff. apply String.eqb_neq. exact Hp. }
  unfold r, MockBankingApi.apply_for_loan_data. rewrite Hu.
  cbn [MockBankingApi.some_num MockBankingApi.some_text orb negb andb
       default from_option id].
  rewrite (nonzero_truthy amount Ha), Hpurpose, Hincome.
  cbn [orb negb andb].
  unfold DatabaseService.add_loan_application.
  cbn [DatabaseService.application_id].
  rewrite (id_not_stored d _ Hfresh). cbn [fst].
  split; [|split; [|split; reflexivity]].
  - eexists. rewrite get_user_loans_cons.
    cbn [DatabaseService.loan_user_id]. rewrite String.eqb_refl.
    split; [reflexivity|]. repeat split.
  - intros other Hne. rewrite get_user_loans_cons.
    cbn [DatabaseService.loan_user_id].
    destruct (String.eqb_spec user_id other) as [E|_];
      [congruence | reflexivity].
Qed.

Lemma accepted_application_is_stored_witness :
  let r := MockBankingApi.apply_for_loan_data "2025-07-28" sample_db
             "user123" (Some 750000%Q) (Some "Auto Purchase") (Some 60000%Q)
             false in
  (exists row,
      DatabaseService.get_user_loans (fst r) "user123"
      ≡ₚ row :: DatabaseService.get_user_loans sample_db "user123" /\
      DatabaseService.application_id row
      = MockBankingApi.loan_id
          (length (DatabaseService.get_user_loans sample_db "user123") + 1) /\
      DatabaseService.amount row = 750000%Q /\
      DatabaseService.purpose row = Some "Auto Purchase" /\
      DatabaseService.annual_income row = Some 60000%Q /\
      DatabaseService.loan_status row = "in_review" /\
      DatabaseService.created_date row = Some "2025-07-28") /\
  (forall other, other ≠ "user123" ->
      DatabaseService.get_user_loans (fst r) other
      = DatabaseService.get_user_loans sample_db other) /\
  DatabaseService.users (fst r) = DatabaseService.users sample_db /\
  DatabaseService.cards (fst r) = DatabaseService.cards sample_db.
Proof.
  apply (accepted_application_is_stored "2025-07-28" sample_db "user123"
           john_doe 750000 "Auto Purchase" 60000).
  - reflexivity.
  - intros E. discriminate E.
  - discriminate.
  - reflexivity.
  - vm_compute. intros [E|[]]. discriminate E.
Defined.

(** X9. The application id is numbered by the loans of the user alone,
    while it is the key of the table of all users: when that id is
    already in the table the application is answered with the status
    [error] and nothing is stored. *)
Theorem taken_application_id_is_rejected :
  forall (today : string) (d : DatabaseService.db) (user_id : string)
         (u : DatabaseService.user) (amount : Q) (purpose : string)
         (income : Q),
    DatabaseService.get_user d user_id = Some u ->
    ~ (amount == 0)%Q ->
    purpose ≠ "" ->
    (0 < income)%Q ->
    In (MockBankingApi.loan_id
          (length (DatabaseService.get_user_loans d user_id) + 1))
       (List.map DatabaseService.application_id
                 (DatabaseService.loan_applications d)) ->
    MockBankingApi.apply_for_loan_data today d user_id
      (Some amount) (Some purpose) (Some income) false
    = (d, MockBankingApi.database_error).
Proof.
  intros today d user_id u amount purpose income Hu Ha Hp Hi Htaken.
  assert (Hincome : negb (Qnum income =? 0)%Z = true).
  { apply negb_true_iff. apply Z.eqb_neq. intros E.
    unfold Qlt in Hi. simpl in Hi. lia. }
  assert (Hpurpose : negb (String.eqb purpose "") = true).
  { apply negb_true_iff. apply String.eqb_neq. exact Hp. }
  unfold MockBankingApi.apply_for_loan_data. rewrite Hu.
  cbn [MockBankingApi.some_num MockBankingApi.some_text orb negb andb
       default from_option id].
  rewrite (nonzero_truthy amount Ha), Hpurpose, Hincome.
  cbn [orb negb andb].
  unfold DatabaseService.add_loan_application.
  cbn [DatabaseService.application_id].
  match goal with
  | |- context [existsb ?f ?l] =>
      assert (E : existsb f l = true)
  end.
  { apply existsb_exists. apply in_map_iff in Htaken.
    destruct Htaken as (l & Hid & Hin). exists l.
    split; [exact Hin | apply String.eqb_eq; exact Hid]. }
  rewrite E. reflexivity.
Qed.

Lemma taken_application_id_is_rejected_witness :
  MockBankingApi.apply_for_loan_data "2025-07-28" two_customers_db "user456"
    (Some 5000%Q) (Some "Education") (Some 40000%Q) false
  = (two_customers_db, MockBankingApi.database_error).
Proof.
  apply (taken_application_id_is_rejected "2025-07-28" two_customers_db
           "user456" jane_roe 5000 "Education" 40000).
  - reflexivity.
  - intros E. discriminate E.
  - discriminate.
  - reflexivity.
  - vm_compute. left. reflexivity.
Defined.

(** X10. The questions come in a fixed order and a slot given ahead of
    its turn is dropped: when some slot is given and some is missing, the
    answer asks for the first missing one of amount, purpose, income, and
    its [collected_data] holds the slots before that one and no other;
    nothing is written. *)
Theorem apply_for_loan_data_question_order :
  forall (today : string) (d : DatabaseService.db) (user_id : string)
         (u : DatabaseService.user) (amount : option Q)
         (purpose : option string) (income : option Q),
    DatabaseService.get_user d user_id = Some u ->
    MockBankingApi.some_num amount || MockBankingApi.some_text purpose
      || MockBankingApi.some_num income = true ->
    MockBankingApi.some_num amount && MockBankingApi.some_text purpose
      && MockBankingApi.some_num income = false ->
    let r := MockBankingApi.apply_for_loan_data today d user_id
               amount purpose income false in
    fst r = d /\
    MockBankingApi.status_of (snd r) = JStr "info" /\
    doc_get (snd r) "current_step"
    = JStr (if MockBankingApi.some_num amount
            then if MockBankingApi.some_text purpose
                 then "income" else "purpose"
            else "amount") /\
    doc_get (snd r) "collected_data"
    = JObj (if MockBankingApi.some_num amount
            then if MockBankingApi.some_text purpose
                 then {[ "amount" := MockBankingApi.opt_num amount;
                         "purpose" := MockBankingApi.opt_text purpose ]}
                 else {[ "amount" := MockBankingApi.opt_num amount ]}
            else ∅).
Proof.
  intros today d user_id u amount purpose income Hu Hsome Hmissing r.
  unfold r, MockBankingApi.apply_for_loan_data. rewrite Hu.
  rewrite Hsome. cbn [orb negb andb].
  destruct (MockBankingApi.some_num amount) eqn:Ea; cbn [negb].
  - destruct (MockBankingApi.some_text purpose) eqn:Ep; cbn [negb].
    + destruct (MockBankingApi.some_num income) eqn:Ei;
        [discriminate Hmissing|]. cbn [negb fst snd].
      destruct amount as [a|]; [|discriminate Ea].
      destruct purpose as [p|]; [|discriminate Ep].
      repeat split.
    + cbn [fst snd]. destruct amount as [a|]; [|discriminate Ea].
      repeat split.
  - repeat split.
Qed.

Lemma apply_for_loan_data_question_order_witness :
  let r := MockBankingApi.apply_for_loan_data "2025-07-28" sample_db
             "user123" None (Some "Auto Purchase") (Some 60000%Q) false in
  fst r = sample_db /\
  MockBankingApi.status_of (snd r) = JStr "info" /\
  doc_get (snd r) "current_step" = JStr "amount" /\
  doc_get (snd r) "collected_data" = JObj ∅.
Proof.
  apply (apply_for_loan_data_question_order "2025-07-28" sample_db "user123"
           john_doe None (Some "Auto Purchase") (Some 60000%Q));
    reflexivity.
Defined.

(** The rows of a user are the stored cards of that user. *)
Lemma get_user_cards_rows (d : DatabaseService.db) (user_id card_id : string)
    (c : DatabaseService.card) :
  In (card_id, c) (DatabaseService.get_user_cards d user_id) <->
  DatabaseService.get_card d card_id = Some c /\
  DatabaseService.card_user_id c = user_id.
Proof.
  unfold DatabaseService.get_user_cards, DatabaseService.get_card.
  rewrite filter_In. cbn [snd].
  rewrite <- list_elem_of_In, elem_of_map_to_list, String.eqb_eq.
  reflexivity.
Qed.

Lemma filter_fst_NoDup {A B : Type} (f : A * B -> bool) (l : list (A * B)) :
  NoDup (List.map fst l) -> NoDup (List.map fst (List.filter f l)).
Proof.
  induction l as [|x l IH]; [intros H; exact H|].
  cbn [List.map List.filter]. intros H.
  apply NoDup_cons in H. destruct H as [Hx Hl].
  destruct (f x); [|exact (IH Hl)].
  cbn [List.map]. apply NoDup_cons. split; [|exact (IH Hl)].
  intros Hin. apply Hx.
  apply list_elem_of_In in Hin. apply list_elem_of_In.
  apply in_map_iff in Hin. destruct Hin as (y & Hy & Hin).
  apply filter_In in Hin. apply in_map_iff. exists y. tauto.
Qed.

Lemma formatted_card_id (card_id : string) (c : DatabaseService.card) :
  doc_get (MockBankingApi.formatted_card card_id c) "card_id" = JStr card_id.
Proof.
  unfold doc_get, MockBankingApi.formatted_card.
  destruct (MockBankingApi.some_text (DatabaseService.blocked_date c));
    destruct (String.eqb (DatabaseService.card_type c) "credit");
    repeat (rewrite lookup_insert_ne by discriminate);
    rewrite lookup_insert_eq; reflexivity.
Qed.

(** X11. The card selection offers the cards of the user and no other:
    the rows read for a user are the stored cards whose owner is the user,
    each card id once; without any the result is the error "No cards
    found for user", otherwise it asks for a selection with one option
    for each row, whose id is the card id. *)
Theorem get_user_cards_offers_own_cards :
  forall (d : DatabaseService.db) (user_id : string),
    let rows := DatabaseService.get_user_cards d user_id in
    (forall card_id c,
        In (card_id, c) rows <->
        DatabaseService.get_card d card_id = Some c /\
        DatabaseService.card_user_id c = user_id) /\
    NoDup (List.map fst rows) /\
    match rows with
    | [] => BankingApi.get_user_cards d user_id
            = MockBankingApi.error "No cards found for user"
    | _ => doc_get (BankingApi.get_user_cards d user_id) "requires_selection"
           = JBool true /\
           doc_get (BankingApi.get_user_cards d user_id) "options"
           = JArr (List.map (fun row => JObj {[ "id" := JStr (fst row) ]})
                            rows)
    end.
Proof.
  intros d user_id rows.
  split; [intros card_id c; apply get_user_cards_rows|].
  split.
  { unfold rows, DatabaseService.get_user_cards.
    apply filter_fst_NoDup. apply NoDup_fst_map_to_list. }
  unfold BankingApi.get_user_cards, MockBankingApi.get_user_cards_data.
  fold rows. destruct rows as [|row rows']; [reflexivity|].
  set (l := row :: rows').
  unfold MockBankingApi.status_of, doc_get.
  rewrite lookup_insert_eq. cbn [default from_option id is_str].
  rewrite String.eqb_refl.
  rewrite lookup_insert_ne by discriminate. rewrite lookup_insert_eq.
  cbn [default from_option id].
  split; [reflexivity|].
  rewrite lookup_insert_ne by discriminate.
  rewrite lookup_insert_ne by discriminate.
  rewrite lookup_singleton_eq. cbn [default from_option id].
  f_equal. rewrite !List.map_map. apply List.map_ext. intros [cid c].
  cbn [fst snd]. pose proof (formatted_card_id cid c) as Hid.
  unfold doc_get in Hid. rewrite Hid. reflexivity.
Qed.

(** ** Tool execution *)

(** No registered function has a parameter [session_id]. *)
Lemma no_tool_takes_session_id (tool_name : string)
    (sig : ToolExecutor.signature) :
  ToolExecutor.find_tool tool_name = Some sig ->
  existsb (String.eqb "session_id") (ToolExecutor.parameters sig) = false.
Proof.
  unfold ToolExecutor.find_tool, ToolExecutor.tool_functions.
  cbn [List.find fst snd].
  repeat match goal with
         | |- context [String.eqb ?a tool_name] =>
             destruct (String.eqb a tool_name);
             [intros [= <-]; reflexivity|]
         end.
  discriminate.
Qed.

Lemma binds_rejects_session_id (tool_name : string)
    (sig : ToolExecutor.signature) (kwargs : gmap string json) (v : json) :
  ToolExecutor.find_tool tool_name = Some sig ->
  kwargs !! "session_id" = Some v ->
  ToolExecutor.binds sig kwargs = false.
Proof.
  intros Hsig Hv. unfold ToolExecutor.binds.
  destruct (forallb _ (map_to_list kwargs)) eqn:E; [|reflexivity].
  exfalso. rewrite forallb_forall in E.
  assert (Hin : In ("session_id", v) (map_to_list kwargs)).
  { apply list_elem_of_In. apply elem_of_map_to_list. exact Hv. }
  specialize (E _ Hin). cbn [fst] in E.
  rewrite (no_tool_takes_session_id tool_name sig Hsig) in E.
  discriminate E.
Qed.

(** X12. A tool call made through [_execute_tool_with_context] never runs
    the tool: the [session_id] added to the arguments is a keyword that no
    registered function accepts, so the call yields the error string of
    [execute] (or that of an unknown tool, or a [TypeError] when the
    arguments name a parameter of [execute]) and the tables are
    untouched.  Called directly, without the added keyword, [execute]
    does run the body of the tool. *)
Theorem execute_with_context_never_reaches_a_tool :
  forall (call : string -> gmap string json -> DatabaseService.db ->
                 py (DatabaseService.db * json))
         (d : DatabaseService.db) (user_id session_id tool_name : string)
         (tool_args : gmap string json),
    match ToolExecutor.execute_with_context call d user_id session_id
            tool_name tool_args with
    | Ret (d', o) =>
        d' = d /\
        o = match ToolExecutor.find_tool tool_name with
            | Some _ => ToolExecutor.ToolFailed
            | None => ToolExecutor.ToolNotFound
            end
    | Raise e => e = "TypeError"
    end /\
    ToolExecutor.execute call d user_id "get_account_balance" ∅
    = match call "get_account_balance" {[ "user_id" := JStr user_id ]} d with
      | Ret (d', v) => (d', ToolExecutor.ToolResult v)
      | Raise _ => (d, ToolExecutor.ToolFailed)
      end.
Proof.
  intros call d user_id session_id tool_name tool_args.
  split; [|reflexivity].
  unfold ToolExecutor.execute_with_context.
  destruct (existsb _ _); [reflexivity|].
  unfold ToolExecutor.execute.
  destruct (ToolExecutor.find_tool tool_name) as [sig|] eqn:Hsig;
    [|split; reflexivity].
  rewrite (binds_rejects_session_id tool_name sig _ (JStr session_id) Hsig).
  - split; reflexivity.
  - destruct (ToolExecutor.takes_user_id tool_name).
    + rewrite lookup_insert_ne by discriminate. apply lookup_insert_eq.
    + apply lookup_insert_eq.
Qed.

(** ** The router, the pending actions and the multi-step processes *)

(** X13. A message that is a bare amount triggers no handler by its text:
    none of the phrases of the cascade occurs in it, so the turn goes to
    the loan handler when a loan application is stored, else to the
    pending action if there is one, else to the stored multi-step
    process, else to the model-driven path. *)
Theorem bare_number_goes_where_the_state_says :
  forall (current_state : gmap string json) (tok : string),
    is_numerical_response tok = true ->
    Agent.process_turn current_state tok
    = py_bind
        (dict_get (doc_get_obj current_state "multi_step_process") "type")
        (fun type =>
           if is_str type "loan_application" then Ret Agent.LoanProcess
           else if truthy (doc_get_obj current_state "pending_action")
           then Ret Agent.PendingActions
           else if truthy (doc_get current_state "multi_step_process")
           then Ret Agent.MultiStepProcesses
           else Ret Agent.LlmProcessing).
Proof.
  intros current_state tok Hnum.
  pose proof (numerical_response_chars tok Hnum) as Hchars.
  assert (Hno : forall phrases, forallb starts_outside phrases = true ->
                                any_in phrases tok = false).
  { intros phrases Hp. exact (numeric_no_phrases phrases tok Hp Hchars). }
  unfold Agent.process_turn.
  rewrite (numeric_lower tok Hchars), (numeric_strip tok Hchars), Hnum.
  rewrite !Hno by reflexivity. cbn [andb negb].
  destruct (dict_get (doc_get_obj current_state "multi_step_process") "type")
    as [type|e]; cbn [py_bind]; [|reflexivity].
  destruct (is_str type "loan_application"); reflexivity.
Qed.

Lemma bare_number_goes_where_the_state_says_witness :
  Agent.process_turn (state_amount 15000) "$20,000.00"
  = py_bind
      (dict_get (doc_get_obj (state_amount 15000) "multi_step_process")
                "type")
      (fun type =>
         if is_str type "loan_application" then Ret Agent.LoanProcess
         else if truthy (doc_get_obj (state_amount 15000) "pending_action")
         then Ret Agent.PendingActions
         else if truthy (doc_get (state_amount 15000) "multi_step_process")
         then Ret Agent.MultiStepProcesses
         else Ret Agent.LlmProcessing).
Proof.
  apply (bare_number_goes_where_the_state_says (state_amount 15000)
           "$20,000.00").
  reflexivity.
Defined.

(** What the stored state looks like when the cascade ends in
    [_handle_multi_step_processes]. *)
Lemma process_turn_multi_step (current_state : gmap string json)
    (message : string) :
  Agent.process_turn current_state message = Ret Agent.MultiStepProcesses ->
  truthy (doc_get_obj current_state "pending_action") = false /\
  truthy (doc_get current_state "multi_step_process") = true /\
  exists type,
    dict_get (doc_get_obj current_state "multi_step_process") "type"
    = Ret type /\
    is_str type "loan_application" = false.
Proof.
  unfold Agent.process_turn.
  destruct (any_in Agent.account_details_phrases (lower message));
    [discriminate|].
  destruct (any_in Agent.balance_phrases (lower message)); [discriminate|].
  destruct (any_in Agent.transaction_phrases (lower message));
    [discriminate|].
  destruct (any_in Agent.card_management_phrases (lower message));
    [discriminate|].
  destruct (any_in Agent.new_card_phrases (lower message)); [discriminate|].
  destruct (any_in Agent.block_card_phrases (lower message)
            && negb (any_in Agent.block_card_exclusions (lower message)));
    [discriminate|].
  destruct (any_in Agent.card_list_phrases (lower message)); [discriminate|].
  destruct (any_in Agent.loan_listing_phrases (lower message)
            && negb (any_in Agent.loan_listing_exclusions (lower message)));
    [discriminate|].
  destruct (dict_get (doc_get_obj current_state "multi_step_process") "type")
    as [type|e] eqn:Htype; cbn [py_bind]; [|discriminate].
  destruct (is_str type "loan_application") eqn:Hloan; cbn [orb];
    [discriminate|].
  destruct (any_in Agent.loan_query_phrases (lower message)); cbn [orb andb];
    [discriminate|].
  destruct (truthy (doc_get_obj current_state "pending_action"));
    [discriminate|].
  destruct (truthy (doc_get current_state "multi_step_process"));
    [|discriminate].
  intros _. repeat split. exists type. split; [reflexivity | exact Hloan].
Qed.

(** X14. The loan branch of [_handle_multi_step_processes] is never
    taken from the cascade: when [process_turn] hands a turn to that
    handler the stored process is no loan application, so the answer is
    that of the limit modification, or "Process not recognized" with
    nothing changed. *)
Theorem multi_step_router_never_continues_a_loan :
  forall (timestamp : string) (clk : Agent.clock) (w w' : Agent.world)
         (user_id session_id message : string)
         (current_state : gmap string json) (r : Agent.multi_step_reply),
    Agent.process_turn current_state message = Ret Agent.MultiStepProcesses ->
    Agent._handle_multi_step_processes timestamp clk w user_id session_id
      message current_state = Ret (w', r) ->
    (exists lr, r = Agent.LimitReply lr) \/
    (r = Agent.ProcessNotRecognized /\ w' = w).
Proof.
  intros timestamp clk w w' user_id session_id message current_state r
         Hturn.
  destruct (process_turn_multi_step current_state message Hturn)
    as (_ & _ & type & Htype & Hloan).
  unfold Agent._handle_multi_step_processes. rewrite Htype. cbn [py_bind].
  destruct (is_str type "limit_modification").
  - destruct (Agent._handle_limit_modification_process timestamp w user_id
                session_id message
                (doc_get_obj current_state "multi_step_process"))
      as [[w'' lr]|e]; cbn [py_bind]; [|discriminate].
    intros [= <- <-]. left. exists lr. reflexivity.
  - rewrite Hloan. intros [= <- <-]. right. split; reflexivity.
Qed.

Lemma multi_step_router_never_continues_a_loan_witness :
  (exists lr,
      Agent.LimitReply Agent.SpecifyAmount = Agent.LimitReply lr) \/
  (Agent.LimitReply Agent.SpecifyAmount = Agent.ProcessNotRecognized /\
   {| Agent.sessions := ∅; Agent.bank := sample_db |}
   = {| Agent.sessions := ∅; Agent.bank := sample_db |}).
Proof.
  apply (multi_step_router_never_continues_a_loan "2025-07-28 10:00:00"
           sample_clock {| Agent.sessions := ∅; Agent.bank := sample_db |}
           {| Agent.sessions := ∅; Agent.bank := sample_db |}
           "user123" "s1" "raise it please"
           {[ "multi_step_process" := JObj
                {[ "type" := JStr "limit_modification";
                   "current_step" := JStr "new_limit";
                   "collected_data" := JObj
                     {[ "card_id" := JStr "card_001";
                        "current_limit" := JNum 15000 ]};
                   "card_id" := JStr "card_001" ]} ]}
           (Agent.LimitReply Agent.SpecifyAmount));
    vm_compute; reflexivity.
Defined.

(** A copy of the stored document, changed and written back with
    [update_state], is merged over the stored document. *)
Lemma write_back (t : gmap string (gmap string json)) (session_id : string)
    (st copy : gmap string json) :
  StateManager.get_state t session_id = Some st ->
  StateManager.get_state
    (fst (StateManager.update_state t session_id copy)) session_id
  = Some (copy ∪ st).
Proof.
  intros Hst. rewrite update_state_stored.
  unfold StateManager.update_state. rewrite Hst. reflexivity.
Qed.

(** Writing back a copy from which a key was deleted stores the document
    that was there. *)
Lemma write_back_deleted (t : gmap string (gmap string json))
    (session_id key : string) (st : gmap string json) :
  StateManager.get_state t session_id = Some st ->
  fst (StateManager.update_state t session_id (delete key st)) = t.
Proof.
  intros Hst. unfold StateManager.update_state. rewrite Hst.
  cbn [default from_option id fst].
  rewrite (map_subseteq_union (delete key st) st (delete_subseteq _ _)).
  apply insert_id. exact Hst.
Qed.

(** With a pending action stored, the cascade ends neither in the
    multi-step handler nor in the model-driven path. *)
Lemma process_turn_pending (current_state : gmap string json)
    (message : string) :
  truthy (doc_get_obj current_state "pending_action") = true ->
  Agent.process_turn current_state message ≠ Ret Agent.MultiStepProcesses /\
  Agent.process_turn current_state message ≠ Ret Agent.LlmProcessing.
Proof.
  intros Hpending. unfold Agent.process_turn. rewrite Hpending.
  destruct (any_in Agent.account_details_phrases (lower message));
    [split; discriminate|].
  destruct (any_in Agent.balance_phrases (lower message));
    [split; discriminate|].
  destruct (any_in Agent.transaction_phrases (lower message));
    [split; discriminate|].
  destruct (any_in Agent.card_management_phrases (lower message));
    [split; discriminate|].
  destruct (any_in Agent.new_card_phrases (lower message));
    [split; discriminate|].
  destruct (any_in Agent.block_card_phrases (lower message)
            && negb (any_in Agent.block_card_exclusions (lower message)));
    [split; discriminate|].
  destruct (any_in Agent.card_list_phrases (lower message));
    [split; discriminate|].
  destruct (any_in Agent.loan_listing_phrases (lower message)
            && negb (any_in Agent.loan_listing_exclusions (lower message)));
    [split; discriminate|].
  destruct (dict_get (doc_get_obj current_state "multi_step_process") "type")
    as [type|e]; cbn [py_bind]; [|split; discriminate].
  match goal with
  | |- context [if ?c then _ else _] => destruct c
  end; split; discriminate.
Qed.

(** X15. Whatever tool asked for a selection, the answer to it is handled
    as the choice of a card to block: the pending action stored by
    [_handle_selection_process] has the process type [selection], which
    [_handle_pending_actions] passes to the card-blocking selection; and
    while it is stored no later turn reaches the multi-step handler or
    the model-driven path. *)
Theorem selection_answers_are_card_blocking :
  forall (t t' : gmap string (gmap string json)) (session_id : string)
         (tool_result : gmap string json) (tool_name : string)
         (arguments : gmap string json) (r : Agent.selection_reply),
    Agent._handle_selection_process t session_id tool_result tool_name
      arguments = Ret (t', r) ->
    exists st' pending_action,
      StateManager.get_state t' session_id = Some st' /\
      st' !! "pending_action" = Some pending_action /\
      truthy pending_action = true /\
      Agent._handle_pending_actions pending_action
      = Ret Agent.CardBlockingSelection /\
      (forall message,
          Agent.process_turn st' message ≠ Ret Agent.MultiStepProcesses /\
          Agent.process_turn st' message ≠ Ret Agent.LlmProcessing).
Proof.
  intros t t' session_id tool_result tool_name arguments r.
  unfold Agent._handle_selection_process, Agent.dict_item.
  destruct (tool_result !! "message") as [m|]; cbn [py_bind];
    [|discriminate].
  destruct (tool_result !! "options") as [options|]; cbn [py_bind];
    [|discriminate].
  intros [= <- <-].
  eexists _, _. split; [apply update_state_stored|].
  assert (Hpa : forall u,
             snd (StateManager.update_state t session_id
                    {[ "pending_action" := u ]}) !! "pending_action"
             = Some u).
  { intros u. rewrite update_state_lookup, lookup_singleton_eq.
    reflexivity. }
  split; [apply Hpa|].
  split; [reflexivity|]. split; [reflexivity|].
  intros message. apply process_turn_pending.
  unfold doc_get_obj. rewrite Hpa. reflexivity.
Qed.

Lemma selection_answers_are_card_blocking_witness :
  exists st' pending_action,
    StateManager.get_state
      (fst (StateManager.update_state ∅ "s1"
              {[ "pending_action" := JObj
                   {[ "tool" := JStr "get_user_cards";
                      "args" := JObj ∅;
                      "options" := JArr [ JObj {[ "id" := JStr "card_001" ]};
                                          JObj {[ "id" := JStr "card_005" ]} ];
                      "process_type" := JStr "selection" ]} ]})) "s1"
    = Some st' /\
    st' !! "pending_action" = Some pending_action /\
    truthy pending_action = true /\
    Agent._handle_pending_actions pending_action
    = Ret Agent.CardBlockingSelection /\
    (forall message,
        Agent.process_turn st' message ≠ Ret Agent.MultiStepProcesses /\
        Agent.process_turn st' message ≠ Ret Agent.LlmProcessing).
Proof.
  apply (selection_answers_are_card_blocking ∅ _ "s1" selection_result
           "get_user_cards" ∅ Agent.SelectionPrompt).
  reflexivity.
Defined.

(** X16. The card-blocking selection does not clear the pending action:
    with a stored session document, the sessions after the handler are
    the sessions before it. A message without "card_" and digits changes
    nothing at all; otherwise the card whose id is the digits padded to
    three places is blocked for the user, as [block_card_data] decides. *)
Theorem card_blocking_selection_keeps_pending_action :
  forall (timestamp : string) (clk : Agent.clock) (w w' : Agent.world)
         (user_id session_id message : string) (pending_action : json)
         (st : gmap string json) (r : Agent.selection_reply),
    StateManager.get_state (Agent.sessions w) session_id = Some st ->
    Agent._handle_card_blocking_selection timestamp clk w user_id session_id
      message pending_action = Ret (w', r) ->
    Agent.sessions w' = Agent.sessions w /\
    match Agent.card_search (lower message) with
    | Some digits =>
        Agent.bank w'
        = fst (MockBankingApi.block_card_data timestamp (Agent.hhmm clk)
                 (Agent.bank w) user_id ("card_" ++ Agent.zfill3 digits)) /\
        exists n,
          r = Agent.BlockAnswer
                (MockBankingApi.status_of
                   (snd (MockBankingApi.block_card_data timestamp
                           (Agent.hhmm clk) (Agent.bank w) user_id
                           ("card_" ++ Agent.zfill3 digits)))) n
    | None => w' = w /\ r = Agent.SelectValidCard
    end.
Proof.
  intros timestamp clk w w' user_id session_id message pending_action st r
         Hst.
  unfold Agent._handle_card_blocking_selection.
  destruct (Agent.card_search (lower message)) as [digits|].
  - destruct (MockBankingApi.block_card_data timestamp (Agent.hhmm clk)
                (Agent.bank w) user_id ("card_" ++ Agent.zfill3 digits))
      as [bank' block_result].
    rewrite Hst. cbn [default from_option id].
    destruct (Agent._get_context_switch_message st) as [n|e];
      cbn [py_bind]; [|discriminate].
    intros [= <- <-]. cbn [Agent.sessions Agent.bank fst snd].
    split; [apply (write_back_deleted _ _ _ _ Hst)|].
    split; [reflexivity|]. exists n. reflexivity.
  - intros [= <- <-]. repeat split.
Qed.

Lemma card_blocking_selection_keeps_pending_action_witness :
  let st : gmap string json :=
    {[ "pending_action" := JObj
         (Agent.block_card_pending_action (JArr [])) ]} in
  let w := {| Agent.sessions := {[ "s1" := st ]};
              Agent.bank := sample_db |} in
  let w' := {| Agent.sessions := {[ "s1" := st ]};
               Agent.bank :=
                 fst (MockBankingApi.block_card_data "2025-07-28 10:00:00"
                        "1000" sample_db "user123" "card_001") |} in
  Agent.sessions w' = Agent.sessions w /\
  match Agent.card_search (lower "Card_1") with
  | Some digits =>
      Agent.bank w'
      = fst (MockBankingApi.block_card_data "2025-07-28 10:00:00"
               (Agent.hhmm sample_clock)
               (Agent.bank w) "user123" ("card_" ++ Agent.zfill3 digits)) /\
      exists n,
        Agent.BlockAnswer (JStr "success") Agent.NoNote
        = Agent.BlockAnswer
              (MockBankingApi.status_of
                 (snd (MockBankingApi.block_card_data "2025-07-28 10:00:00"
                         (Agent.hhmm sample_clock) (Agent.bank w) "user123"
                         ("card_" ++ Agent.zfill3 digits)))) n
  | None => w' = w /\
            Agent.BlockAnswer (JStr "success") Agent.NoNote
            = Agent.SelectValidCard
  end.
Proof.
  intros st w w'.
  apply (card_blocking_selection_keeps_pending_action "2025-07-28 10:00:00"
           sample_clock w w' "user123" "s1" "Card_1"
           (JObj (Agent.block_card_pending_action (JArr []))) st
           (Agent.BlockAnswer (JStr "success") Agent.NoNote));
    vm_compute; reflexivity.
Defined.

(** What [get_current_limit_info] says when it asks to go on. *)
Lemma limit_info_continuation (d : DatabaseService.db)
    (user_id card_id : string) :
  truthy (doc_get (MockBankingApi.get_current_limit_info d user_id card_id)
                  "requires_continuation") = true ->
  doc_get (MockBankingApi.get_current_limit_info d user_id card_id)
          "process_type" = JStr "limit_modification" /\
  doc_get (MockBankingApi.get_current_limit_info d user_id card_id)
          "current_step" = JStr "new_limit" /\
  exists limit,
    doc_get_obj (MockBankingApi.get_current_limit_info d user_id card_id)
                "collected_data"
    = JObj {[ "card_id" := JStr card_id; "current_limit" := JNum limit ]}.
Proof.
  unfold MockBankingApi.get_current_limit_info.
  destruct (DatabaseService.get_card d card_id) as [c|]; [|discriminate].
  destruct (negb (String.eqb (DatabaseService.card_user_id c) user_id));
    [discriminate|].
  destruct (String.eqb (DatabaseService.card_type c) "credit");
    [|discriminate].
  destruct (DatabaseService.limit_amount c) as [limit|]; [|discriminate].
  destruct (Qeq_bool limit 0); [discriminate|].
  intros _. split; [reflexivity|]. split; [reflexivity|].
  exists limit. reflexivity.
Qed.

(** X17. Choosing the card whose limit is to be changed stores the
    limit-modification process at the step [new_limit], but leaves the
    pending action stored; so no later turn is handed to
    [_handle_multi_step_processes], the handler of that step.  The
    tables are untouched. *)
Theorem limit_selection_keeps_pending_action :
  forall (w w' : Agent.world) (user_id session_id message : string)
         (pending_action : json) (st : gmap string json),
    StateManager.get_state (Agent.sessions w) session_id = Some st ->
    st !! "pending_action" = Some pending_action ->
    truthy pending_action = true ->
    Agent._handle_limit_modification_selection w user_id session_id message
      pending_action = Ret (w', Agent.LimitQuestion) ->
    exists st' process,
      StateManager.get_state (Agent.sessions w') session_id = Some st' /\
      st' !! "pending_action" = Some pending_action /\
      st' !! "multi_step_process" = Some (JObj process) /\
      process !! "type" = Some (JStr "limit_modification") /\
      process !! "current_step" = Some (JStr "new_limit") /\
      Agent.bank w' = Agent.bank w /\
      (forall next_message,
          Agent.process_turn st' next_message
          ≠ Ret Agent.MultiStepProcesses).
Proof.
  intros w w' user_id session_id message pending_action st Hst Hpa Htruthy.
  unfold Agent._handle_limit_modification_selection.
  destruct (dict_get pending_action "step") as [step|e]; cbn [py_bind];
    [|discriminate].
  destruct (is_str step "card_selection"); [|discriminate].
  destruct (Agent.card_search (lower message)) as [digits|]; [|discriminate].
  destruct (truthy (doc_get (MockBankingApi.get_current_limit_info
                               (Agent.bank w) user_id
                               ("card_" ++ Agent.zfill3 digits))
                            "requires_continuation")) eqn:Hcont;
    [|discriminate].
  destruct (limit_info_continuation _ _ _ Hcont) as (Htype & Hstep & L & Hcd).
  rewrite Htype, Hstep, Hcd, Hst. cbn [default from_option id].
  intros [= <-]. cbn [Agent.sessions Agent.bank].
  eexists _, _. split; [apply (write_back _ _ _ _ Hst)|].
  assert (Hkept : (delete "pending_action"
                     (<["multi_step_process" := JObj
                          {[ "type" := JStr "limit_modification";
                             "current_step" := JStr "new_limit";
                             "collected_data" := JObj
                               {[ "card_id" :=
                                    JStr ("card_" ++ Agent.zfill3 digits);
                                  "current_limit" := JNum L ]};
                             "card_id" :=
                               JStr ("card_" ++ Agent.zfill3 digits) ]}]> st)
                     ∪ st) !! "pending_action" = Some pending_action).
  { rewrite lookup_union_r by apply lookup_delete_eq. exact Hpa. }
  split; [exact Hkept|].
  split.
  { apply lookup_union_Some_l. rewrite lookup_delete_ne by discriminate.
    apply lookup_insert_eq. }
  split; [reflexivity|]. split; [reflexivity|]. split; [reflexivity|].
  intros next_message. apply process_turn_pending.
  unfold doc_get_obj. rewrite Hkept. exact Htruthy.
Qed.

Lemma limit_selection_keeps_pending_action_witness :
  let st : gmap string json := {[ "pending_action" := limit_pending_action ]} in
  let w := {| Agent.sessions := {[ "s1" := st ]};
              Agent.bank := sample_db |} in
  exists st' process,
    StateManager.get_state
      (Agent.sessions
         {| Agent.sessions :=
              {[ "s1" := {[ "pending_action" := limit_pending_action;
                            "multi_step_process" := limit_process ]} ]};
            Agent.bank := sample_db |}) "s1" = Some st' /\
    st' !! "pending_action" = Some limit_pending_action /\
    st' !! "multi_step_process" = Some (JObj process) /\
    process !! "type" = Some (JStr "limit_modification") /\
    process !! "current_step" = Some (JStr "new_limit") /\
    sample_db = Agent.bank w /\
    (forall next_message,
        Agent.process_turn st' next_message ≠ Ret Agent.MultiStepProcesses).
Proof.
  intros st w.
  apply (limit_selection_keeps_pending_action w
           {| Agent.sessions :=
                {[ "s1" := {[ "pending_action" := limit_pending_action;
                              "multi_step_process" := limit_process ]} ]};
              Agent.bank := sample_db |}
           "user123" "s1" "card_001" limit_pending_action st);
    vm_compute; reflexivity.
Defined.

(** X18. The limit-modification step never changes the session table: a
    successful change leaves the process stored, so the next amount
    changes the limit again.  Every answer other than the success leaves
    the tables untouched as well. *)
Theorem limit_modification_process_keeps_process :
  forall (timestamp : string) (w w' : Agent.world)
         (user_id session_id message : string) (multi_step : json)
         (st : gmap string json) (r : Agent.selection_reply),
    StateManager.get_state (Agent.sessions w) session_id = Some st ->
    Agent._handle_limit_modification_process timestamp w user_id session_id
      message multi_step = Ret (w', r) ->
    Agent.sessions w' = Agent.sessions w /\
    match r with
    | Agent.LimitChanged _ => True
    | _ => w' = w
    end.
Proof.
  intros timestamp w w' user_id session_id message multi_step st r Hst.
  assert (Heta : forall b, b = Agent.bank w ->
                           {| Agent.sessions := Agent.sessions w;
                              Agent.bank := b |} = w).
  { intros b ->. destruct w; reflexivity. }
  unfold Agent._handle_limit_modification_process.
  destruct (dict_get multi_step "current_step") as [step|e]; cbn [py_bind];
    [|discriminate].
  destruct (is_str step "new_limit");
    [|intros [= <- <-]; split; reflexivity].
  destruct (amount_search message) as [group|];
    [|intros [= <- <-]; split; reflexivity].
  destruct (float_of_string (remove_char ","%char group)) as [new_limit|e];
    [|intros [= <- <-]; split; reflexivity].
  destruct (dict_get_obj multi_step "collected_data") as [cd|e];
    cbn [py_bind]; [|discriminate].
  destruct (dict_get cd "card_id") as [card_id|e]; cbn [py_bind];
    [|discriminate].
  destruct (negb (truthy card_id));
    [intros [= <- <-]; split; reflexivity|].
  destruct card_id as [| | |card_id| |]; try discriminate.
  pose proof (modify_credit_limit_data_failure timestamp (Agent.bank w)
                user_id card_id new_limit) as Hfail.
  destruct (MockBankingApi.modify_credit_limit_data timestamp (Agent.bank w)
              user_id card_id new_limit) as [bank' modify_result].
  cbn [fst snd] in Hfail.
  destruct (is_str (MockBankingApi.status_of modify_result) "success")
    eqn:Hs.
  - rewrite Hst. cbn [default from_option id].
    destruct (Agent._get_context_switch_message st) as [n|e];
      cbn [py_bind]; [|discriminate].
    intros [= <- <-]. cbn [Agent.sessions].
    split; [apply (write_back_deleted _ _ _ _ Hst) | exact I].
  - intros [= <- <-]. cbn [Agent.sessions].
    split; [reflexivity|]. apply Heta. apply Hfail.
    intros E. rewrite E in Hs. discriminate Hs.
Qed.

Lemma limit_modification_process_keeps_process_witness :
  let st : gmap string json := {[ "multi_step_process" := limit_process ]} in
  let w := {| Agent.sessions := {[ "s1" := st ]};
              Agent.bank := sample_db |} in
  let w' := {| Agent.sessions := {[ "s1" := st ]};
               Agent.bank :=
                 fst (MockBankingApi.modify_credit_limit_data
                        "2025-07-28 10:00:00" sample_db "user123" "card_001"
                        20000) |} in
  Agent.sessions w' = Agent.sessions w /\ True.
Proof.
  intros st w w'.
  apply (limit_modification_process_keeps_process "2025-07-28 10:00:00"
           w w' "user123" "s1" "$20,000" limit_process st
           (Agent.LimitChanged Agent.NoNote));
    vm_compute; reflexivity.
Defined.

(** A key deleted from the copy comes back from the stored document. *)
Lemma merged_delete (key k : string) (copy st : gmap string json) :
  (copy ∪ st) !! k = st !! k ->
  (delete key copy ∪ st) !! k = st !! k.
Proof.
  intros H. destruct (String.string_dec k key) as [->|Hne].
  - rewrite lookup_union_r by apply lookup_delete_eq. reflexivity.
  - rewrite lookup_union in H. rewrite lookup_union.
    rewrite lookup_delete_ne by congruence. exact H.
Qed.

Lemma merged_self (st : gmap string json) (k : string) :
  (st ∪ st) !! k = st !! k.
Proof. rewrite (idemp_L (∪) st)%stdpp. reflexivity. Qed.

Lemma merged_insert (key k : string) (v : json) (copy st : gmap string json) :
  k ≠ key ->
  (copy ∪ st) !! k = st !! k ->
  (<[key := v]> copy ∪ st) !! k = st !! k.
Proof.
  intros Hne H. rewrite lookup_union in H. rewrite lookup_union.
  rewrite lookup_insert_ne by congruence. exact H.
Qed.

(** X19. [_cleanup_completed_processes] removes nothing: for a stored
    session document every field other than [context_switched] is
    afterwards as it was, a completed [multi_step_process] and a
    completed [pending_action] included; [context_switched] is as it was
    or [false]. *)
Theorem cleanup_removes_nothing :
  forall (t : gmap string (gmap string json)) (session_id : string)
         (st : gmap string json),
    StateManager.get_state t session_id = Some st ->
    exists st',
      StateManager.get_state (Agent._cleanup_completed_processes t session_id)
                             session_id = Some st' /\
      (forall k, k ≠ "context_switched" -> st' !! k = st !! k) /\
      (st' !! "context_switched" = st !! "context_switched" \/
       st' !! "context_switched" = Some (JBool false)).
Proof.
  intros t session_id st Hst.
  unfold Agent._cleanup_completed_processes, Agent.cleanup_body.
  rewrite Hst. cbn [default from_option id].
  assert (Hsame : exists st',
             StateManager.get_state t session_id = Some st' /\
             (forall k, k ≠ "context_switched" -> st' !! k = st !! k) /\
             (st' !! "context_switched" = st !! "context_switched" \/
              st' !! "context_switched" = Some (JBool false))).
  { exists st. split; [exact Hst|]. split; [reflexivity | left; reflexivity]. }
  assert (Hwrite : forall copy,
             (forall k, k ≠ "context_switched" ->
                        (copy ∪ st) !! k = st !! k) ->
             ((copy ∪ st) !! "context_switched" = st !! "context_switched" \/
              (copy ∪ st) !! "context_switched" = Some (JBool false)) ->
             exists st',
               StateManager.get_state
                 (fst (StateManager.update_state t session_id copy))
                 session_id = Some st' /\
               (forall k, k ≠ "context_switched" -> st' !! k = st !! k) /\
               (st' !! "context_switched" = st !! "context_switched" \/
                st' !! "context_switched" = Some (JBool false))).
  { intros copy H1 H2. exists (copy ∪ st).
    split; [apply (write_back _ _ _ _ Hst)|]. split; assumption. }
  assert (Hflag : forall copy,
             (forall k, (copy ∪ st) !! k = st !! k) ->
             exists st',
               StateManager.get_state
                 (fst (StateManager.update_state t session_id
                         (if truthy (doc_get copy "context_switched")
                          then <["context_switched" := JBool false]> copy
                          else copy)))
                 session_id = Some st' /\
               (forall k, k ≠ "context_switched" -> st' !! k = st !! k) /\
               (st' !! "context_switched" = st !! "context_switched" \/
                st' !! "context_switched" = Some (JBool false))).
  { intros copy Hcopy. apply Hwrite.
    - intros k Hk. destruct (truthy (doc_get copy "context_switched")).
      + apply merged_insert; [exact Hk | apply Hcopy].
      + apply Hcopy.
    - destruct (truthy (doc_get copy "context_switched")).
      + right. apply lookup_union_Some_l. apply lookup_insert_eq.
      + left. apply Hcopy. }
  destruct (dict_get (doc_get_obj st "multi_step_process") "process_complete")
    as [process_complete|e]; cbn [py_bind]; [|exact Hsame].
  destruct (truthy process_complete); cbn [py_bind].
  - destruct (dict_get (doc_get_obj (delete "multi_step_process" st)
                                    "pending_action") "completed")
      as [completed|e]; cbn [py_bind]; [|exact Hsame].
    destruct (truthy completed); apply Hflag; intros k;
      repeat apply merged_delete; apply merged_self.
  - destruct (dict_get (doc_get_obj st "multi_step_process") "status")
      as [status|e]; cbn [py_bind]; [|exact Hsame].
    destruct (is_str status "complete").
    + destruct (dict_get (doc_get_obj (delete "multi_step_process" st)
                                      "pending_action") "completed")
        as [completed|e]; cbn [py_bind]; [|exact Hsame].
      destruct (truthy completed); apply Hflag; intros k;
        repeat apply merged_delete; apply merged_self.
    + destruct (dict_get (doc_get_obj st "pending_action") "completed")
        as [completed|e]; cbn [py_bind]; [|exact Hsame].
      destruct (truthy completed); apply Hflag; intros k;
        repeat apply merged_delete; apply merged_self.
Qed.

Lemma cleanup_removes_nothing_witness :
  let st : gmap string json :=
    {[ "multi_step_process" := JObj {[ "process_complete" := JBool true ]};
       "pending_action" := JObj {[ "completed" := JBool true ]};
       "context_switched" := JBool true ]} in
  exists st',
    StateManager.get_state
      (Agent._cleanup_completed_processes {[ "s1" := st ]} "s1") "s1"
    = Some st' /\
    (forall k, k ≠ "context_switched" -> st' !! k = st !! k) /\
    (st' !! "context_switched" = st !! "context_switched" \/
     st' !! "context_switched" = Some (JBool false)).
Proof.
  intros st.
  apply (cleanup_removes_nothing {[ "s1" := st ]} "s1" st).
  reflexivity.
Defined.

(** ** The end of the loan dialogue *)

(** A result of [apply_for_loan_data] with the status [success] is the
    result of a stored application. *)
Lemma apply_for_loan_data_success (today : string) (d : DatabaseService.db)
    (user_id : string) (amount : option Q) (purpose : option string)
    (income : option Q) (force_new : bool) :
  MockBankingApi.status_of
    (snd (MockBankingApi.apply_for_loan_data today d user_id amount purpose
            income force_new)) = JStr "success" ->
  truthy (doc_get (snd (MockBankingApi.apply_for_loan_data today d user_id
                          amount purpose income force_new))
                  "requires_continuation") = false /\
  truthy (doc_get (snd (MockBankingApi.apply_for_loan_data today d user_id
                          amount purpose income force_new))
                  "process_complete") = true /\
  length (DatabaseService.get_user_loans
            (fst (MockBankingApi.apply_for_loan_data today d user_id amount
                    purpose income force_new)) user_id)
  = S (length (DatabaseService.get_user_loans d user_id)).
Proof.
  unfold MockBankingApi.apply_for_loan_data.
  destruct (DatabaseService.get_user d user_id) as [u|]; [|discriminate].
  match goal with
  | |- context [if ?c then _ else _] => destruct c
  end.
  { destruct (List.filter _ _); discriminate. }
  destruct (negb (MockBankingApi.some_num amount)); [discriminate|].
  destruct (negb (MockBankingApi.some_text purpose)); [discriminate|].
  destruct (negb (MockBankingApi.some_num income)); [discriminate|].
  unfold DatabaseService.add_loan_application.
  destruct (existsb _ _); [discriminate|].
  intros _. cbn [fst snd]. split; [reflexivity|]. split; [reflexivity|].
  unfold DatabaseService.get_user_loans.
  cbn [DatabaseService.loan_applications List.filter
       DatabaseService.loan_user_id].
  rewrite String.eqb_refl. reflexivity.
Qed.

(** X20. A completed loan application stays the active process: when the
    last step of the dialogue answers [success], the application is added
    to the loans of the user and [last_completed_action] is recorded, and
    every other field of the stored document, [multi_step_process]
    included, is as before. *)
Theorem completed_loan_stays_stored :
  forall (clk : Agent.clock) (w w' : Agent.world)
         (user_id session_id message : string) (loan_process : json)
         (st : gmap string json),
    StateManager.get_state (Agent.sessions w) session_id = Some st ->
    Agent.continue_loan clk w user_id session_id message loan_process
    = Ret (w', Agent.LoanAnswer (JStr "success")) ->
    exists st' application_id,
      StateManager.get_state (Agent.sessions w') session_id = Some st' /\
      st' !! "multi_step_process" = st !! "multi_step_process" /\
      st' !! "last_completed_action"
      = Some (JObj {[ "type" := JStr "loan_application";
                      "application_id" := application_id;
                      "timestamp" := JStr (Agent.now clk) ]}) /\
      (forall k, k ≠ "last_completed_action" -> st' !! k = st !! k) /\
      length (DatabaseService.get_user_loans (Agent.bank w') user_id)
      = S (length (DatabaseService.get_user_loans (Agent.bank w) user_id)).
Proof.
  intros clk w w' user_id session_id message loan_process st Hst.
  unfold Agent.continue_loan.
  destruct (Agent.current_slots message loan_process) as [[[a p] i]|e];
    cbn [py_bind]; [|discriminate].
  destruct (Agent.as_float a) as [oa|e]; cbn [py_bind]; [|discriminate].
  destruct (Agent.as_text p) as [op|e]; cbn [py_bind]; [|discriminate].
  destruct (Agent.as_float i) as [oi|e]; cbn [py_bind]; [|discriminate].
  pose proof (apply_for_loan_data_success (Agent.today clk) (Agent.bank w)
                user_id oa op oi false) as Hshape.
  destruct (MockBankingApi.apply_for_loan_data (Agent.today clk)
              (Agent.bank w) user_id oa op oi false) as [bank' r].
  cbn [fst snd] in Hshape.
  destruct (Agent.status_ok r).
  2:{ destruct (dict_get loan_process "current_step"); discriminate. }
  rewrite Hst. cbn [default from_option id].
  destruct (truthy (doc_get r "requires_continuation")) eqn:Hcont.
  { intros H.
    assert (Hs : MockBankingApi.status_of r = JStr "success") by congruence.
    destruct (Hshape Hs) as (E & _).
    congruence. }
  destruct (truthy (doc_get r "process_complete")) eqn:Hcomplete.
  2:{ intros H.
      assert (Hs : MockBankingApi.status_of r = JStr "success")
        by congruence.
      destruct (Hshape Hs) as (_ & E & _).
      congruence. }
  destruct (dict_get_obj (JObj r) "application") as [application|e];
    cbn [py_bind]; [|discriminate].
  destruct (dict_get application "application_id") as [application_id|e];
    cbn [py_bind]; [|discriminate].
  intros H.
  assert (Hs : MockBankingApi.status_of r = JStr "success") by congruence.
  destruct (Hshape Hs) as (_ & _ & Hlen).
  injection H as <-.
  cbn [Agent.sessions Agent.bank].
  eexists _, application_id. split; [apply (write_back _ _ _ _ Hst)|].
  split.
  { rewrite lookup_union. rewrite lookup_insert_ne by discriminate.
    rewrite lookup_delete_eq. destruct (st !! "multi_step_process");
      reflexivity. }
  split.
  { apply lookup_union_Some_l. apply lookup_insert_eq. }
  split; [|exact Hlen].
  intros k Hk. rewrite lookup_union.
  rewrite lookup_insert_ne by congruence.
  destruct (String.string_dec k "multi_step_process") as [->|Hne].
  - rewrite lookup_delete_eq. destruct (st !! "multi_step_process");
      reflexivity.
  - rewrite lookup_delete_ne by congruence. destruct (st !! k); reflexivity.
Qed.

Lemma completed_loan_stays_stored_witness :
  let st : gmap string json :=
    {[ "multi_step_process" := JObj loan_at_income ]} in
  let w := {| Agent.sessions := {[ "s1" := st ]};
              Agent.bank := sample_db |} in
  let w' := match Agent.continue_loan sample_clock w "user123" "s1" "60000"
                    (JObj loan_at_income) with
            | Ret (w', _) => w'
            | Raise _ => w
            end in
  exists st' application_id,
    StateManager.get_state (Agent.sessions w') "s1" = Some st' /\
    st' !! "multi_step_process" = st !! "multi_step_process" /\
    st' !! "last_completed_action"
    = Some (JObj {[ "type" := JStr "loan_application";
                    "application_id" := application_id;
                    "timestamp" := JStr (Agent.now sample_clock) ]}) /\
    (forall k, k ≠ "last_completed_action" -> st' !! k = st !! k) /\
    length (DatabaseService.get_user_loans (Agent.bank w') "user123")
    = S (length (DatabaseService.get_user_loans (Agent.bank w) "user123")).
Proof.
  intros st w w'.
  apply (completed_loan_stays_stored sample_clock w w' "user123" "s1"
           "60000" (JObj loan_at_income) st);
    vm_compute; reflexivity.
Defined.

Lemma append_empty (s : string) : s ++ "" = s.
Proof.
  induction s as [|c s IH]; [reflexivity|].
  change (String c s ++ "") with (String c (s ++ "")). rewrite IH.
  reflexivity.
Qed.

Lemma remove_absent (c : ascii) (s : string) :
  all_chars (fun d => negb (Ascii.eqb d c)) s = true ->
  remove_char c s = s.
Proof.
  induction s as [|d s IH]; [reflexivity|].
  rewrite all_chars_cons. intros H. apply andb_prop in H.
  destruct H as [Hd Hs]. cbn [remove_char].
  apply negb_true_iff in Hd. rewrite Hd, (IH Hs). reflexivity.
Qed.

Lemma is_numch_not_dollar (c : ascii) :
  is_numch c = true -> negb (Ascii.eqb c "$"%char) = true.
Proof.
  destruct c as [[] [] [] [] [] [] [] []]; intros H;
    try reflexivity; discriminate H.
Qed.

Lemma is_digit_not_dollar (c : ascii) :
  is_digit c = true -> negb (Ascii.eqb c "$"%char) = true.
Proof.
  intros H. apply is_numch_not_dollar. unfold is_numch. rewrite H.
  reflexivity.
Qed.

(** A string that matches [[0-9,]+(?:\.[0-9]{2})?] from its first to its
    last character is the group of the amount pattern, and has no [$]. *)
Lemma amount_group_whole (s : string) :
  negb (String.eqb (fst (span_numch s)) "") = true ->
  match snd (span_numch s) with
  | EmptyString => true
  | String c (String d1 (String d2 EmptyString)) =>
      Ascii.eqb c "."%char && is_digit d1 && is_digit d2
  | _ => false
  end = true ->
  amount_search s = Some s /\ remove_char "$"%char s = s.
Proof.
  intros Hrun Hrest.
  destruct (span_numch_spec s) as [Happ Hchars].
  assert (Hgroup : amount_group_here s = s).
  { unfold amount_group_here.
    destruct (span_numch s) as [run rest]. cbn [fst snd] in *.
    destruct rest as [|c [|d1 [|d2 [|? ?]]]]; try discriminate Hrest.
    - rewrite append_empty in Happ. symmetry. exact Happ.
    - rewrite Hrest. apply andb_prop in Hrest. destruct Hrest as [Hrest _].
      apply andb_prop in Hrest. destruct Hrest as [Hc _].
      apply Ascii.eqb_eq in Hc. subst c. symmetry. exact Happ. }
  split.
  - destruct s as [|c r]; [discriminate Hrun|].
    cbn [amount_search]. cbn [span_numch] in Hrun.
    destruct (is_numch c); [|discriminate Hrun].
    rewrite Hgroup. reflexivity.
  - apply remove_absent. rewrite Happ, all_chars_app.
    rewrite (all_chars_weaken _ _ _ is_numch_not_dollar Hchars).
    cbn [andb].
    destruct (snd (span_numch s)) as [|c [|d1 [|d2 [|? ?]]]];
      try discriminate Hrest; [reflexivity|].
    apply andb_prop in Hrest. destruct Hrest as [Hrest Hd2].
    apply andb_prop in Hrest. destruct Hrest as [Hc Hd1].
    apply Ascii.eqb_eq in Hc. subst c.
    rewrite !all_chars_cons, (is_digit_not_dollar _ Hd1),
      (is_digit_not_dollar _ Hd2). reflexivity.
Qed.

(** The amount pattern reads a bare amount as the bare conversion does. *)
Lemma amount_search_bare (tok : string) (a : Q) :
  is_numerical_response tok = true ->
  Agent.bare_float tok = Ret a ->
  Agent.try_float (amount_search tok) = Some a.
Proof.
  intros Hnum Hbare.
  pose proof (numerical_response_chars tok Hnum) as Hchars.
  unfold Agent.bare_float in Hbare. rewrite (numeric_strip tok Hchars) in Hbare.
  unfold is_numerical_response in Hnum.
  destruct tok as [|c r]; [discriminate Hnum|].
  destruct (Ascii.eqb_spec c "$"%char) as [->|Hc].
  - destruct (span_numch r) as [run rest] eqn:Hspan.
    apply andb_prop in Hnum. destruct Hnum as [Hrun Hrest].
    destruct (amount_group_whole r) as [Hsearch Hremove].
    { rewrite Hspan. exact Hrun. }
    { rewrite Hspan. exact Hrest. }
    cbn [amount_search]. change (is_numch "$"%char) with false. cbv iota.
    rewrite Hsearch. unfold Agent.try_float.
    cbn [remove_char] in Hbare. rewrite Ascii.eqb_refl in Hbare.
    rewrite Hremove in Hbare. rewrite Hbare. reflexivity.
  - destruct (span_numch (String c r)) as [run rest] eqn:Hspan.
    apply andb_prop in Hnum. destruct Hnum as [Hrun Hrest].
    destruct (amount_group_whole (String c r)) as [Hsearch Hremove].
    { rewrite Hspan. exact Hrun. }
    { rewrite Hspan. exact Hrest. }
    rewrite Hsearch. unfold Agent.try_float.
    rewrite Hremove in Hbare. rewrite Hbare. reflexivity.
Qed.

(** X21. At the income step every bare amount replaces the collected
    amount: for a message that is a bare amount with a value other than
    zero, the slots handed to [apply_for_loan] hold that value as the
    income and as the amount too, whatever amount was collected; the
    purpose is the collected one. *)
Theorem bare_number_at_income_overwrites_amount :
  forall (tok : string) (a : Q) (process collected_data : gmap string json),
    is_numerical_response tok = true ->
    Agent.bare_float tok = Ret a ->
    ~ (a == 0)%Q ->
    process !! "type" = Some (JStr "loan_application") ->
    process !! "current_step" = Some (JStr "income") ->
    process !! "collected_data" = Some (JObj collected_data) ->
    Agent.current_slots tok (JObj process)
    = Ret (JNum a, default JNull (collected_data !! "purpose"), JNum a).
Proof.
  intros tok a process collected_data Hnum Hbare Ha Htype Hstep Hcd.
  pose proof (numerical_response_chars tok Hnum) as Hchars.
  unfold Agent.current_slots, Agent.extract.
  rewrite (numeric_lower tok Hchars), (numeric_strip tok Hchars), Hnum.
  rewrite (numeric_no_purpose tok Hchars), (numeric_no_income tok Hchars).
  rewrite (amount_search_bare tok a Hnum Hbare).
  unfold dict_get, dict_get_obj. rewrite Htype, Hstep, Hcd.
  cbn [default from_option id py_bind is_str Agent.try_float
       MockBankingApi.some_num andb negb].
  change (String.eqb "loan_application" "loan_application") with true.
  change (String.eqb "income" "amount") with false.
  change (String.eqb "income" "income") with true.
  cbn [andb negb]. rewrite Hbare. cbn [py_bind].
  unfold Agent.num_or, Agent.text_or.
  cbn [MockBankingApi.some_num MockBankingApi.some_text
       MockBankingApi.opt_num].
  rewrite (nonzero_truthy a Ha). reflexivity.
Qed.

Lemma bare_number_at_income_overwrites_amount_witness :
  Agent.current_slots "$48,000" (JObj loan_at_income)
  = Ret (JNum 48000,
         default JNull
           (({[ "amount" := JNum 20000; "purpose" := JStr "Auto Purchase" ]}
               : gmap string json) !! "purpose"),
         JNum 48000).
Proof.
  apply (bare_number_at_income_overwrites_amount "$48,000" 48000
           loan_at_income
           {[ "amount" := JNum 20000; "purpose" := JStr "Auto Purchase" ]});
    first [reflexivity | intros E; discriminate E].
Defined.

(** X22. A balance query leaves the banking tables and every other
    session as they are, and shows the balance exactly when the user is
    known. *)
Theorem balance_query_frame :
  forall (clk : Agent.clock) (w w' : Agent.world)
         (user_id session_id message : string) (r : Agent.reply),
    Agent._handle_balance_query clk w user_id session_id message
    = Ret (w', r) ->
    Agent.bank w' = Agent.bank w /\
    r = match DatabaseService.get_user (Agent.bank w) user_id with
        | Some _ => Agent.BalanceShown
        | None => Agent.BalanceUnavailable
        end /\
    forall other, other ≠ session_id ->
      StateManager.get_state (Agent.sessions w') other
      = StateManager.get_state (Agent.sessions w) other.
Proof.
  intros clk w w' user_id session_id message r.
  unfold Agent._handle_balance_query.
  destruct (Agent._save_current_process_on_context_switch clk
              (Agent.sessions w) session_id "balance") as [t|e] eqn:Hsave;
    cbn [py_bind]; [|discriminate].
  assert (Hother : forall other, other ≠ session_id ->
             StateManager.get_state t other
             = StateManager.get_state (Agent.sessions w) other).
  { revert Hsave. unfold Agent._save_current_process_on_context_switch.
    destruct (truthy _); [|intros [= <-]; reflexivity].
    repeat match goal with
           | |- py_bind ?c _ = _ -> _ =>
               destruct c; cbn [py_bind]; [|discriminate]
           end.
    match goal with
    | |- context [match ?x with JArr _ => _ | _ => _ end] =>
        destruct x; try discriminate
    end.
    intros [= <-] other Hne. apply update_state_other. exact Hne. }
  cbn [Agent.bank Agent.sessions].
  unfold MockBankingApi.get_account_balance_status.
  destruct (DatabaseService.get_user (Agent.bank w) user_id).
  - change (String.eqb "success" "success") with true. cbv iota.
    destruct (Agent._get_context_switch_message _) as [n|e];
      cbn [py_bind]; [|discriminate].
    intros [= <- <-]. repeat split; exact Hother.
  - intros [= <- <-]. repeat split; exact Hother.
Qed.

Lemma balance_query_frame_witness :
  let w := {| Agent.sessions := {[ "s1" := state_amount 15000 ]};
              Agent.bank := sample_db |} in
  let w' := {| Agent.sessions :=
                 {[ "s1" := state_suspended "2025-07-28T10:00:00" 15000 ]};
               Agent.bank := sample_db |} in
  Agent.bank w' = Agent.bank w /\
  Agent.BalanceShown
  = match DatabaseService.get_user (Agent.bank w) "user123" with
    | Some _ => Agent.BalanceShown
    | None => Agent.BalanceUnavailable
    end /\
  forall other, other ≠ "s1" ->
    StateManager.get_state (Agent.sessions w') other
    = StateManager.get_state (Agent.sessions w) other.
Proof.
  intros w w'.
  apply (balance_query_frame sample_clock w w' "user123" "s1"
           "what is my balance" Agent.BalanceShown).
  vm_compute. reflexivity.
Defined.

(** ** The limit dialogue after the card is chosen *)

(** No card id is read out of a bare amount. *)
Lemma numeric_no_card (s : string) :
  all_chars numeric_char s = true -> Agent.card_search s = None.
Proof.
  induction s as [|c s IH]; intros Hs; [reflexivity|].
  cbn [Agent.card_search].
  rewrite (numeric_no_prefix "card_" (String c s) eq_refl Hs).
  cbn [andb]. rewrite all_chars_cons in Hs. apply andb_prop in Hs.
  destruct Hs as [_ Hs]. exact (IH Hs).
Qed.

(** X23. After the card is chosen the limit dialogue cannot go on: with
    the pending action of the limit modification still stored beside the
    process, a message that is a bare amount goes to the pending action,
    from there to the limit-modification selection, and is answered
    "Please select a valid card option" with nothing changed; the new
    limit is never read. *)
Theorem limit_dialogue_never_reads_the_new_limit :
  forall (st pending process : gmap string json) (tok : string)
         (w : Agent.world) (user_id session_id : string),
    st !! "pending_action" = Some (JObj pending) ->
    pending !! "process_type" = Some (JStr "limit_modification") ->
    st !! "multi_step_process" = Some (JObj process) ->
    process !! "type" = Some (JStr "limit_modification") ->
    is_numerical_response tok = true ->
    Agent.process_turn st tok = Ret Agent.PendingActions /\
    Agent._handle_pending_actions (JObj pending)
    = Ret Agent.LimitModificationSelection /\
    Agent._handle_limit_modification_selection w user_id session_id tok
      (JObj pending) = Ret (w, Agent.SelectValidCard).
Proof.
  intros st pending process tok w user_id session_id Hpa Hpt Hmsp Hty Hnum.
  pose proof (numerical_response_chars tok Hnum) as Hchars.
  assert (Hno : forall phrases, forallb starts_outside phrases = true ->
                                any_in phrases tok = false).
  { intros phrases Hp. exact (numeric_no_phrases phrases tok Hp Hchars). }
  assert (Htruthy : truthy (JObj pending) = true).
  { cbn [truthy]. apply negb_true_iff. apply Nat.eqb_neq. intros E.
    apply map_size_empty_iff in E. rewrite E in Hpt.
    rewrite lookup_empty in Hpt. discriminate Hpt. }
  split; [|split].
  - unfold Agent.process_turn.
    rewrite (numeric_lower tok Hchars), (numeric_strip tok Hchars), Hnum.
    rewrite !Hno by reflexivity. cbn [andb negb].
    unfold doc_get_obj, doc_get, dict_get. rewrite Hmsp, Hpa.
    cbn [default from_option id]. rewrite Hty.
    cbn [default from_option id py_bind is_str].
    change (String.eqb "limit_modification" "loan_application") with false.
    cbn [orb andb]. rewrite Htruthy. reflexivity.
  - unfold Agent._handle_pending_actions, dict_get. rewrite Hpt.
    reflexivity.
  - unfold Agent._handle_limit_modification_selection, dict_get.
    cbn [py_bind]. rewrite (numeric_lower tok Hchars).
    rewrite (numeric_no_card tok Hchars).
    destruct (is_str _ "card_selection"); reflexivity.
Qed.

Lemma limit_dialogue_never_reads_the_new_limit_witness :
  let pending : gmap string json :=
    {[ "tool" := JStr "limit_modification";
       "step" := JStr "card_selection";
       "options" := JArr [ JObj {[ "id" := JStr "card_001" ]} ];
       "process_type" := JStr "limit_modification" ]} in
  let process : gmap string json :=
    {[ "type" := JStr "limit_modification";
       "current_step" := JStr "new_limit";
       "collected_data" := JObj
         {[ "card_id" := JStr "card_001"; "current_limit" := JNum 15000 ]};
       "card_id" := JStr "card_001" ]} in
  let st : gmap string json :=
    {[ "pending_action" := JObj pending;
       "multi_step_process" := JObj process ]} in
  let w := {| Agent.sessions := {[ "s1" := st ]};
              Agent.bank := sample_db |} in
  Agent.process_turn st "20000" = Ret Agent.PendingActions /\
  Agent._handle_pending_actions (JObj pending)
  = Ret Agent.LimitModificationSelection /\
  Agent._handle_limit_modification_selection w "user123" "s1" "20000"
    (JObj pending) = Ret (w, Agent.SelectValidCard).
Proof.
  intros pending process st w.
  apply (limit_dialogue_never_reads_the_new_limit st pending process "20000"
           w "user123" "s1"); reflexivity.
Defined.
